(** * Cloud resource deviation analyzer: batch submission and response parsing

    A shallow embedding of [src/agents/cloud_resource_deviation_analyzer.py]:
    the text-to-JSON extractor, the polling and retry loops of the
    conversational run client, the batch scheduler, the per-system summary
    and the report writer, followed by the properties the specification
    states about them.

    Python strings are sequences of Unicode code points; they are modelled
    as lists of [N].  The two library modules the extractor is built on,
    [re] and [json], are embedded as far as the analyzer uses them: a
    backtracking matcher with Python's priorities (ordered alternation,
    greedy and lazy repetition, one capturing group) and the decoder of
    [json.loads].

    The later parts embed the rest of the analyzer's run (the lookup of
    the input file, the analysis, the whole [run]), the cloud workflow of
    [src/workflow_manager.py], the run mode of [src/main.py] and the
    selection of [src/agents/server_data_extractor.py]. *)

From Stdlib Require Import Ascii String.
From Stdlib Require Import List NArith ZArith Bool Lia Arith.
Import ListNotations.

Set Implicit Arguments.

(** ** Python strings *)

Definition char := N.
Definition str := list char.

Definition py_str (s : string) : str :=
  map N_of_ascii (list_ascii_of_string s).

Definition chr (a : ascii) : char := N_of_ascii a.

Definition char_eqb (a b : char) : bool := N.eqb a b.

Fixpoint str_eqb (a b : str) : bool :=
  match a, b with
  | [], [] => true
  | x :: a', y :: b' => char_eqb x y && str_eqb a' b'
  | _, _ => false
  end.

(** [s[a:b]] for [0 <= a <= b]. *)
Definition slice (s : str) (a b : nat) : str := firstn (b - a) (skipn a s).

(** [t.startswith(s)], returning what follows the prefix. *)
Fixpoint strip_prefix (s t : str) : option str :=
  match s with
  | [] => Some t
  | c :: s' =>
      match t with
      | [] => None
      | d :: t' => if char_eqb c d then strip_prefix s' t' else None
      end
  end.

(** [str.isspace] on one code point, which is what [\s] tests in a [str]
    pattern. *)
Definition is_space (c : char) : bool :=
  ((9 <=? c) && (c <=? 13) || (28 <=? c) && (c <=? 32)
   || (c =? 133) || (c =? 160) || (c =? 5760)
   || (8192 <=? c) && (c <=? 8202)
   || (c =? 8232) || (c =? 8233) || (c =? 8239) || (c =? 8287)
   || (c =? 12288))%N.

(** [[\s\S]]: every code point. *)
Definition any_char (c : char) : bool := is_space c || negb (is_space c).

(** ** Exceptions *)

Inductive exn :=
| JSONDecodeError
| RecursionError
| TypeError
| KeyError
| OtherException (name : string)
| CancelledError.

(** [isinstance(e, Exception)]: [CancelledError] derives from
    [BaseException] only. *)
Definition isinstance_Exception (e : exn) : bool :=
  match e with
  | CancelledError => false
  | _ => true
  end.

Definition isinstance_JSONDecodeError (e : exn) : bool :=
  match e with
  | JSONDecodeError => true
  | _ => false
  end.

Inductive res (A : Type) :=
| Ok (a : A)
| Raise (e : exn).

Arguments Ok {A} a.
Arguments Raise {A} e.

Definition bind {A B} (m : res A) (f : A -> res B) : res B :=
  match m with
  | Ok a => f a
  | Raise e => Raise e
  end.

Notation "x <- m ;; k" := (bind m (fun x => k))
  (at level 61, m at next level, right associativity).
Notation "' p <- m ;; k" := (bind m (fun p => k))
  (at level 61, p pattern, m at next level, right associativity).

(** [try: body  except Exception: handler]. *)
Definition try_except_Exception {A} (body : res A) (handler : exn -> res A)
  : res A :=
  match body with
  | Ok a => Ok a
  | Raise e => if isinstance_Exception e then handler e else Raise e
  end.

(** ** The [re] module *)

Module Re.

(** The patterns of the analyzer repeat character classes only. *)
Inductive regex :=
| Lit (s : str)
| Seq (r1 r2 : regex)
| Alt (r1 r2 : regex)
| Opt (r : regex)
| Star (p : char -> bool)
| LazyStar (p : char -> bool)
| Group (r : regex).

Section Matcher.

Variable R : Type.

(** A continuation receives the rest of the text, the position reached
    and the span of group 1. *)
Definition cont := str -> nat -> option (nat * nat) -> option R.

(** [p*]: as many as possible first, then fewer. *)
Fixpoint greedy (p : char -> bool) (t : str) (i : nat)
    (g : option (nat * nat)) (k : cont) : option R :=
  match t with
  | c :: t' =>
      if p c then
        match greedy p t' (S i) g k with
        | Some r => Some r
        | None => k t i g
        end
      else k t i g
  | [] => k t i g
  end.

(** [p*?]: as few as possible first, then more. *)
Fixpoint lazy (p : char -> bool) (t : str) (i : nat)
    (g : option (nat * nat)) (k : cont) : option R :=
  match k t i g with
  | Some r => Some r
  | None =>
      match t with
      | c :: t' => if p c then lazy p t' (S i) g k else None
      | [] => None
      end
  end.

Fixpoint rmatch (r : regex) (t : str) (i : nat) (g : option (nat * nat))
    (k : cont) : option R :=
  match r with
  | Lit s =>
      match strip_prefix s t with
      | Some t' => k t' (i + length s) g
      | None => None
      end
  | Seq r1 r2 => rmatch r1 t i g (fun t' i' g' => rmatch r2 t' i' g' k)
  | Alt r1 r2 =>
      match rmatch r1 t i g k with
      | Some x => Some x
      | None => rmatch r2 t i g k
      end
  | Opt r1 =>
      match rmatch r1 t i g k with
      | Some x => Some x
      | None => k t i g
      end
  | Star p => greedy p t i g k
  | LazyStar p => lazy p t i g k
  | Group r1 => rmatch r1 t i g (fun t' i' _ => k t' i' (Some (i, i')))
  end.

End Matcher.

Record match_obj := {
  m_start : nat;
  m_end : nat;
  m_span1 : option (nat * nat)
}.

(** The match of [r] that starts at position [i], where [t] is the text
    from [i] on. *)
Definition match_at (r : regex) (t : str) (i : nat) : option match_obj :=
  rmatch r t i None
    (fun _ e g => Some {| m_start := i; m_end := e; m_span1 := g |}).

Fixpoint search_from (r : regex) (t : str) (i : nat) : option match_obj :=
  match match_at r t i with
  | Some m => Some m
  | None =>
      match t with
      | [] => None
      | _ :: t' => search_from r t' (S i)
      end
  end.

(** [re.search(r, text)]: the leftmost match. *)
Definition search (r : regex) (text : str) : option match_obj :=
  search_from r text 0.

(** [m.group(0)] and [m.group(1)]. *)
Definition group0 (text : str) (m : match_obj) : str :=
  slice text (m_start m) (m_end m).

Definition group1 (text : str) (m : match_obj) : str :=
  match m_span1 m with
  | Some (a, b) => slice text a b
  | None => []
  end.

(** [re.sub(r, repl, text)] for a replacement without group references:
    scan left to right; [skip] counts the characters of the current match
    still to be dropped.  An empty match inserts the replacement and keeps
    the character. *)
Fixpoint sub_from (r : regex) (repl : str) (t : str) (skip : nat) : str :=
  match skip with
  | S n =>
      match t with
      | [] => []
      | _ :: t' => sub_from r repl t' n
      end
  | O =>
      match match_at r t 0 with
      | Some m =>
          match m_end m with
          | S n =>
              repl ++ match t with
                      | [] => []
                      | _ :: t' => sub_from r repl t' n
                      end
          | O =>
              repl ++ match t with
                      | [] => []
                      | c :: t' => c :: sub_from r repl t' 0
                      end
          end
      | None =>
          match t with
          | [] => []
          | c :: t' => c :: sub_from r repl t' 0
          end
      end
  end.

Definition sub (r : regex) (repl text : str) : str := sub_from r repl text 0.

End Re.

(** ** The [json] module *)

Module Json.

(** What [json.loads] builds.  A float is kept as the literal it was read
    from; an object is a [dict] in insertion order. *)
#[warnings="-register-all"]
Inductive json :=
| JNull
| JBool (b : bool)
| JInt (z : Z)
| JFloat (lit : str)
| JStr (s : str)
| JList (l : list json)
| JDict (d : list (str * json)).

(** [k in d] and [d[k]]. *)
Fixpoint dict_get (k : str) (d : list (str * json)) : option json :=
  match d with
  | [] => None
  | (k', v) :: d' => if str_eqb k k' then Some v else dict_get k d'
  end.

Definition dict_contains (k : str) (d : list (str * json)) : bool :=
  match dict_get k d with
  | Some _ => true
  | None => false
  end.

(** [d[k] = v]: a key already present keeps its place. *)
Fixpoint dict_set (k : str) (v : json) (d : list (str * json))
  : list (str * json) :=
  match d with
  | [] => [(k, v)]
  | (k', v') :: d' =>
      if str_eqb k k' then (k', v) :: d' else (k', v') :: dict_set k v d'
  end.

Definition is_chr c (a : ascii) : bool := char_eqb c (chr a).
Definition quote : char := 34%N.
Definition backslash : char := 92%N.

Definition is_ws (c : char) : bool :=
  is_chr c " " || (c =? 9)%N || (c =? 10)%N || (c =? 13)%N.

Fixpoint skip_ws (t : str) : str :=
  match t with
  | c :: t' => if is_ws c then skip_ws t' else t
  | [] => []
  end.

Definition is_digit (c : char) : bool := ((48 <=? c) && (c <=? 57))%N.

Definition hex_val (c : char) : option N :=
  if is_digit c then Some (c - 48)%N
  else if ((97 <=? c) && (c <=? 102))%N then Some (c - 87)%N
  else if ((65 <=? c) && (c <=? 70))%N then Some (c - 55)%N
  else None.

Definition hex4 (a b c d : char) : option N :=
  match hex_val a, hex_val b, hex_val c, hex_val d with
  | Some x, Some y, Some z, Some w => Some (((x * 16 + y) * 16 + z) * 16 + w)%N
  | _, _, _, _ => None
  end.

Definition is_high_surrogate (c : N) : bool := ((55296 <=? c) && (c <=? 56319))%N.
Definition is_low_surrogate (c : N) : bool := ((56320 <=? c) && (c <=? 57343))%N.
Definition join_surrogates (hi lo : N) : N :=
  (65536 + ((hi - 55296) * 1024 + (lo - 56320)))%N.

(** The character a one-letter escape stands for. *)
Definition escape_char (e : char) : option char :=
  if char_eqb e quote then Some quote
  else if char_eqb e backslash then Some backslash
  else if is_chr e "/" then Some e
  else if is_chr e "b" then Some 8%N
  else if is_chr e "f" then Some 12%N
  else if is_chr e "n" then Some 10%N
  else if is_chr e "r" then Some 13%N
  else if is_chr e "t" then Some 9%N
  else None.

(** The body of a string literal, after its opening quote (strict mode:
    a control character is an error).  [acc] holds the decoded characters
    in reverse. *)
Fixpoint scanstring (t : str) (acc : str) : res (str * str) :=
  match t with
  | [] => Raise JSONDecodeError
  | c :: t1 =>
      if char_eqb c quote then Ok (rev acc, t1)
      else if char_eqb c backslash then
        match t1 with
        | [] => Raise JSONDecodeError
        | e :: t2 =>
            if is_chr e "u" then
              match t2 with
              | h1 :: h2 :: h3 :: h4 :: t6 =>
                  match hex4 h1 h2 h3 h4 with
                  | None => Raise JSONDecodeError
                  | Some u =>
                      match t6 with
                      | b :: v :: g1 :: g2 :: g3 :: g4 :: t12 =>
                          if is_high_surrogate u && char_eqb b backslash
                             && is_chr v "u"
                          then
                            match hex4 g1 g2 g3 g4 with
                            | None => Raise JSONDecodeError
                            | Some u2 =>
                                if is_low_surrogate u2
                                then scanstring t12 (join_surrogates u u2 :: acc)
                                else scanstring t6 (u :: acc)
                            end
                          else scanstring t6 (u :: acc)
                      | _ => scanstring t6 (u :: acc)
                      end
                  end
              | _ => Raise JSONDecodeError
              end
            else
              match escape_char e with
              | Some x => scanstring t2 (x :: acc)
              | None => Raise JSONDecodeError
              end
        end
      else if (c <? 32)%N then Raise JSONDecodeError
      else scanstring t1 (c :: acc)
  end.

(** The longest run of decimal digits at the head of [t]. *)
Fixpoint span_digits (t : str) : str * str :=
  match t with
  | c :: t' =>
      if is_digit c then let (ds, r) := span_digits t' in (c :: ds, r)
      else ([], t)
  | [] => ([], [])
  end.

Definition digits_value (ds : str) : Z :=
  fold_left (fun a c => (a * 10 + Z.of_N (c - 48))%Z) ds 0%Z.

(** The integer part [0|[1-9][0-9]*]. *)
Definition scan_int_part (t : str) : option (str * str) :=
  match t with
  | c :: t' =>
      if is_chr c "0" then Some ([c], t')
      else if is_digit c then Some (span_digits t)
      else None
  | [] => None
  end.

(** The optional fraction [\.[0-9]+]. *)
Definition scan_frac (t : str) : str * str :=
  match t with
  | c :: t' =>
      if is_chr c "." then
        match span_digits t' with
        | ([], _) => ([], t)
        | (ds, r) => (c :: ds, r)
        end
      else ([], t)
  | [] => ([], [])
  end.

(** The optional exponent [[eE][-+]?[0-9]+]. *)
Definition scan_exp (t : str) : str * str :=
  match t with
  | c :: t' =>
      if is_chr c "e" || is_chr c "E" then
        let (sign, t'') :=
          match t' with
          | s :: u => if is_chr s "-" || is_chr s "+" then ([s], u) else ([], t')
          | [] => ([], t')
          end in
        match span_digits t'' with
        | ([], _) => ([], t)
        | (ds, r) => (c :: sign ++ ds, r)
        end
      else ([], t)
  | [] => ([], [])
  end.

(** A number at the head of [t], whose sign [neg] was already read.
    [int] refuses a literal of more than 4300 digits with a
    [ValueError]. *)
Definition scan_number (neg : bool) (t : str) : res (json * str) :=
  match scan_int_part t with
  | None => Raise JSONDecodeError
  | Some (ip, r1) =>
      let (fp, r2) := scan_frac r1 in
      let (ep, r3) := scan_exp r2 in
      match fp ++ ep with
      | [] =>
          if 4300 <? length ip then Raise (OtherException "ValueError")
          else
            let v := digits_value ip in
            Ok (JInt (if neg then (- v)%Z else v), r3)
      | fe => Ok (JFloat ((if neg then [chr "-"] else []) ++ ip ++ fe), r3)
      end
  end.

(** One value at the head of [t].  [depth] is the number of nested
    containers the interpreter's recursion limit still allows; [fuel]
    bounds the number of calls and is never exhausted when it is at least
    twice the length of the text plus two (a container costs two calls and
    one character, a further element one call and two characters). *)
Fixpoint scan_once (fuel depth : nat) (t : str) {struct fuel}
  : res (json * str) :=
  match fuel with
  | O => Raise RecursionError
  | S fuel' =>
      match t with
      | [] => Raise JSONDecodeError
      | c :: t' =>
          if char_eqb c quote then
            '(s, r) <- scanstring t' [] ;; Ok (JStr s, r)
          else if is_chr c "{" then
            match depth with
            | O => Raise RecursionError
            | S depth' =>
                match skip_ws t' with
                | d :: r =>
                    if is_chr d "}" then Ok (JDict [], r)
                    else object_items fuel' depth' (d :: r) []
                | [] => Raise JSONDecodeError
                end
            end
          else if is_chr c "[" then
            match depth with
            | O => Raise RecursionError
            | S depth' =>
                match skip_ws t' with
                | d :: r =>
                    if is_chr d "]" then Ok (JList [], r)
                    else array_items fuel' depth' (d :: r) []
                | [] => Raise JSONDecodeError
                end
            end
          else if is_chr c "n" then
            match strip_prefix (py_str "ull") t' with
            | Some r => Ok (JNull, r)
            | None => Raise JSONDecodeError
            end
          else if is_chr c "t" then
            match strip_prefix (py_str "rue") t' with
            | Some r => Ok (JBool true, r)
            | None => Raise JSONDecodeError
            end
          else if is_chr c "f" then
            match strip_prefix (py_str "alse") t' with
            | Some r => Ok (JBool false, r)
            | None => Raise JSONDecodeError
            end
          else if is_chr c "N" then
            match strip_prefix (py_str "aN") t' with
            | Some r => Ok (JFloat (py_str "NaN"), r)
            | None => Raise JSONDecodeError
            end
          else if is_chr c "I" then
            match strip_prefix (py_str "nfinity") t' with
            | Some r => Ok (JFloat (py_str "Infinity"), r)
            | None => Raise JSONDecodeError
            end
          else if is_chr c "-" then
            match strip_prefix (py_str "Infinity") t' with
            | Some r => Ok (JFloat (py_str "-Infinity"), r)
            | None => scan_number true t'
            end
          else scan_number false t
      end
  end

(** The members of an object, from the quote of a key on. *)
with object_items (fuel depth : nat) (t : str) (acc : list (str * json))
  {struct fuel} : res (json * str) :=
  match fuel with
  | O => Raise RecursionError
  | S fuel' =>
      match t with
      | q :: t1 =>
          if char_eqb q quote then
            '(key, r1) <- scanstring t1 [] ;;
            match skip_ws r1 with
            | colon :: r2 =>
                if is_chr colon ":" then
                  '(v, r3) <- scan_once fuel' depth (skip_ws r2) ;;
                  let acc' := dict_set key v acc in
                  match skip_ws r3 with
                  | d :: r4 =>
                      if is_chr d "}" then Ok (JDict acc', r4)
                      else if is_chr d "," then
                        object_items fuel' depth (skip_ws r4) acc'
                      else Raise JSONDecodeError
                  | [] => Raise JSONDecodeError
                  end
                else Raise JSONDecodeError
            | [] => Raise JSONDecodeError
            end
          else Raise JSONDecodeError
      | [] => Raise JSONDecodeError
      end
  end

(** The elements of an array, from the first character of a value on;
    [acc] holds the elements read so far in reverse. *)
with array_items (fuel depth : nat) (t : str) (acc : list json)
  {struct fuel} : res (json * str) :=
  match fuel with
  | O => Raise RecursionError
  | S fuel' =>
      '(v, r1) <- scan_once fuel' depth t ;;
      match skip_ws r1 with
      | d :: r2 =>
          if is_chr d "]" then Ok (JList (rev (v :: acc)), r2)
          else if is_chr d "," then array_items fuel' depth (skip_ws r2) (v :: acc)
          else Raise JSONDecodeError
      | [] => Raise JSONDecodeError
      end
  end.

(** [json.loads(s)] under a recursion limit of [depth] nested
    containers. *)
Definition loads (depth : nat) (s : str) : res json :=
  '(v, r) <- scan_once (2 * length s + 2) depth (skip_ws s) ;;
  match skip_ws r with
  | [] => Ok v
  | _ :: _ => Raise JSONDecodeError
  end.

End Json.

Import Re Json.

Notation "r1 >> r2" := (Seq r1 r2) (at level 41, right associativity).

(** An ASCII literal in which the apostrophe stands for the double quote. *)
Definition py_text (s : string) : str :=
  map (fun c => if char_eqb c 39%N then quote else c) (py_str s).

(** ** The text-to-structured extractor *)

(** [try: body  except cls: handler]. *)
Definition try_except {A} (cls : exn -> bool) (body : res A)
    (handler : exn -> res A) : res A :=
  match body with
  | Ok a => Ok a
  | Raise e => if cls e then handler e else Raise e
  end.

(** <<```(?:json)?\s*|\s*```>> *)
Definition fence_marker_re : regex :=
  Alt (Lit (py_str "```") >> Opt (Lit (py_str "json")) >> Star is_space)
      (Star is_space >> Lit (py_str "```")).

(** <<```json\s*([\s\S]*?)\s*```>> *)
Definition fenced_block_re : regex :=
  Lit (py_str "```json") >> Star is_space >> Group (LazyStar any_char)
  >> Star is_space >> Lit (py_str "```").

(** <<\[\s*{[\s\S]*?}\s*\]>> *)
Definition array_re : regex :=
  Lit (py_str "[") >> Star is_space >> Lit (py_str "{")
  >> LazyStar any_char >> Lit (py_str "}") >> Star is_space
  >> Lit (py_str "]").

(** <<{[\s\S]*?}>> *)
Definition object_re : regex :=
  Lit (py_str "{") >> LazyStar any_char >> Lit (py_str "}").

Section Extractor.

(** How many nested containers [json.loads] may descend into before the
    interpreter raises [RecursionError]. *)
Variable recursion_limit : nat.

Definition json_loads : str -> res json := Json.loads recursion_limit.

(** The first statement: remove the code block markers. *)
Definition strip_fences (text : str) : str := sub fence_marker_re [] text.

(** The candidate chosen after the array scan found nothing: the first
    bare object, else the whole text when it parses; [None] is the early
    [return []]. *)
Definition candidate_after_array (text : str) : option str :=
  match search object_re text with
  | Some json_match => Some (group0 text json_match)
  | None =>
      match json_loads text with
      | Ok _ => Some text
      | Raise _ => None
      end
  end.

Definition candidate_after_fence (text : str) : option str :=
  match search array_re text with
  | Some json_match => Some (group0 text json_match)
  | None => candidate_after_array text
  end.

(** The candidate content chosen from the stripped text. *)
Definition choose_candidate (text : str) : option str :=
  match search fenced_block_re text with
  | Some json_match => Some (group1 text json_match)
  | None => candidate_after_fence text
  end.

(** The inner [try]: parse the candidate and shape the result. *)
Definition parse_candidate (json_content : str) : res json :=
  try_except isinstance_JSONDecodeError
    (ai_response <- json_loads json_content ;;
     match ai_response with
     | JList _ => Ok ai_response
     | JDict d =>
         if dict_contains (py_str "results") d then
           match dict_get (py_str "results") d with
           | Some v => Ok v
           | None => Raise KeyError
           end
         else Ok (JList [ai_response])
     | _ => Ok (JList [])
     end)
    (fun _ => Ok (JList [])).

Definition _extract_json_from_text (text : str) : res json :=
  try_except_Exception
    (let text := strip_fences text in
     match choose_candidate text with
     | Some json_content => parse_candidate json_content
     | None => Ok (JList [])
     end)
    (fun _ => Ok (JList [])).

(** The extractor without its fenced-block branch. *)
Definition _extract_json_from_text_unfenced (text : str) : res json :=
  try_except_Exception
    (let text := strip_fences text in
     match candidate_after_fence text with
     | Some json_content => parse_candidate json_content
     | None => Ok (JList [])
     end)
    (fun _ => Ok (JList [])).

End Extractor.

(** ** Truth values *)

(** The exponent of a float literal, read from what follows its
    mantissa. *)
Definition literal_exponent (t : str) : Z :=
  match t with
  | _ :: s :: u =>
      if is_chr s "-" then (- digits_value (fst (span_digits u)))%Z
      else if is_chr s "+" then digits_value (fst (span_digits u))
      else digits_value (fst (span_digits (s :: u)))
  | _ => 0%Z
  end.

(** A float literal that [float] converts to zero: its digits [D] and
    decimal exponent [k] give a value [D * 10 ^ k] of at most
    [2 ^ -1075], half the least positive float, which is rounded to
    zero.  [NaN] and the infinities have no digit and are not zero.
    (When [- k] exceeds the number of digits by more than 400 the value
    is below [10 ^ -400]; the power is not computed then.) *)
Definition float_is_zero (lit : str) : bool :=
  let t :=
    match lit with
    | c :: t' => if is_chr c "-" then t' else lit
    | [] => lit
    end in
  let (ip, r1) := span_digits t in
  match ip with
  | [] => false
  | _ :: _ =>
      let (fp, r2) :=
        match r1 with
        | c :: r => if is_chr c "." then span_digits r else ([], r1)
        | [] => ([], [])
        end in
      let D := digits_value (ip ++ fp) in
      let k := (literal_exponent r2 - Z.of_nat (length fp))%Z in
      if (D =? 0)%Z then true
      else if (0 <=? k)%Z then false
      else if (Z.of_nat (length (ip ++ fp)) + 400 <? - k)%Z then true
      else (D * 2 ^ 1075 <=? 10 ^ (- k))%Z
  end.

(** [bool(v)]. *)
Definition truthy (v : json) : bool :=
  match v with
  | JNull => false
  | JBool b => b
  | JInt z => negb (z =? 0)%Z
  | JFloat lit => negb (float_is_zero lit)
  | JStr s => negb (str_eqb s [])
  | JList l => match l with [] => false | _ => true end
  | JDict d => match d with [] => false | _ => true end
  end.

(** ** The remote service *)

(** The requests the analyzer sends. *)
Inductive call :=
| ThreadsCreate
| MessagesCreate (thread_id role content : str)
| ListAgents
| CreateAgent (name description model : str)
| RunsCreateWithAgent (thread_id agent_id : str)
| RunsCreateWithModel (thread_id model : str)
| RunsGet (thread_id run_id : str)
| MessagesList (thread_id : str).

(** What happened so far, newest first: the requests sent and the time
    slept. *)
Inductive event :=
| Call (c : call)
| Sleep (secs : nat).

Definition history := list event.

(** An object that is a [str] or not; [bool(x)] of an object that is not
    a [str] is carried along. *)
Inductive pyobj :=
| PyStr (s : str)
| PyOther (truth : bool).

(** The [text] attribute of a content item: a [str], an object with a
    [value] attribute, or something else (of which [str(text)] is
    taken). *)
Inductive text_attr :=
| TextStr (s : str)
| TextWithValue (value : pyobj)
| TextOther (as_str : str).

(** What [message.content] is. *)
Inductive msg_content :=
| ContentList (items : list (option text_attr))
| ContentStr (s : str)
| ContentWithText (text : pyobj)
| ContentOther.

(** A thread message, with the attributes the analyzer probes; [None]
    is an attribute that is absent. *)
Record message := {
  role : str;
  content : option msg_content;
  text_messages : option (list pyobj);
  text : option pyobj
}.

(** The remote service answers a request as a function of the history;
    an answer is a value or an exception. *)
Record AgentsClient := {
  threads_create : history -> res str;
  messages_create : str -> str -> str -> history -> res unit;
  list_agents : history -> res (list str);
  create_agent : str -> str -> str -> history -> res str;
  runs_create_with_agent : str -> str -> history -> res str;
  runs_create_with_model : str -> str -> history -> res str;
  runs_get : str -> str -> history -> res str;
  messages_list : str -> history -> res (list message)
}.

(** ** Computations that talk to the service *)

Definition M (A : Type) := history -> res A * history.

Definition ret {A} (a : A) : M A := fun h => (Ok a, h).

Definition bindM {A B} (m : M A) (f : A -> M B) : M B :=
  fun h =>
    match m h with
    | (Ok a, h') => f a h'
    | (Raise e, h') => (Raise e, h')
    end.

Notation "x <-- m ;; k" := (bindM m (fun x => k))
  (at level 61, m at next level, right associativity).

Definition request {A} (c : call) (answer : history -> res A) : M A :=
  fun h => (answer h, Call c :: h).

(** [time.sleep(secs)]. *)
Definition sleep (secs : nat) : M unit := fun h => (Ok tt, Sleep secs :: h).

(** [try: body  except Exception as e: handler]. *)
Definition try_exceptM {A} (body : M A) (handler : exn -> M A) : M A :=
  fun h =>
    match body h with
    | (Ok a, h') => (Ok a, h')
    | (Raise e, h') =>
        if isinstance_Exception e then handler e h' else (Raise e, h')
    end.

(** How the body of a [while] loop ends: with a [return] or by falling
    through to the next iteration. *)
Inductive flow (A : Type) :=
| Return (a : A)
| Next.

Arguments Return {A} a.
Arguments Next {A}.

Definition py_bool (x : pyobj) : bool :=
  match x with
  | PyStr s => negb (str_eqb s [])
  | PyOther b => b
  end.

Section RunClient.

Variable recursion_limit : nat.
Variable client : AgentsClient.
Variable AGENT_MODEL_DEPLOYMENT_NAME : str.

(** The loop over [content]: the last item with a [text] decides. *)
Definition text_of_items (items : list (option text_attr)) : option pyobj :=
  fold_left
    (fun ai_response_text item =>
       match item with
       | Some (TextStr s) => Some (PyStr s)
       | Some (TextWithValue v) => Some v
       | Some (TextOther s) => Some (PyStr s)
       | None => ai_response_text
       end)
    items None.

Definition not_ (x : option pyobj) : bool :=
  match x with
  | Some o => negb (py_bool o)
  | None => true
  end.

(** [_extract_ai_response]; every exception is caught inside.  An
    object that is not a [str] makes [re.sub] raise [TypeError], which
    the extractor turns into the empty list. *)
Definition _extract_ai_response (msg : message) : json :=
  let ai_response_text :=
    match content msg with
    | Some (ContentList items) => text_of_items items
    | Some (ContentStr s) => Some (PyStr s)
    | Some (ContentWithText t) => Some t
    | Some ContentOther | None => None
    end in
  let ai_response_text :=
    if not_ ai_response_text then
      match text_messages msg with
      | Some (first :: _) => Some first
      | _ =>
          match text msg with
          | Some t => Some t
          | None => ai_response_text
          end
      end
    else ai_response_text in
  if not_ ai_response_text then JList []
  else
    match ai_response_text with
    | Some (PyStr s) =>
        match _extract_json_from_text recursion_limit s with
        | Ok v => v
        | Raise _ => JList []
        end
    | _ => JList []
    end.

Definition is_assistant (msg : message) : bool :=
  str_eqb (role msg) (py_str "assistant").

Definition terminal_failure (status : str) : bool :=
  str_eqb status (py_str "failed") || str_eqb status (py_str "cancelled")
  || str_eqb status (py_str "expired").

(** The [while] loop of [_poll_for_completion], entered with
    [retry_count] and with [remaining = max_retries - retry_count]
    iterations left. *)
Fixpoint poll_loop (thread_id run_id : str) (max_retries : nat)
    (retry_interval : nat) (remaining retry_count : nat) : M json :=
  match remaining with
  | O => ret (JList [])
  | S remaining' =>
      step <--
        try_exceptM
          (run_status <-- request (RunsGet thread_id run_id)
                            (runs_get client thread_id run_id) ;;
           if str_eqb run_status (py_str "completed") then
             messages <-- request (MessagesList thread_id)
                            (messages_list client thread_id) ;;
             let assistant_messages := filter is_assistant messages in
             match rev assistant_messages with
             | last :: _ => ret (Return (_extract_ai_response last))
             | [] => ret (Return (JList []))
             end
           else if terminal_failure run_status then
             ret (Return (JList []))
           else
             _ <-- sleep retry_interval ;;
             ret Next)
          (fun e =>
             if S retry_count <? max_retries
             then _ <-- sleep retry_interval ;; ret Next
             else ret Next) ;;
      match step with
      | Return v => ret v
      | Next =>
          poll_loop thread_id run_id max_retries retry_interval
            remaining' (S retry_count)
      end
  end.

Definition _poll_for_completion (thread_id run_id : str)
    (max_retries retry_interval : nat) : M json :=
  poll_loop thread_id run_id max_retries retry_interval max_retries 0.

(** [_get_agent_id]: the first agent listed, a new agent when none is,
    [None] on any exception. *)
Definition _get_agent_id : M (option str) :=
  try_exceptM
    (agents_list <-- request ListAgents (list_agents client) ;;
     match agents_list with
     | [] =>
         let name := py_str "Cloud Resource Deviation Analyzer" in
         let description :=
           py_str "Analyzes cloud resource environment deviations in IT systems" in
         agent <-- request
                     (CreateAgent name description AGENT_MODEL_DEPLOYMENT_NAME)
                     (create_agent client name description
                        AGENT_MODEL_DEPLOYMENT_NAME) ;;
         ret (Some agent)
     | first :: _ => ret (Some first)
     end)
    (fun _ => ret None).

(** One attempt: thread, message, run, polling. *)
Definition attempt (system_prompt user_prompt : str) : M (flow json) :=
  thread_id <-- request ThreadsCreate (threads_create client) ;;
  let system_instructions :=
    py_str "You are an expert in IT cloud resource environment analysis. "
    ++ system_prompt in
  let content := system_instructions ++ [10%N; 10%N] ++ user_prompt in
  _ <-- request (MessagesCreate thread_id (py_str "user") content)
          (messages_create client thread_id (py_str "user") content) ;;
  agent_id <-- _get_agent_id ;;
  run_id <--
    match agent_id with
    | Some (c :: id) =>
        request (RunsCreateWithAgent thread_id (c :: id))
          (runs_create_with_agent client thread_id (c :: id))
    | _ =>
        request (RunsCreateWithModel thread_id AGENT_MODEL_DEPLOYMENT_NAME)
          (runs_create_with_model client thread_id
             AGENT_MODEL_DEPLOYMENT_NAME)
    end ;;
  result <-- _poll_for_completion thread_id run_id 30 2 ;;
  if truthy result then ret (Return result) else ret Next.

(** The [while] loop of [_call_ai_with_thread_and_run]. *)
Fixpoint retry_loop (system_prompt user_prompt : str) (max_retries : nat)
    (remaining retry_count : nat) : M json :=
  match remaining with
  | O => ret (JList [])
  | S remaining' =>
      step <--
        try_exceptM (attempt system_prompt user_prompt)
          (fun e =>
             if S retry_count <? max_retries
             then _ <-- sleep 2 ;; ret Next
             else ret Next) ;;
      match step with
      | Return v => ret v
      | Next =>
          retry_loop system_prompt user_prompt max_retries
            remaining' (S retry_count)
      end
  end.

(** [_call_ai_with_thread_and_run(system_prompt, user_prompt,
    max_retries)]; the signature gives [max_retries] the default 3. *)
Definition _call_ai_with_thread_and_run (system_prompt user_prompt : str)
    (max_retries : nat) : M json :=
  retry_loop system_prompt user_prompt max_retries max_retries 0.

Definition default_max_retries : nat := 3.

Definition system_prompt : str :=
  py_str "You are an expert IT cloud resource analyst specializing in compliance and cloud environment validation. 
            Your task is to analyze system cloud environments and identify deviations from the required environment setup.".

(** The body of [_call_ai_for_analysis_async], run on its worker
    thread: the only caller of the run client, with [max_retries=5]. *)
Definition _call_ai_for_analysis (prompt : str) : M json :=
  try_exceptM (_call_ai_with_thread_and_run system_prompt prompt 5)
    (fun _ => ret (JList [])).

End RunClient.

(** ** The inventory and the per-system summary *)

(** A row of the [Cloud_Resource_Inventory] sheet, with the columns
    [load_data] requires.  A cell is the string [pd.read_excel] reads
    from it, or, for a blank cell, the missing value NaN, which is
    [None] here. *)
Record inventory_row := {
  System_Name : option str;
  Environment_Type : option str;
  Subscription_ID : option str;
  Resource_Group_Name : option str
}.

(** A row of the frame [_prepare_data_for_analysis] returns. *)
Record summary := {
  summary_System_Name : option str;
  Environment_Types : list (option str);
  Has_DEV : bool;
  Has_TEST : bool;
  Has_PROD : bool
}.

(** [x in l] on strings. *)
Definition str_in (x : str) (l : list str) : bool := existsb (str_eqb x) l.

(** [a == b] on two cells: the missing value is equal to nothing, itself
    included. *)
Definition cell_eqb (a b : option str) : bool :=
  match a, b with
  | Some x, Some y => str_eqb x y
  | _, _ => false
  end.

(** The values the hash table of [unique] tells apart: the strings, and
    the missing value, which it holds once. *)
Definition same_cell (a b : option str) : bool :=
  match a, b with
  | Some x, Some y => str_eqb x y
  | None, None => true
  | _, _ => false
  end.

(** [x in l] on a list of cells, which compares with [==]. *)
Definition cell_in (x : option str) (l : list (option str)) : bool :=
  existsb (cell_eqb x) l.

(** [Series.unique()]: the distinct values in order of first
    appearance. *)
Fixpoint unique (l : list (option str)) : list (option str) :=
  match l with
  | [] => []
  | x :: l' => x :: filter (fun y => negb (same_cell x y)) (unique l')
  end.

Definition _prepare_data_for_analysis (cloud_data : list inventory_row)
  : list summary :=
  let systems := unique (map System_Name cloud_data) in
  map
    (fun system =>
       let system_data :=
         filter (fun r => cell_eqb (System_Name r) system) cloud_data in
       let environment_types := unique (map Environment_Type system_data) in
       {| summary_System_Name := system;
          Environment_Types := environment_types;
          Has_DEV := cell_in (Some (py_str "DEV")) environment_types;
          Has_TEST := cell_in (Some (py_str "TEST")) environment_types;
          Has_PROD := cell_in (Some (py_str "PROD")) environment_types |})
    systems.

(** ** The batch scheduler *)

(** [range(start, stop, step)] for a positive [step]; [fuel] bounds the
    number of elements. *)
Fixpoint range_from (fuel start stop step : nat) : list nat :=
  match fuel with
  | O => []
  | S fuel' =>
      if start <? stop
      then start :: range_from fuel' (start + step) stop step
      else []
  end.

Definition range (start stop step : nat) : list nat :=
  range_from stop start stop step.

(** [data.iloc[i:j]]. *)
Definition iloc {A} (data : list A) (i j : nat) : list A :=
  firstn (j - i) (skipn i data).

(** What [asyncio.gather(..., return_exceptions=True)] holds for one
    task: the value it returned or the exception it raised. *)
Inductive gathered :=
| Returned (v : json)
| Raised (e : exn).

(** [bool(x)]: an exception object is true. *)
Definition gathered_truthy (x : gathered) : bool :=
  match x with
  | Returned v => truthy v
  | Raised _ => true
  end.

(** [len(x)]. *)
Definition py_len (x : gathered) : res nat :=
  match x with
  | Returned (JList l) => Ok (length l)
  | Returned (JDict d) => Ok (length d)
  | Returned (JStr s) => Ok (length s)
  | _ => Raise TypeError
  end.

(** [list(x)], the elements [extend] appends: the elements of a list,
    the keys of a mapping, the characters of a string. *)
Definition py_iter (x : gathered) : res (list json) :=
  match x with
  | Returned (JList l) => Ok l
  | Returned (JDict d) => Ok (map (fun kv => JStr (fst kv)) d)
  | Returned (JStr s) => Ok (map (fun c => JStr [c]) s)
  | _ => Raise TypeError
  end.

(** [list(results[0].keys())], evaluated for the log line. *)
Definition first_keys (x : gathered) : res (list str) :=
  match x with
  | Returned (JList (JDict d :: _)) => Ok (map fst d)
  | Returned (JList (_ :: _)) => Raise (OtherException "AttributeError")
  | Returned (JList []) => Raise (OtherException "IndexError")
  | Returned (JDict _) => Raise KeyError
  | Returned (JStr _) => Raise (OtherException "AttributeError")
  | _ => Raise TypeError
  end.

Fixpoint for_each {A} (f : A -> res unit) (l : list A) : res unit :=
  match l with
  | [] => Ok tt
  | x :: l' => _ <- f x ;; for_each f l'
  end.

Section BatchScheduler.

(** [DataFrame.to_json(orient='records')] and the two fixed parts of
    the prompt around the data. *)
Variable to_json : list summary -> str.
Variables prompt_head prompt_tail : str.

(** The outcome of the task created for a batch
    [(prompt, batch_index, batch_size, total_records)]. *)
Variable run_task : str -> nat -> nat -> nat -> gathered.

Definition _create_cloud_analysis_prompt (data_json : str) : str :=
  prompt_head ++ data_json ++ prompt_tail.

(** The loop that creates the batches. *)
Definition create_batches (batch_size : nat) (data : list summary)
  : list (str * nat * nat * nat) :=
  map
    (fun i =>
       let batch := iloc data i (i + batch_size) in
       let batch_json := to_json batch in
       let prompt := _create_cloud_analysis_prompt batch_json in
       (prompt, i, batch_size, length data))
    (range 0 (length data) batch_size).

(** The slices the batches are made of. *)
Definition batch_slices (batch_size : nat) (data : list summary)
  : list (list summary) :=
  map (fun i => iloc data i (i + batch_size))
    (range 0 (length data) batch_size).

(** [_process_batches_async]: one task per batch, all awaited, an
    [Exception] replaced by the empty list. *)
Definition _process_batches_async (batches : list (str * nat * nat * nat))
  : list gathered :=
  let results :=
    map (fun batch_data =>
           let '(prompt, i, batch_size, total_records) := batch_data in
           run_task prompt i batch_size total_records)
      batches in
  map
    (fun result =>
       match result with
       | Raised e =>
           if isinstance_Exception e then Returned (JList []) else result
       | Returned _ => result
       end)
    results.

(** The two loops over the batch results: the log lines, then the
    flattening. *)
Definition log_batch_results (batch_results : list gathered) : res unit :=
  for_each
    (fun results =>
       _ <- (if gathered_truthy results
             then _ <- py_len results ;; Ok tt
             else Ok tt) ;;
       if gathered_truthy results then
         n <- py_len results ;;
         if 0 <? n then _ <- first_keys results ;; Ok tt else Ok tt
       else Ok tt)
    batch_results.

Fixpoint flatten_results (batch_results : list gathered)
    (all_results : list json) : res (list json) :=
  match batch_results with
  | [] => Ok all_results
  | results :: rest =>
      if gathered_truthy results then
        items <- py_iter results ;;
        flatten_results rest (all_results ++ items)
      else flatten_results rest all_results
  end.

Definition process_batches (batch_size : nat) (data : list summary)
  : res (list json) :=
  let batches := create_batches batch_size data in
  let batch_results := _process_batches_async batches in
  _ <- log_batch_results batch_results ;;
  flatten_results batch_results [].

(** [_process_batches_with_ai]: the batch size is 10. *)
Definition _process_batches_with_ai (data : list summary)
  : res (list json) :=
  process_batches 10 data.

End BatchScheduler.

(** ** The report *)

(** A frame built from a list of records: its rows, each a mapping from
    column to cell; a column a row lacks is a missing cell there. *)
Definition frame := list (list (str * json)).

(** [len(df)] and [df.empty]: no row, or no column. *)
Definition frame_len (df : frame) : nat := length df.

Definition frame_empty (df : frame) : bool :=
  forallb (fun row => match row with [] => true | _ => false end) df.

Definition has_column (col : str) (df : frame) : bool :=
  existsb (dict_contains col) df.

(** [len(df[df[col] == value])]; [KeyError] when the column is absent. *)
Definition count_where (col value : str) (df : frame) : res nat :=
  if has_column col df then
    Ok (length
          (filter
             (fun row =>
                match dict_get col row with
                | Some (JStr s) => str_eqb s value
                | _ => false
                end)
             df))
  else Raise KeyError.

Definition slash : char := 47%N.
Definition dot : char := 46%N.

Fixpoint take_until (c : char) (s : str) : str :=
  match s with
  | [] => []
  | x :: s' => if char_eqb x c then [] else x :: take_until c s'
  end.

Fixpoint drop_until (c : char) (s : str) : option str :=
  match s with
  | [] => None
  | x :: s' => if char_eqb x c then Some s' else drop_until c s'
  end.

(** [os.path.basename], [os.path.splitext] and [os.path.join] of
    [posixpath]. *)
Definition basename (p : str) : str := rev (take_until slash (rev p)).

Definition splitext (p : str) : str * str :=
  let b := rev (take_until slash (rev p)) in
  match drop_until dot (rev b) with
  | Some root_rev =>
      if existsb (fun c => negb (char_eqb c dot)) root_rev then
        (firstn (length p - length (take_until dot (rev b)) - 1) p,
         dot :: rev (take_until dot (rev b)))
      else (p, [])
  | None => (p, [])
  end.

Definition path_join (a b : str) : str :=
  match b with
  | c :: _ => if char_eqb c slash then b
              else match rev a with
                   | [] => b
                   | l :: _ => if char_eqb l slash then a ++ b
                               else a ++ slash :: b
                   end
  | [] => match rev a with
          | [] => b
          | l :: _ => if char_eqb l slash then a ++ b else a ++ slash :: b
          end
  end.

(** What a sheet holds. *)
Inductive sheet_data :=
| InventoryRows (rows : list inventory_row)
| ResultRows (rows : frame)
| KeyValueRows (rows : list (str * json)).

Definition workbook := list (str * sheet_data).

(** The attributes of the analyzer the report uses. *)
Record analyzer := {
  name : str;
  output_dir : str;
  input_file : option str;
  cloud_data : option (list inventory_row);
  analysis_results : option frame
}.

(** [bool(x)] of a cell as [any] takes it: missing values are skipped,
    the empty string is false. *)
Definition cell_truthy (x : option str) : bool :=
  match x with
  | Some (_ :: _) => true
  | _ => false
  end.

(** [cloud_data.any().any()]: some cell is a non-empty string. *)
Definition any_any (rows : list inventory_row) : bool :=
  existsb
    (fun r =>
       cell_truthy (System_Name r)
       || cell_truthy (Environment_Type r)
       || cell_truthy (Subscription_ID r)
       || cell_truthy (Resource_Group_Name r))
    rows.

Section Report.

(** [getpass.getuser()], the formatted [datetime.now()], and the
    exception writing a workbook to a path ends with, if any. *)
Variable getuser : res str.
Variable now : str.
Variable write_error : str -> option exn.

Definition _create_metadata (self : analyzer) : res (list (str * json)) :=
  '(total_records, exception_records, ok_records, unknown_records) <-
    match analysis_results self with
    | Some df =>
        if negb (frame_empty df) then
          let total_records := frame_len df in
          exception_records <-
            count_where (py_str "Cloud_Config") (py_str "Deviation") df ;;
          ok_records <-
            count_where (py_str "Cloud_Config") (py_str "OK") df ;;
          Ok (Z.of_nat total_records, Z.of_nat exception_records,
              Z.of_nat ok_records,
              (Z.of_nat total_records - Z.of_nat exception_records
               - Z.of_nat ok_records)%Z)
        else Ok (0, 0, 0, 0)%Z
    | None => Ok (0, 0, 0, 0)%Z
    end ;;
  user <- getuser ;;
  Ok [ (py_str "user", JStr user);
       (py_str "report_timestamp", JStr now);
       (py_str "generated_by", JStr (name self));
       (py_str "source_population_file",
        JStr match input_file self with
             | Some (c :: f) => basename (c :: f)
             | _ => py_str "Unknown"
             end);
       (py_str "total_records_analyzed", JInt total_records);
       (py_str "exception_records", JInt exception_records);
       (py_str "ok_records", JInt ok_records);
       (py_str "unknown_records", JInt unknown_records);
       (py_str "environment", JStr (py_str "Development")) ].

(** [writer = pd.ExcelWriter(path)], three [to_excel] and [close]: the
    sheets in the order written. *)
Definition write_workbook (path : str) (sheets : workbook)
  : res (str * workbook) :=
  match write_error path with
  | Some e => Raise e
  | None => Ok (path, sheets)
  end.

(** [save_analysis_results]: the path returned together with the
    workbook written there, or [None]. *)
Definition save_analysis_results (self : analyzer)
  : res (option (str * workbook)) :=
  try_except_Exception
    (match analysis_results self with
     | None => Ok None
     | Some results =>
         if frame_empty results then Ok None
         else
           match input_file self with
           | None | Some [] => Ok None
           | Some (c :: f) =>
               inventory <-
                 match cloud_data self with
                 | Some rows => Ok rows
                 | None => Raise (OtherException "AttributeError")
                 end ;;
               if negb (any_any inventory) then Ok None
               else
                 let input_filename := basename (c :: f) in
                 let filename_without_ext := fst (splitext input_filename) in
                 let output_filename :=
                   filename_without_ext
                   ++ py_str "_Deviation_Analysis.xlsx" in
                 let output_file_path :=
                   path_join (output_dir self) output_filename in
                 metadata_df <- _create_metadata self ;;
                 written <-
                   write_workbook output_file_path
                     [ (py_str "Cloud_Resource_Inventory",
                        InventoryRows inventory);
                       (py_str "Cloud_Resource_Deviation_Analysis",
                        ResultRows results);
                       (py_str "Metadata", KeyValueRows metadata_df) ] ;;
                 Ok (Some written)
           end
     end)
    (fun _ => Ok None).

End Report.

(** ** The analysis *)

(** The analyzer after [self.analysis_results = df]. *)
Definition set_analysis_results (self : analyzer) (df : frame) : analyzer :=
  {| name := name self;
     output_dir := output_dir self;
     input_file := input_file self;
     cloud_data := cloud_data self;
     analysis_results := Some df |}.

Section Analysis.

Variable to_json : list summary -> str.
Variables prompt_head prompt_tail : str.
Variable run_task : str -> nat -> nat -> nat -> gathered.

(** [pd.DataFrame(all_results)]. *)
Variable DataFrame : list json -> res frame.

(** [analyze_cloud_deviations]: the value returned and the analyzer it
    leaves. *)
Definition analyze_cloud_deviations (self : analyzer)
  : res (bool * analyzer) :=
  try_except_Exception
    (match cloud_data self with
     | None => Ok (false, self)
     | Some [] => Ok (false, self)
     | Some (r :: rows) =>
         let data_for_analysis := _prepare_data_for_analysis (r :: rows) in
         all_results <-
           _process_batches_with_ai to_json prompt_head prompt_tail run_task
             data_for_analysis ;;
         match all_results with
         | [] => Ok (false, self)
         | _ :: _ =>
             df <- DataFrame all_results ;;
             Ok (true, set_analysis_results self df)
         end
     end)
    (fun _ => Ok (false, self)).

End Analysis.

(** ** The input file *)

(** [s.split(sep)[0]] for a non-empty [sep]: what precedes the first
    occurrence of [sep], the whole of [s] when there is none. *)
Fixpoint before_first (sep s : str) {struct s} : str :=
  match strip_prefix sep s with
  | Some _ => []
  | None =>
      match s with
      | [] => []
      | c :: s' => c :: before_first sep s'
      end
  end.

Section InputFile.

(** [glob.glob(pattern)] and [os.path.getmtime(path)]; the modification
    times are points of a linear scale. *)
Variable glob_glob : str -> res (list str).
Variable getmtime : str -> res Z.

(** [max(files, key=os.path.getmtime)], after the first file: the key
    of every file is taken, and a file replaces the best one when its
    key is greater. *)
Fixpoint max_by_mtime (best : str) (best_key : Z) (files : list str)
  : res str :=
  match files with
  | [] => Ok best
  | f :: files' =>
      k <- getmtime f ;;
      if (best_key <? k)%Z then max_by_mtime f k files'
      else max_by_mtime best best_key files'
  end.

(** [find_latest_input_file]: the input file and the client name it
    sets when it returns [True], [None] when it returns [False]. *)
Definition find_latest_input_file (input_dir : str)
  : res (option (str * str)) :=
  try_except_Exception
    (let pattern :=
       path_join input_dir (py_str "*Cloud_Resource_Data.xlsx") in
     matching_files <- glob_glob pattern ;;
     match matching_files with
     | [] => Ok None
     | f :: files =>
         k <- getmtime f ;;
         input_file <- max_by_mtime f k files ;;
         let filename := basename input_file in
         let client_name :=
           before_first (py_str "_Cloud_Resource_Data") filename in
         Ok (Some (input_file, client_name))
     end)
    (fun _ => Ok None).

End InputFile.

(** ** The whole run *)

(** What reading the input workbook gives: no [Cloud_Resource_Inventory]
    sheet, a sheet that lacks some of the required columns, or the rows
    of the sheet. *)
Inductive loaded :=
| NoInventorySheet
| MissingColumns (missing_columns : list str)
| Inventory (rows : list inventory_row).

(** The analyzer after [self.input_file = file] and
    [self.cloud_data = rows]. *)
Definition set_loaded (self : analyzer) (file : str)
    (rows : list inventory_row) : analyzer :=
  {| name := name self;
     output_dir := output_dir self;
     input_file := Some file;
     cloud_data := Some rows;
     analysis_results := analysis_results self |}.

Section Run.

Variable to_json : list summary -> str.
Variables prompt_head prompt_tail : str.
Variable run_task : str -> nat -> nat -> nat -> gathered.
Variable DataFrame : list json -> res frame.
Variable getuser : res str.
Variable now : str.
Variable write_error : str -> option exn.
Variable glob_glob : str -> res (list str).
Variable getmtime : str -> res Z.

(** [os.path.exists], and [pd.ExcelFile] with [pd.read_excel] of the
    inventory sheet. *)
Variable path_exists : str -> bool.
Variable read_excel : str -> res loaded.

Variable input_dir : str.

(** [load_data]: the analyzer it leaves when it returns [True], [None]
    when it returns [False]. *)
Definition load_data (self : analyzer) : res (option analyzer) :=
  try_except_Exception
    (file <-
       match input_file self with
       | Some (c :: p) => Ok (Some (c :: p))
       | _ =>
           found <- find_latest_input_file glob_glob getmtime input_dir ;;
           Ok (option_map fst found)
       end ;;
     match file with
     | None => Ok None
     | Some file =>
         if negb (path_exists file) then Ok None
         else
           try_except_Exception
             (sheet <- read_excel file ;;
              match sheet with
              | NoInventorySheet => Ok None
              | MissingColumns _ => Ok None
              | Inventory rows => Ok (Some (set_loaded self file rows))
              end)
             (fun _ => Ok None)
     end)
    (fun _ => Ok None).

(** [run]: the value returned, and what [save_analysis_results]
    returned when it was reached. *)
Definition run (self : analyzer) : res (bool * option (str * workbook)) :=
  try_except_Exception
    (success <- load_data self ;;
     match success with
     | None => Ok (false, None)
     | Some self1 =>
         '(success, self2) <-
           analyze_cloud_deviations to_json prompt_head prompt_tail
             run_task DataFrame self1 ;;
         if negb success then Ok (false, None)
         else
           output_file <-
             save_analysis_results getuser now write_error self2 ;;
           match output_file with
           | Some (_ :: _, _) => Ok (true, output_file)
           | _ => Ok (false, output_file)
           end
     end)
    (fun _ => Ok (false, None)).

End Run.

(** ** The workflow *)

Section Workflow.

Variable to_json : list summary -> str.
Variables prompt_head prompt_tail : str.
Variable run_task : str -> nat -> nat -> nat -> gathered.
Variable DataFrame : list json -> res frame.
Variable getuser : res str.
Variable now : str.
Variable write_error : str -> option exn.
Variable glob_glob : str -> res (list str).
Variable getmtime : str -> res Z.
Variable path_exists : str -> bool.
Variable read_excel : str -> res loaded.

(** [os.makedirs(output_dir, exist_ok=True)] and [os.environ.get] once
    the [.env] file is loaded. *)
Variable makedirs : str -> option exn.
Variable environ_get : str -> option str.

(** The constructor of the analyzer: the attributes it sets, or the
    error it raises. *)
Definition __init__ (input_dir output_dir : str) : res analyzer :=
  _ <- match makedirs output_dir with
       | Some e => Raise e
       | None => Ok tt
       end ;;
  let required :=
    [py_str "PROJECT_ENDPOINT"; py_str "AGENT_MODEL_DEPLOYMENT_NAME"] in
  let missing :=
    filter
      (fun k =>
         match environ_get k with
         | Some (_ :: _) => false
         | _ => true
         end)
      required in
  match missing with
  | _ :: _ => Raise (OtherException "EnvironmentError")
  | [] =>
      Ok {| name := py_str "CloudResourceDeviationAnalyzer";
            output_dir := output_dir;
            input_file := None;
            cloud_data := None;
            analysis_results := None |}
  end.

(** [WorkflowManager.run_cloud_analysis]. *)
Definition run_cloud_analysis (output_dir : str) : res bool :=
  try_except_Exception
    (cloud_analyzer <- __init__ output_dir output_dir ;;
     '(cloud_analysis_success, _) <-
       run to_json prompt_head prompt_tail run_task DataFrame getuser now
         write_error glob_glob getmtime path_exists read_excel output_dir
         cloud_analyzer ;;
     if cloud_analysis_success then Ok true else Ok false)
    (fun _ => Ok false).

(** The extractor of the cloud resources: its [run] (with the import
    and the construction before it) and its
    [save_verified_population_file]. *)
Variable extractor_run : res bool.
Variable save_verified_population_file : res (option str).

(** [WorkflowManager.run_cloud_workflow]. *)
Definition run_cloud_workflow (output_dir : str) : res bool :=
  try_except_Exception
    (cloud_success <- extractor_run ;;
     if cloud_success then
       cloud_output_file <- save_verified_population_file ;;
       match cloud_output_file with
       | Some (_ :: _) =>
           cloud_analysis_success <- run_cloud_analysis output_dir ;;
           Ok true
       | _ => Ok false
       end
     else Ok false)
    (fun _ => Ok false).

End Workflow.

(** ** The entry point *)

(** The workflows of the manager, in the order [main] names them. *)
Inductive workflow :=
| Environment
| Database
| Server
| Url
| Cloud.

(** What [main] does that can be observed or can fail: parsing the
    command line, setting up the log, creating a directory in the
    constructor of the manager, running a workflow. *)
Inductive main_event :=
| ParseArgs
| SetupLogging
| Makedirs (dir : str)
| RunWorkflow (w : workflow).

(** The parsed arguments [main] uses in the run mode. *)
Record args := {
  args_mode : str;
  args_process : str;
  args_data_dir : str;
  args_output_dir : str
}.

(** A computation of [main]: from the events so far, newest first, to a
    result or an exception and the events after it. *)
Definition Proc (A : Type) := list main_event -> res A * list main_event.

Definition pret {A} (a : A) : Proc A := fun h => (Ok a, h).

Definition pbind {A B} (m : Proc A) (f : A -> Proc B) : Proc B :=
  fun h =>
    match m h with
    | (Ok a, h') => f a h'
    | (Raise e, h') => (Raise e, h')
    end.

Notation "x <== m ;; k" := (pbind m (fun x => k))
  (at level 61, m at next level, right associativity).

(** A step with the outcome [answer]; the event is recorded whether it
    succeeds or not. *)
Definition perform {A} (ev : main_event)
    (answer : list main_event -> res A) : Proc A :=
  fun h => (answer h, ev :: h).

Section Main.

(** [parser.parse_args()], [setup_logging()], [os.makedirs(dir,
    exist_ok=True)], the workflow methods of the manager, whose outcome
    may depend on what was done before, and the schedule mode. *)
Variable parse_args : res args.
Variable setup_logging : option exn.
Variable makedirs : str -> option exn.
Variable run_workflow : workflow -> list main_event -> res bool.
Variable schedule_mode : args -> Proc bool.

(** [WorkflowManager(data_dir, output_dir)]. *)
Definition WorkflowManager (data_dir output_dir : str) : Proc unit :=
  _ <== perform (Makedirs data_dir)
          (fun _ => match makedirs data_dir with
                    | Some e => Raise e
                    | None => Ok tt
                    end) ;;
  perform (Makedirs output_dir)
    (fun _ => match makedirs output_dir with
              | Some e => Raise e
              | None => Ok tt
              end).

(** One of the steps [if run_x_process: ...] of the run mode. *)
Definition run_selected (selected : bool) (w : workflow) (success : bool)
  : Proc bool :=
  if selected then
    x_success <== perform (RunWorkflow w) (run_workflow w) ;;
    if negb x_success then pret false else pret success
  else pret success.

(** [main]. *)
Definition main : Proc bool :=
  args <== perform ParseArgs (fun _ => parse_args) ;;
  _ <== perform SetupLogging
          (fun _ => match setup_logging with
                    | Some e => Raise e
                    | None => Ok tt
                    end) ;;
  let process := args_process args in
  let run_env_process := str_in process [py_str "env"; py_str "all"] in
  let run_db_process := str_in process [py_str "db"; py_str "all"] in
  let run_server_process := str_in process [py_str "server"; py_str "all"] in
  let run_url_process := str_in process [py_str "url"; py_str "all"] in
  let run_cloud_process := str_in process [py_str "cloud"; py_str "all"] in
  if str_eqb (args_mode args) (py_str "run") then
    _ <== WorkflowManager (args_data_dir args) (args_output_dir args) ;;
    let success := true in
    success <== run_selected run_env_process Environment success ;;
    success <== run_selected run_db_process Database success ;;
    success <== run_selected run_server_process Server success ;;
    success <== run_selected run_url_process Url success ;;
    success <== run_selected run_cloud_process Cloud success ;;
    pret success
  else if str_eqb (args_mode args) (py_str "schedule") then
    schedule_mode args
  else pret true.

(** The workflows of a list run one after the other, as the steps of the
    run mode do. *)
Fixpoint run_in_turn (ws : list workflow) (success : bool) : Proc bool :=
  match ws with
  | [] => pret success
  | w :: ws' =>
      success <== run_selected true w success ;;
      run_in_turn ws' success
  end.

End Main.

(** The value of [--process] that names a workflow, and the workflows a
    value selects, in the order of [main]. *)
Definition workflow_flag (w : workflow) : str :=
  match w with
  | Environment => py_str "env"
  | Database => py_str "db"
  | Server => py_str "server"
  | Url => py_str "url"
  | Cloud => py_str "cloud"
  end.

Definition selected_workflows (process : str) : list workflow :=
  filter (fun w => str_in process [workflow_flag w; py_str "all"])
    [Environment; Database; Server; Url; Cloud].

(** ** Notions used in the statements *)

Definition decoder_exn (e : exn) : Prop :=
  e = JSONDecodeError \/ e = RecursionError
  \/ e = OtherException "ValueError".

Definition is_container (v : json) : bool :=
  match v with
  | JList _ | JDict _ => true
  | _ => false
  end.

Definition backtick : char := 96%N.

(** Every backtick of the text, read from the left, starts a group of
    three: each maximal run of backticks has a length divisible by 3. *)
Fixpoint backticks_in_triples (t : str) : bool :=
  match t with
  | [] => true
  | c :: t1 =>
      if char_eqb c backtick then
        match t1 with
        | c2 :: c3 :: t3 =>
            char_eqb c2 backtick && char_eqb c3 backtick
            && backticks_in_triples t3
        | _ => false
        end
      else backticks_in_triples t1
  end.

Definition no_backtick (t : str) : bool :=
  forallb (fun c => negb (char_eqb c backtick)) t.

(** The text after its longest prefix in the class [p], and the length of
    that prefix. *)
Fixpoint skip_class (p : char -> bool) (t : str) : str :=
  match t with
  | c :: t' => if p c then skip_class p t' else t
  | [] => []
  end.

Fixpoint count_class (p : char -> bool) (t : str) : nat :=
  match t with
  | c :: t' => if p c then S (count_class p t') else 0
  | [] => 0
  end.

(** Where a fence marker matched at the head of [t] ends. *)
Definition marker_end (t : str) : option nat :=
  match strip_prefix (py_str "```") t with
  | Some t1 =>
      match strip_prefix (py_str "json") t1 with
      | Some t2 => Some (7 + count_class is_space t2)
      | None => Some (3 + count_class is_space t1)
      end
  | None =>
      match strip_prefix (py_str "```") (skip_class is_space t) with
      | Some _ => Some (count_class is_space t + 3)
      | None => None
      end
  end.

(** The number of batches: [n / b], rounded up. *)
Definition ceil_div (n b : nat) : nat := (n + b - 1) / b.

Definition is_record (v : json) : bool :=
  match v with
  | JDict _ => true
  | _ => false
  end.

(** What a batch adds to the merged list when its task returned a list
    or raised. *)
Definition contribution (x : gathered) : list json :=
  match x with
  | Returned (JList l) => l
  | _ => []
  end.

(** What [_process_batches_async] puts in place of a task's outcome. *)
Definition absorb (result : gathered) : gathered :=
  match result with
  | Raised e =>
      if isinstance_Exception e then Returned (JList []) else result
  | Returned _ => result
  end.

(** A task that raised an [Exception], or returned a list of records. *)
Definition isolated_outcome (x : gathered) : Prop :=
  match x with
  | Raised e => isinstance_Exception e = true
  | Returned (JList l) => forallb is_record l = true
  | Returned _ => False
  end.

(** An example inventory summary of twelve systems, a classification of
    its rows, and batch calls that answer with the entries of their
    slice. *)
Definition example_summary (k : nat) : summary :=
  {| summary_System_Name := Some (py_str "System" ++ [N.of_nat (65 + k)]);
     Environment_Types :=
       [Some (py_str "DEV"); Some (py_str "TEST"); Some (py_str "PROD")];
     Has_DEV := true; Has_TEST := true; Has_PROD := true |}.

Definition example_data : list summary := map example_summary (seq 0 12).

Definition example_classify (s : summary) : json :=
  JDict [ (py_str "System_Name",
           match summary_System_Name s with
           | Some system => JStr system
           | None => JNull
           end);
          (py_str "Cloud_Config", JStr (py_str "OK"));
          (py_str "Reason",
           JStr (py_str "DEV, TEST, PROD environments are present")) ].

Definition example_run_task (prompt : str) (i batch_size total : nat)
  : gathered :=
  Returned (JList (map example_classify
                     (iloc example_data i (i + batch_size)))).

(** Three batches of one row each, of which the second raises. *)
Definition example_failing_task (prompt : str) (i batch_size total : nat)
  : gathered :=
  if i =? 1 then Raised (OtherException "ConnectionError")
  else Returned (JList (map example_classify
                          (iloc example_data i (i + batch_size)))).

(** A status that is neither [completed] nor a terminal failure. *)
Definition pending (status : str) : bool :=
  negb (str_eqb status (py_str "completed"))
  && negb (terminal_failure status).

(** The history after one more poll that saw a pending status. *)
Definition poll_tick (thread_id run_id : str) (retry_interval : nat)
    (h : history) : history :=
  Sleep retry_interval :: Call (RunsGet thread_id run_id) :: h.

(** A service whose runs always report [status]. *)
Definition scripted_client (status : str) : AgentsClient :=
  {| threads_create := fun _ => Ok (py_str "thread_1");
     messages_create := fun _ _ _ _ => Ok tt;
     list_agents := fun _ => Ok [py_str "agent_1"];
     create_agent := fun _ _ _ _ => Ok (py_str "agent_2");
     runs_create_with_agent := fun _ _ _ => Ok (py_str "run_1");
     runs_create_with_model := fun _ _ _ => Ok (py_str "run_1");
     runs_get := fun _ _ _ => Ok status;
     messages_list := fun _ _ => Ok [] |}.

Definition is_thread_create (ev : event) : bool :=
  match ev with
  | Call ThreadsCreate => true
  | _ => false
  end.

(** The number of threads created in a history: the number of attempts
    begun. *)
Definition thread_creations (h : history) : nat :=
  length (filter is_thread_create h).

Definition is_sleep (ev : event) : bool :=
  match ev with
  | Sleep _ => true
  | Call _ => false
  end.

(** A computation that only adds events, none of them a thread
    creation. *)
Definition grows {A} (c : M A) : Prop :=
  forall h, exists ev, snd (c h) = ev ++ h /\ thread_creations ev = 0.

(** A computation that raises nothing but instances of [Exception]. *)
Definition safe {A} (c : M A) : Prop :=
  forall h e h', c h = (Raise e, h') -> isinstance_Exception e = true.

(** A service that raises nothing but instances of [Exception]. *)
Definition raises_only_Exception (client : AgentsClient) : Prop :=
  (forall h e, threads_create client h = Raise e ->
     isinstance_Exception e = true)
  /\ (forall a b c h e, messages_create client a b c h = Raise e ->
        isinstance_Exception e = true)
  /\ (forall h e, list_agents client h = Raise e ->
        isinstance_Exception e = true)
  /\ (forall a b c h e, create_agent client a b c h = Raise e ->
        isinstance_Exception e = true)
  /\ (forall a b h e, runs_create_with_agent client a b h = Raise e ->
        isinstance_Exception e = true)
  /\ (forall a b h e, runs_create_with_model client a b h = Raise e ->
        isinstance_Exception e = true)
  /\ (forall a b h e, runs_get client a b h = Raise e ->
        isinstance_Exception e = true)
  /\ (forall a h e, messages_list client a h = Raise e ->
        isinstance_Exception e = true).

(** A service on which no thread can be created. *)
Definition unreachable_client : AgentsClient :=
  {| threads_create := fun _ => Raise (OtherException "ServiceRequestError");
     messages_create := fun _ _ _ _ => Ok tt;
     list_agents := fun _ => Ok [];
     create_agent := fun _ _ _ _ => Ok (py_str "agent_1");
     runs_create_with_agent := fun _ _ _ => Ok (py_str "run_1");
     runs_create_with_model := fun _ _ _ => Ok (py_str "run_1");
     runs_get := fun _ _ _ => Ok (py_str "queued");
     messages_list := fun _ _ => Ok [] |}.

Definition sheet_names : list str :=
  [ py_str "Cloud_Resource_Inventory";
    py_str "Cloud_Resource_Deviation_Analysis";
    py_str "Metadata" ].

(** An analyzer whose inventory has two systems and whose analysis holds
    a single result. *)
Definition example_analyzer : analyzer :=
  {| name := py_str "CloudResourceDeviationAnalyzer";
     output_dir := py_str "src/data/output";
     input_file := Some (py_str "src/data/output/ACME_Cloud_Resource_Data.xlsx");
     cloud_data :=
       Some [ {| System_Name := Some (py_str "SysA");
                 Environment_Type := Some (py_str "DEV");
                 Subscription_ID := Some (py_str "sub-1");
                 Resource_Group_Name := Some (py_str "rg-1") |};
              {| System_Name := Some (py_str "SysB");
                 Environment_Type := Some (py_str "PROD");
                 Subscription_ID := Some (py_str "sub-2");
                 Resource_Group_Name := Some (py_str "rg-2") |} ];
     analysis_results :=
       Some [ [ (py_str "System_Name", JStr (py_str "SysA"));
                (py_str "Cloud_Config", JStr (py_str "Deviation"));
                (py_str "Reason",
                 JStr (py_str "No TEST and PROD environments available")) ] ]
  |}.

(** What saving the example writes. *)
Definition example_saved : str * workbook :=
  match save_analysis_results (Ok (py_str "auditor"))
          (py_str "2025-01-31 09:00:00") (fun _ => None) example_analyzer with
  | Ok (Some written) => written
  | _ => ([], [])
  end.

(** ** Notions used in further properties *)

(** The sum of a weight over the events of a history. *)
Definition total (w : event -> nat) (h : history) : nat :=
  list_sum (map w h).

(** The weight 1 on status requests, and the seconds of a sleep. *)
Definition status_request_weight (ev : event) : nat :=
  match ev with
  | Call (RunsGet _ _) => 1
  | _ => 0
  end.

Definition sleep_weight (ev : event) : nat :=
  match ev with
  | Sleep secs => secs
  | Call _ => 0
  end.

(** The number of [runs.get] requests and the seconds slept in a
    history. *)
Definition status_requests (h : history) : nat :=
  total status_request_weight h.

Definition seconds_slept (h : history) : nat := total sleep_weight h.

(** A computation that only adds events, of total weight at most [n]. *)
Definition within {A} (w : event -> nat) (n : nat) (c : M A) : Prop :=
  forall h, exists ev, snd (c h) = ev ++ h /\ total w ev <= n.

(** A weight that gives [g] to a status request and nothing to any other
    request. *)
Definition weighs_polls (w : event -> nat) (g : nat) : Prop :=
  forall c,
    w (Call c) = match c with
                 | RunsGet _ _ => g
                 | _ => 0
                 end.

(** A service whose runs are completed at once and whose threads hold the
    messages [msgs]. *)
Definition answering_client (msgs : list message) : AgentsClient :=
  {| threads_create := fun _ => Ok (py_str "thread_1");
     messages_create := fun _ _ _ _ => Ok tt;
     list_agents := fun _ => Ok [py_str "agent_1"];
     create_agent := fun _ _ _ _ => Ok (py_str "agent_2");
     runs_create_with_agent := fun _ _ _ => Ok (py_str "run_1");
     runs_create_with_model := fun _ _ _ => Ok (py_str "run_1");
     runs_get := fun _ _ _ => Ok (py_str "completed");
     messages_list := fun _ _ => Ok msgs |}.

(** A message whose content is a string. *)
Definition text_message (author content : str) : message :=
  {| role := author; content := Some (ContentStr content);
     text_messages := None; text := None |}.

(** A service whose status requests all fail. *)
Definition failing_status_client : AgentsClient :=
  {| threads_create := fun _ => Ok (py_str "thread_1");
     messages_create := fun _ _ _ _ => Ok tt;
     list_agents := fun _ => Ok [py_str "agent_1"];
     create_agent := fun _ _ _ _ => Ok (py_str "agent_2");
     runs_create_with_agent := fun _ _ _ => Ok (py_str "run_1");
     runs_create_with_model := fun _ _ _ => Ok (py_str "run_1");
     runs_get := fun _ _ _ => Raise (OtherException "HttpResponseError");
     messages_list := fun _ _ => Ok [] |}.

(** A service on which the agents cannot be listed and every run
    fails. *)
Definition no_agents_client : AgentsClient :=
  {| threads_create := fun _ => Ok (py_str "thread_1");
     messages_create := fun _ _ _ _ => Ok tt;
     list_agents := fun _ => Raise (OtherException "HttpResponseError");
     create_agent := fun _ _ _ _ => Ok (py_str "agent_2");
     runs_create_with_agent := fun _ _ _ => Ok (py_str "run_1");
     runs_create_with_model := fun _ _ _ => Ok (py_str "run_1");
     runs_get := fun _ _ _ => Ok (py_str "failed");
     messages_list := fun _ _ => Ok [] |}.

(** The text holds no occurrence of the character [c]. *)
Definition no_char (c : char) (t : str) : bool :=
  forallb (fun x => negb (char_eqb x c)) t.

Definition open_brace : char := 123%N.
Definition close_brace : char := 125%N.
Definition open_bracket : char := 91%N.

(** A batch result the log lines and the flattening of
    [_process_batches_with_ai] go through: a false value, or a list
    whose first element is an object. *)
Definition loggable (x : gathered) : bool :=
  match x with
  | Returned v =>
      if truthy v then
        match v with
        | JList (JDict _ :: _) => true
        | _ => false
        end
      else true
  | Raised _ => false
  end.

(** Batch calls of which the second answers with a list of names. *)
Definition example_names_task (prompt : str) (i batch_size total : nat)
  : gathered :=
  if i =? 10 then Returned (JList [JStr (py_str "SystemK")])
  else Returned (JList (map example_classify
                          (iloc example_data i (i + batch_size)))).

(** The batch results of an analysis of the inventory [rows]. *)
Definition analysis_outcomes (to_json : list summary -> str)
    (prompt_head prompt_tail : str)
    (run_task : str -> nat -> nat -> nat -> gathered)
    (rows : list inventory_row) : list gathered :=
  _process_batches_async run_task
    (create_batches to_json prompt_head prompt_tail 10
       (_prepare_data_for_analysis rows)).

(** [pd.DataFrame] of a list of records: one row per record. *)
Definition records_frame (l : list json) : res frame :=
  Ok (map (fun v => match v with JDict d => d | _ => [] end) l).

(** The [Cloud_Config] cell of a result row is the string [value]. *)
Definition config_is (value : str) (row : list (str * json)) : bool :=
  match dict_get (py_str "Cloud_Config") row with
  | Some (JStr s) => str_eqb s value
  | _ => false
  end.

(** The analyzer with other analysis results. *)
Definition with_results (self : analyzer) (results : option frame)
  : analyzer :=
  {| name := name self;
     output_dir := output_dir self;
     input_file := input_file self;
     cloud_data := cloud_data self;
     analysis_results := results |}.

(** Results whose rows have no [Cloud_Config]. *)
Definition example_unlabelled_results : frame :=
  [ [ (py_str "System_Name", JStr (py_str "SysA"));
      (py_str "Status", JStr (py_str "Deviation")) ] ].

(** [s.endswith(suffix)]. *)
Definition ends_with (suffix s : str) : bool :=
  match strip_prefix (rev suffix) (rev s) with
  | Some _ => true
  | None => false
  end.

(** The file names the pattern [*Cloud_Resource_Data.xlsx] of
    [find_latest_input_file] selects in a directory: those that end with
    what follows the star and do not start with a dot. *)
Definition matches_input_pattern (filename : str) : bool :=
  match filename with
  | c :: _ => negb (char_eqb c dot)
  | [] => true
  end
  && ends_with (py_str "Cloud_Resource_Data.xlsx") filename.

Definition underscore : char := 95%N.

(** An analyzer as its constructor leaves it, a directory listing with
    one input file, and the workbook read from it. *)
Definition example_new_analyzer : analyzer :=
  {| name := py_str "CloudResourceDeviationAnalyzer";
     output_dir := py_str "src/data/output";
     input_file := None;
     cloud_data := None;
     analysis_results := None |}.

Definition example_glob (pattern : str) : res (list str) :=
  Ok [py_str "src/data/output/ACME_Cloud_Resource_Data.xlsx"].

Definition example_read_excel (path : str) : res loaded :=
  Ok (Inventory match cloud_data example_analyzer with
                | Some rows => rows
                | None => []
                end).

(** The run of the example: twelve classified systems come back in two
    batches. *)
Definition example_run : res (bool * option (str * workbook)) :=
  run (fun _ => []) [] [] example_run_task records_frame
    (Ok (py_str "auditor")) (py_str "2025-01-31 09:00:00") (fun _ => None)
    example_glob (fun _ => Ok 0%Z) (fun _ => true) example_read_excel
    (py_str "src/data/output") example_new_analyzer.

(** ** The server data extractor *)

(** A cell of a frame: a missing value, a string, or a value of another
    type. *)
Inductive cell :=
| NaN
| Text (s : str)
| Other.

(** [s.strip()]. *)
Definition strip (s : str) : str :=
  rev (skip_class is_space (rev (skip_class is_space s))).

(** [s.lower() == 'all']: no other code point is lowered to [a] or
    [l]. *)
Definition lower_is_all (s : str) : bool :=
  match s with
  | [a; l1; l2] =>
      (char_eqb a (chr "a") || char_eqb a (chr "A"))
      && (char_eqb l1 (chr "l") || char_eqb l1 (chr "L"))
      && (char_eqb l2 (chr "l") || char_eqb l2 (chr "L"))
  | _ => false
  end.

(** [s.split(c)] for a separator of one character. *)
Fixpoint split_on (c : char) (s : str) : list str :=
  match s with
  | [] => [[]]
  | x :: s' =>
      if char_eqb x c then [] :: split_on c s'
      else match split_on c s' with
           | h :: t => (x :: h) :: t
           | [] => [[x]]
           end
  end.

Definition comma : char := 44%N.
Definition space : char := 32%N.
Definition hyphen : char := 45%N.

(** [Series.isin(values)] on one cell. *)
Definition isin (x : cell) (values : list str) : bool :=
  match x with
  | Text s => str_in s values
  | _ => false
  end.

(** The attributes [_filter_server_data] sets. *)
Record selection (row : Type) := {
  filtered_server_data : option (list row);
  system_names_list : list str
}.

Section ServerDataExtractor.

(** The rows of the server sheet, with their [System Name] cell. *)
Variable row : Type.
Variable System_Name_cell : row -> cell.

(** The loop of [_filter_server_data] over the [System Name] cells of
    the extraction parameters. *)
Fixpoint filter_loop (extraction_params : list cell)
    (server_data : list row) (self : selection row)
  : res (selection row) :=
  match extraction_params with
  | [] => Ok self
  | NaN :: rest => filter_loop rest server_data self
  | Other :: _ => Raise (OtherException "AttributeError")
  | Text s :: rest =>
      if lower_is_all (strip s) then
        Ok {| filtered_server_data := Some server_data;
              system_names_list := [py_str "All"] |}
      else
        let system_names := map strip (split_on comma s) in
        filter_loop rest server_data
          {| filtered_server_data :=
               Some (filter
                       (fun r => isin (System_Name_cell r) system_names)
                       server_data);
             system_names_list := system_names |}
  end.

(** [_filter_server_data]: the value returned and the attributes it
    leaves. *)
Definition _filter_server_data (extraction_params : list cell)
    (server_data : list row) (self : selection row)
  : res (bool * selection row) :=
  self' <- filter_loop extraction_params server_data self ;;
  match filtered_server_data self' with
  | None | Some [] => Ok (false, self')
  | Some (_ :: _) => Ok (true, self')
  end.

(** [str.isalnum] on one code point, and [str(x)] of a cell. *)
Variable isalnum : char -> bool.
Variable str_of : cell -> str.

(** [_extract_client_name]: the client name it leaves, given the
    [Client Name] column if there is one. *)
Definition _extract_client_name (Client_Name : option (list cell))
    (client_name : str) : str :=
  match Client_Name with
  | Some (first :: _) =>
      let client_name := strip (str_of first) in
      let client_name :=
        filter
          (fun c =>
             isalnum c
             || existsb (char_eqb c) [space; underscore; hyphen])
          client_name in
      map (fun c => if char_eqb c space then underscore else c) client_name
  | _ => client_name
  end.

(** [_prepare_output_path]. *)
Definition _prepare_output_path (output_data_dir client_name : str) : str :=
  path_join output_data_dir (client_name ++ py_str "_Server_Data.xlsx").

End ServerDataExtractor.

(** A parameter cell that selects something: a string that is not
    [all]. *)
Definition names_cell (x : cell) : bool :=
  match x with
  | Text s => negb (lower_is_all (strip s))
  | _ => false
  end.

Definition is_NaN (x : cell) : bool :=
  match x with
  | NaN => true
  | _ => false
  end.

(** [str.isalnum] on the ASCII letters and digits. *)
Definition ascii_isalnum (c : char) : bool :=
  ((48 <=? c) && (c <=? 57) || (65 <=? c) && (c <=? 90)
   || (97 <=? c) && (c <=? 122))%N.

(** The two cells of an inventory row the summary is made of. *)
Definition system_and_environment (r : inventory_row)
  : option str * option str :=
  (System_Name r, Environment_Type r).


(* ================================================================= *)
(** * Properties *)


(** ** The decoder raises only what [json.loads] raises *)

Ltac break_hyp H :=
  match type of H with
  | context [match ?x with _ => _ end] => destruct x eqn:?
  | context [if ?x then _ else _] => destruct x eqn:?
  end.

Ltac raise_cases H :=
  repeat (first
    [ discriminate H
    | (injection H as <-; solve [left; reflexivity | right; reflexivity | reflexivity])
    | solve [eauto]
    | break_hyp H ]).

Lemma scanstring_raises_bounded (n : nat) :
  forall t acc e,
    length t <= n -> scanstring t acc = Raise e -> e = JSONDecodeError.
Proof.
  induction n as [|n IH]; intros t acc e Hlen H.
  - destruct t; simpl in *; [now inversion H | lia].
  - destruct t as [|c t1]; simpl in H; [now inversion H|].
    simpl in Hlen.
    repeat (first
      [ discriminate H
      | (injection H as <-; reflexivity)
      | (apply IH in H; [exact H | simpl in *; lia])
      | break_hyp H; subst; simpl in Hlen ]).
Qed.

Lemma scanstring_raises t acc e :
  scanstring t acc = Raise e -> e = JSONDecodeError.
Proof. apply (@scanstring_raises_bounded (length t)). apply le_n. Qed.

Lemma scan_number_raises neg t e :
  scan_number neg t = Raise e ->
  e = JSONDecodeError \/ e = OtherException "ValueError".
Proof.
  unfold scan_number. intros H. raise_cases H.
Qed.

Lemma scan_raises (fuel : nat) :
  (forall depth t e, scan_once fuel depth t = Raise e -> decoder_exn e)
  /\ (forall depth t acc e,
        object_items fuel depth t acc = Raise e -> decoder_exn e)
  /\ (forall depth t acc e,
        array_items fuel depth t acc = Raise e -> decoder_exn e).
Proof.
  induction fuel as [|fuel (IHs & IHo & IHa)].
  - repeat split; intros; simpl in *; injection H as <-; right; now left.
  - repeat split.
    + intros depth t e H. simpl in H. unfold bind in H.
      repeat (first
        [ discriminate H
        | (injection H as H; subst;
           solve [eauto | left; reflexivity | right; left; reflexivity
                 | right; right; reflexivity])
        | solve [eauto]
        | (apply scan_number_raises in H; destruct H as [-> | ->];
           [left | right; right]; reflexivity)
        | match goal with
          | E : scanstring _ _ = Raise _ |- _ =>
              apply scanstring_raises in E; left; congruence
          end
        | break_hyp H ]).
    + intros depth t acc e H. simpl in H. unfold bind in H.
      repeat (first
        [ discriminate H
        | (injection H as H; subst;
           solve [eauto | left; reflexivity | right; left; reflexivity
                 | right; right; reflexivity])
        | solve [eauto]
        | match goal with
          | E : scanstring _ _ = Raise _ |- _ =>
              apply scanstring_raises in E; left; congruence
          end
        | break_hyp H ]).
    + intros depth t acc e H. simpl in H. unfold bind in H.
      repeat (first
        [ discriminate H
        | (injection H as H; subst;
           solve [eauto | left; reflexivity | right; left; reflexivity
                 | right; right; reflexivity])
        | solve [eauto]
        | break_hyp H ]).
Qed.

Lemma loads_raises depth s e : loads depth s = Raise e -> decoder_exn e.
Proof.
  unfold loads, bind. intros H.
  destruct (scan_once _ _ _) as [[v r]|e'] eqn:E.
  - simpl in H. destruct (skip_ws r); [discriminate|].
    injection H as H; subst. now left.
  - injection H as H; subst. eapply (proj1 (scan_raises _)); eauto.
Qed.

Lemma decoder_exn_is_Exception e :
  decoder_exn e -> isinstance_Exception e = true.
Proof. intros [-> | [-> | ->]]; reflexivity. Qed.

(** ** The extractor *)

Lemma parse_candidate_raise lim c e :
  json_loads lim c = Raise e -> 
  try_except_Exception (parse_candidate lim c) (fun _ => Ok (JList []))
  = Ok (JList []).
Proof.
  intros H. unfold parse_candidate, bind. rewrite H.
  apply loads_raises in H. destruct H as [-> | [-> | ->]]; reflexivity.
Qed.

Lemma extract_of_candidate lim text c :
  choose_candidate lim (strip_fences text) = Some c ->
  _extract_json_from_text lim text
  = try_except_Exception (parse_candidate lim c) (fun _ => Ok (JList [])).
Proof. intros H. unfold _extract_json_from_text. now rewrite H. Qed.

(** C2. The extractor is total: on every text it returns a value and never
    raises; when no candidate is found, and when the candidate does not
    parse, the value is the empty list. *)
Theorem extract_json_never_raises (lim : nat) (text : str) :
  (exists v, _extract_json_from_text lim text = Ok v)
  /\ (choose_candidate lim (strip_fences text) = None ->
      _extract_json_from_text lim text = Ok (JList []))
  /\ (forall c e,
        choose_candidate lim (strip_fences text) = Some c ->
        json_loads lim c = Raise e ->
        _extract_json_from_text lim text = Ok (JList [])).
Proof.
  split; [|split].
  - unfold _extract_json_from_text.
    destruct (choose_candidate lim (strip_fences text)) as [c|];
      [|eexists; reflexivity].
    destruct (json_loads lim c) as [v|e] eqn:E.
    + unfold parse_candidate, bind. rewrite E.
      destruct v; try (eexists; reflexivity).
      unfold dict_contains.
      destruct (dict_get (py_str "results") d); eexists; reflexivity.
    + rewrite (parse_candidate_raise _ _ E). eexists; reflexivity.
  - intros H. unfold _extract_json_from_text. now rewrite H.
  - intros c e Hc He. rewrite (extract_of_candidate _ _ Hc).
    eapply parse_candidate_raise; eauto.
Qed.

Lemma extract_json_never_raises_witness :
  _extract_json_from_text 1000 (py_text "This is not JSON") = Ok (JList [])
  /\ _extract_json_from_text 1000 (py_text "[{'System_Name': }]")
     = Ok (JList []).
Proof.
  split.
  - apply (proj1 (proj2 (extract_json_never_raises 1000 _))).
    vm_compute. reflexivity.
  - apply (proj2 (proj2 (extract_json_never_raises 1000 _))
             (py_text "[{'System_Name': }]") JSONDecodeError);
      vm_compute; reflexivity.
Defined.

(** C3. Once a candidate is chosen, the result is fixed by what the
    candidate parses to: a list is returned as it is, a mapping with a
    [results] key gives the value of that key, a mapping without it is
    wrapped in a one-element list, and every other value and every parse
    error give the empty list. *)
Theorem extract_json_result_shapes (lim : nat) (text c : str) :
  choose_candidate lim (strip_fences text) = Some c ->
  (forall l, json_loads lim c = Ok (JList l) ->
     _extract_json_from_text lim text = Ok (JList l))
  /\ (forall d v, json_loads lim c = Ok (JDict d) ->
        dict_get (py_str "results") d = Some v ->
        _extract_json_from_text lim text = Ok v)
  /\ (forall d, json_loads lim c = Ok (JDict d) ->
        dict_get (py_str "results") d = None ->
        _extract_json_from_text lim text = Ok (JList [JDict d]))
  /\ (forall v, json_loads lim c = Ok v -> is_container v = false ->
        _extract_json_from_text lim text = Ok (JList []))
  /\ (forall e, json_loads lim c = Raise e ->
        _extract_json_from_text lim text = Ok (JList [])).
Proof.
  intros Hc. rewrite (extract_of_candidate _ _ Hc).
  repeat split.
  - intros l E. unfold parse_candidate, bind. now rewrite E.
  - intros d v E Hv. unfold parse_candidate, bind, dict_contains.
    now rewrite E, Hv.
  - intros d E Hv. unfold parse_candidate, bind, dict_contains.
    now rewrite E, Hv.
  - intros v E Hv. unfold parse_candidate, bind. rewrite E.
    destruct v; try discriminate; reflexivity.
  - intros e E. eapply parse_candidate_raise; eauto.
Qed.

Lemma extract_json_result_shapes_witness :
  _extract_json_from_text 1000
    (py_text "Answer: {'results': ['A', 'B'], 'n': 1} end")
  = Ok (JList [JStr (py_str "A"); JStr (py_str "B")]).
Proof.
  refine (proj1 (proj2 (extract_json_result_shapes 1000 _
    (c := py_text "{'results': ['A', 'B'], 'n': 1}") _))
    _ _ _ _); vm_compute; reflexivity.
Defined.

(** ** The matcher on the fence patterns *)

Lemma skip_class_skipn p t : skip_class p t = skipn (count_class p t) t.
Proof.
  induction t as [|c t IH]; simpl; [reflexivity|].
  destruct (p c); simpl; auto.
Qed.

Lemma strip_prefix_skipn s : forall t t',
  strip_prefix s t = Some t' -> t' = skipn (length s) t.
Proof.
  induction s as [|c s IH]; intros t t' H; simpl in *.
  - now injection H as <-.
  - destruct t as [|d t]; [discriminate|].
    destruct (char_eqb c d); [|discriminate]. simpl. auto.
Qed.

Section Greedy.

Variable R : Type.
Variables (p : char -> bool) (g : option (nat * nat)) (k : cont R).

(** When the continuation accepts after the longest run, that is the
    match. *)
Lemma greedy_commit : forall t i r,
  k (skip_class p t) (i + count_class p t) g = Some r ->
  greedy p t i g k = Some r.
Proof.
  induction t as [|c t IH]; intros i r H; simpl in *.
  - now rewrite Nat.add_0_r in H.
  - destruct (p c).
    + rewrite (IH (S i) r); [reflexivity|].
      now rewrite <- Nat.add_succ_comm in H.
    + now rewrite Nat.add_0_r in H.
Qed.

(** When the continuation refuses every text that starts in the class,
    giving characters back never helps. *)
Lemma greedy_no_backtrack :
  (forall c t j, p c = true -> k (c :: t) j g = None) ->
  forall t i,
    greedy p t i g k = k (skip_class p t) (i + count_class p t) g.
Proof.
  intros Hk. induction t as [|c t IH]; intros i; simpl.
  - now rewrite Nat.add_0_r.
  - destruct (p c) eqn:E.
    + rewrite IH, <- Nat.add_succ_comm.
      destruct (k (skip_class p t) _ g); [reflexivity|].
      now rewrite Hk.
    + now rewrite Nat.add_0_r.
Qed.

End Greedy.

Lemma space_not_backtick c : is_space c = true -> char_eqb c backtick = false.
Proof.
  intros H. destruct (char_eqb c backtick) eqn:E; [|reflexivity].
  apply N.eqb_eq in E. subst c. discriminate H.
Qed.

Lemma strip_prefix_fence_head c t :
  char_eqb c backtick = false -> strip_prefix (py_str "```") (c :: t) = None.
Proof.
  intros H. change (py_str "```") with [backtick; backtick; backtick].
  unfold strip_prefix, char_eqb in *. now rewrite N.eqb_sym, H.
Qed.

Lemma strip_prefix_fence_space c t :
  is_space c = true -> strip_prefix (py_str "```") (c :: t) = None.
Proof. intros H. apply strip_prefix_fence_head, space_not_backtick, H. Qed.

Lemma match_at_fence_marker t :
  option_map m_end (match_at fence_marker_re t 0) = marker_end t.
Proof.
  unfold match_at, fence_marker_re, marker_end.
  cbn [rmatch].
  destruct (strip_prefix (py_str "```") t) as [t1|] eqn:E1.
  - destruct (strip_prefix (py_str "json") t1) as [t2|] eqn:E2.
    + erewrite greedy_commit; [|reflexivity]. reflexivity.
    + erewrite greedy_commit; [|reflexivity]. reflexivity.
  - rewrite greedy_no_backtrack.
    + destruct (strip_prefix (py_str "```") (skip_class is_space t));
        reflexivity.
    + intros c t' j Hc. now rewrite (@strip_prefix_fence_space c t' Hc).
Qed.

Lemma strip_prefix_app s : forall t t',
  strip_prefix s t = Some t' -> t = s ++ t'.
Proof.
  induction s as [|c s IH]; intros t t' H; simpl in *.
  - now injection H as <-.
  - destruct t as [|d t]; [discriminate|].
    destruct (char_eqb c d) eqn:E; [|discriminate].
    apply N.eqb_eq in E. subst d. f_equal. auto.
Qed.

Lemma marker_end_positive t e :
  marker_end t = Some e -> 3 <= e /\ t <> [].
Proof.
  unfold marker_end. intros H.
  destruct t as [|c t]; [discriminate H|].
  split; [|discriminate].
  repeat (first [discriminate H | (injection H as <-; lia) | break_hyp H]).
Qed.

Lemma sub_from_nil r n : sub_from r [] [] n = [].
Proof.
  destruct n; simpl; [|reflexivity].
  destruct (match_at r [] 0) as [m|]; [|reflexivity].
  destruct (m_end m); reflexivity.
Qed.

Lemma sub_from_skip r : forall n t,
  sub_from r [] t n = sub_from r [] (skipn n t) 0.
Proof.
  induction n as [|n IH]; intros t; [reflexivity|].
  destruct t as [|c t]; [cbn [skipn]; now rewrite !sub_from_nil|].
  simpl. apply IH.
Qed.

(** One step of the substitution on the fence markers. *)
Lemma strip_step t :
  sub_from fence_marker_re [] t 0 =
  match marker_end t with
  | Some e => sub_from fence_marker_re [] (skipn e t) 0
  | None =>
      match t with
      | [] => []
      | c :: t' => c :: sub_from fence_marker_re [] t' 0
      end
  end.
Proof.
  pose proof (match_at_fence_marker t) as Hm.
  destruct t as [|c t]; [reflexivity|].
  cbn [sub_from].
  destruct (match_at fence_marker_re (c :: t) 0) as [m|]; simpl in Hm;
    rewrite <- Hm; [|reflexivity].
  symmetry in Hm. apply marker_end_positive in Hm.
  destruct (m_end m) as [|n]; [lia|].
  simpl. apply sub_from_skip.
Qed.

Lemma triples_skip_space : forall t,
  backticks_in_triples t = true ->
  backticks_in_triples (skip_class is_space t) = true.
Proof.
  induction t as [|c t IH]; intros H; [reflexivity|].
  cbn [skip_class]. destruct (is_space c) eqn:E; [|exact H].
  apply IH. cbn [backticks_in_triples] in H.
  now rewrite (space_not_backtick _ E) in H.
Qed.

Lemma triples_after_fence t :
  backticks_in_triples (py_str "```" ++ t) = true ->
  backticks_in_triples t = true.
Proof. intros H. exact H. Qed.

Lemma triples_after_json t :
  backticks_in_triples (py_str "json" ++ t) = true ->
  backticks_in_triples t = true.
Proof. intros H. exact H. Qed.

Lemma triples_marker_end t e :
  backticks_in_triples t = true -> marker_end t = Some e ->
  backticks_in_triples (skipn e t) = true.
Proof.
  unfold marker_end. intros Ht H.
  destruct (strip_prefix (py_str "```") t) as [t1|] eqn:E1.
  - apply strip_prefix_app in E1. subst t.
    apply triples_after_fence in Ht.
    destruct (strip_prefix (py_str "json") t1) as [t2|] eqn:E2;
      injection H as <-.
    + apply strip_prefix_app in E2. subst t1.
      apply triples_after_json in Ht.
      change (backticks_in_triples (skipn (count_class is_space t2) t2) = true).
      rewrite <- skip_class_skipn. now apply triples_skip_space.
    + change (backticks_in_triples (skipn (count_class is_space t1) t1) = true).
      rewrite <- skip_class_skipn. now apply triples_skip_space.
  - destruct (strip_prefix (py_str "```") (skip_class is_space t))
      as [t2|] eqn:E2; [|discriminate].
    injection H as <-.
    rewrite Nat.add_comm, <- skipn_skipn, <- skip_class_skipn.
    apply triples_skip_space in Ht.
    apply strip_prefix_app in E2. rewrite E2 in *.
    now apply triples_after_fence in Ht.
Qed.

Lemma triples_no_marker c t :
  backticks_in_triples (c :: t) = true -> marker_end (c :: t) = None ->
  char_eqb c backtick = false /\ backticks_in_triples t = true.
Proof.
  intros Ht H. cbn [backticks_in_triples] in Ht.
  destruct (char_eqb c backtick) eqn:E; [|now split].
  exfalso. destruct t as [|c2 [|c3 t]]; try discriminate.
  apply andb_prop in Ht as [Ht _]. apply andb_prop in Ht as [H2 H3].
  apply N.eqb_eq in E, H2, H3. subst. unfold marker_end in H.
  change (strip_prefix (py_str "```") (backtick :: backtick :: backtick :: t))
    with (Some t) in H.
  cbv beta iota in H.
  destruct (strip_prefix (py_str "json") t); discriminate H.
Qed.

(** On a text whose backticks come in triples, the substitution leaves no
    backtick behind. *)
Lemma strip_fences_no_backtick_bounded (n : nat) : forall t,
  length t <= n -> backticks_in_triples t = true ->
  no_backtick (sub_from fence_marker_re [] t 0) = true.
Proof.
  induction n as [|n IH]; intros t Hlen Ht; rewrite strip_step.
  - destruct t; [reflexivity | simpl in Hlen; lia].
  - destruct (marker_end t) as [e|] eqn:E.
    + destruct (@marker_end_positive t e E) as [He Hne].
      apply IH; [|now apply triples_marker_end].
      destruct t as [|c t]; [congruence|].
      rewrite length_skipn. cbn [length] in *. lia.
    + destruct t as [|c t]; [reflexivity|].
      destruct (@triples_no_marker c t Ht E) as [Hc Ht'].
      cbn [no_backtick forallb]. rewrite Hc. simpl.
      apply IH; [simpl in Hlen; lia | exact Ht'].
Qed.

Lemma strip_fences_no_backtick t :
  backticks_in_triples t = true -> no_backtick (strip_fences t) = true.
Proof. apply (@strip_fences_no_backtick_bounded (length t)), le_n. Qed.

(** The fenced-block pattern needs a backtick to start with. *)
Lemma search_fenced_block_none : forall t i,
  no_backtick t = true -> search_from fenced_block_re t i = None.
Proof.
  induction t as [|c t IH]; intros i H.
  - reflexivity.
  - cbn [no_backtick forallb] in H. apply andb_prop in H as [Hc H].
    apply negb_true_iff in Hc.
    cbn [search_from]. unfold match_at at 1, fenced_block_re at 1.
    cbn [rmatch].
    change (py_str "```json") with (py_str "```" ++ py_str "json").
    replace (strip_prefix (py_str "```" ++ py_str "json") (c :: t))
      with (@None str).
    + apply IH, H.
    + change (py_str "```" ++ py_str "json")
        with (backtick :: py_str "``json").
      unfold strip_prefix, char_eqb in *. now rewrite N.eqb_sym, Hc.
Qed.

(** C1. The fenced block is not what the extractor returns: the markers
    are removed before the fenced block is searched for, so the array scan
    decides.  On this text the fenced block holds a valid array of one
    record, the array scan stops at the bracketed words of the prose, and
    the result is the empty list. *)
Theorem fenced_block_lost_behind_prose :
  let text :=
    py_text "Format [{fields}]: ```json [{'System_Name': 'A'}] ``` done" in
  let block := py_text "[{'System_Name': 'A'}]" in
  option_map (group1 text) (search fenced_block_re text) = Some block
  /\ json_loads 1000 block
     = Ok (JList [JDict [(py_str "System_Name", JStr (py_str "A"))]])
  /\ choose_candidate 1000 (strip_fences text) = Some (py_str "[{fields}]")
  /\ _extract_json_from_text 1000 text = Ok (JList []).
Proof. vm_compute. repeat split. Qed.

(** C10, as stated, fails: two backticks, a blank and four backticks
    leave three backticks behind, so a marker survives the substitution,
    the fenced-block search matches and the two extractors differ. *)
Lemma fenced_branch_reached :
  let text := py_str "`` ````json[1]`` ````" in
  strip_fences text = py_str "```json[1]```"
  /\ search fenced_block_re (strip_fences text) <> None
  /\ _extract_json_from_text 1000 text = Ok (JList [JInt 1])
  /\ _extract_json_from_text_unfenced 1000 text = Ok (JList [])
  /\ _extract_json_from_text 1000 text
     <> _extract_json_from_text_unfenced 1000 text.
Proof. vm_compute. repeat split; discriminate. Qed.

(** C10, amended. On every text whose backticks come in groups of three,
    the substitution removes every backtick, the fenced-block search finds
    nothing, and the extractor equals the extractor without the
    fenced-block branch. *)
Theorem fenced_branch_dead_on_triples (lim : nat) (text : str) :
  backticks_in_triples text = true ->
  no_backtick (strip_fences text) = true
  /\ search fenced_block_re (strip_fences text) = None
  /\ _extract_json_from_text lim text
     = _extract_json_from_text_unfenced lim text.
Proof.
  intros H. apply strip_fences_no_backtick in H.
  assert (Hs : search fenced_block_re (strip_fences text) = None)
    by (apply search_fenced_block_none, H).
  repeat split; [exact H | exact Hs |].
  unfold _extract_json_from_text, _extract_json_from_text_unfenced,
    choose_candidate.
  now rewrite Hs.
Qed.

Lemma fenced_branch_dead_on_triples_witness :
  let text := py_text "Result: ```json [{'System_Name': 'A'}] ``` done" in
  backticks_in_triples text = true
  /\ _extract_json_from_text 1000 text
     = _extract_json_from_text_unfenced 1000 text.
Proof.
  assert (H : backticks_in_triples
    (py_text "Result: ```json [{'System_Name': 'A'}] ``` done") = true)
    by reflexivity.
  split; [exact H|].
  exact (proj2 (proj2 (fenced_branch_dead_on_triples 1000 _ H))).
Defined.

(** ** The per-system summary *)

Lemma str_eqb_eq : forall a b, str_eqb a b = true <-> a = b.
Proof.
  induction a as [|x a IH]; destruct b as [|y b]; simpl;
    try (split; [discriminate | congruence]); [tauto|].
  unfold char_eqb. rewrite andb_true_iff, N.eqb_eq, IH.
  split; [intros [-> ->]; reflexivity | intros H; injection H; auto].
Qed.

Lemma str_eqb_refl a : str_eqb a a = true.
Proof. now apply str_eqb_eq. Qed.

Lemma str_in_In x l : str_in x l = true <-> In x l.
Proof.
  unfold str_in. rewrite existsb_exists. split.
  - intros (y & Hy & E). apply str_eqb_eq in E. now subst.
  - intros H. exists x. split; [exact H | apply str_eqb_refl].
Qed.

Lemma same_cell_eq a b : same_cell a b = true <-> a = b.
Proof.
  destruct a as [x|], b as [y|]; cbn;
    try (split; [discriminate | congruence]); [|tauto].
  rewrite str_eqb_eq. split; [now intros -> | now injection 1].
Qed.

Lemma same_cell_refl a : same_cell a a = true.
Proof. now apply same_cell_eq. Qed.










(** ** The batch scheduler *)

Lemma ceil_div_0 b : 0 < b -> ceil_div 0 b = 0.
Proof. intros H. unfold ceil_div. apply Nat.div_small. lia. Qed.

Lemma ceil_div_step x b :
  0 < b -> 0 < x -> ceil_div x b = S (ceil_div (x - b) b).
Proof.
  intros Hb Hx. unfold ceil_div.
  destruct (Nat.le_gt_cases x b) as [Hle | Hgt].
  - replace (x - b) with 0 by lia.
    rewrite (Nat.div_small (0 + b - 1) b) by lia.
    symmetry. apply (Nat.div_unique _ _ _ (x - 1)); lia.
  - replace (x + b - 1) with (1 * b + (x - b + b - 1)) by lia.
    rewrite Nat.div_add_l by lia. reflexivity.
Qed.

Lemma range_from_closed step stop : 0 < step ->
  forall fuel start,
    stop <= start + fuel * step ->
    range_from fuel start stop step
    = map (fun k => start + k * step) (seq 0 (ceil_div (stop - start) step)).
Proof.
  intros Hstep. induction fuel as [|fuel IH]; intros start Hfuel.
  - replace (stop - start) with 0 by lia. now rewrite ceil_div_0.
  - cbn [range_from]. destruct (start <? stop) eqn:E.
    + apply Nat.ltb_lt in E.
      rewrite (@ceil_div_step (stop - start) step) by lia.
      rewrite IH by lia.
      cbn [seq map]. f_equal; [lia|].
      rewrite <- seq_shift, map_map.
      replace (stop - start - step) with (stop - (start + step)) by lia.
      apply map_ext. intros k. lia.
    + apply Nat.ltb_ge in E.
      replace (stop - start) with 0 by lia. now rewrite ceil_div_0.
Qed.

Lemma range_closed stop step : 0 < step ->
  range 0 stop step = map (fun k => k * step) (seq 0 (ceil_div stop step)).
Proof.
  intros H. unfold range. rewrite range_from_closed by nia.
  now rewrite Nat.sub_0_r.
Qed.

Lemma iloc_firstn_skipn {A} (data : list A) i b :
  iloc data i (i + b) = firstn b (skipn i data).
Proof. unfold iloc. f_equal. lia. Qed.

Lemma concat_slices_from {A} (data : list A) b : 0 < b ->
  forall n start,
    length data <= start + n * b ->
    concat (map (fun k => firstn b (skipn (start + k * b) data)) (seq 0 n))
    = skipn start data.
Proof.
  intros Hb. induction n as [|n IH]; intros start Hn.
  - cbn. symmetry. apply skipn_all2. lia.
  - cbn [seq map concat]. rewrite <- seq_shift, map_map.
    rewrite (map_ext _ (fun k => firstn b (skipn (start + b + k * b) data)))
      by (intros k; do 2 f_equal; lia).
    rewrite IH by lia.
    replace (start + 0 * b) with start by lia.
    rewrite Nat.add_comm, <- skipn_skipn.
    apply firstn_skipn.
Qed.

Lemma ceil_div_covers n b : 0 < b -> n <= ceil_div n b * b.
Proof.
  intros Hb. unfold ceil_div.
  pose proof (Nat.div_mod_eq (n + b - 1) b) as E.
  pose proof (Nat.mod_upper_bound (n + b - 1) b) as U.
  nia.
Qed.

Lemma ceil_div_tight n b k : 0 < b -> k < ceil_div n b -> k * b < n.
Proof.
  intros Hb. unfold ceil_div. intros Hk.
  pose proof (Nat.div_mod_eq (n + b - 1) b) as E.
  nia.
Qed.

Section BatchLemmas.

Variable to_json : list summary -> str.
Variables prompt_head prompt_tail : str.
Variable run_task : str -> nat -> nat -> nat -> gathered.

Let slice (batch_size : nat) (data : list summary) (i : nat) :=
  iloc data i (i + batch_size).

Let task (batch_size : nat) (data : list summary) (i : nat) : gathered :=
  run_task
    (_create_cloud_analysis_prompt prompt_head prompt_tail
       (to_json (slice batch_size data i)))
    i batch_size (length data).

Lemma batch_slices_closed batch_size data : 0 < batch_size ->
  batch_slices batch_size data
  = map (fun k => firstn batch_size (skipn (k * batch_size) data))
      (seq 0 (ceil_div (length data) batch_size)).
Proof.
  intros H. unfold batch_slices. rewrite range_closed by exact H.
  rewrite map_map. apply map_ext. intros k. apply iloc_firstn_skipn.
Qed.

Lemma batch_slices_concat batch_size data : 0 < batch_size ->
  concat (batch_slices batch_size data) = data.
Proof.
  intros H. rewrite batch_slices_closed by exact H.
  apply (@concat_slices_from _ data batch_size H _ 0).
  apply ceil_div_covers, H.
Qed.

Lemma log_batch_results_ok rs :
  Forall isolated_outcome rs ->
  log_batch_results
    (map (fun result =>
            match result with
            | Raised e =>
                if isinstance_Exception e then Returned (JList [])
                else result
            | Returned _ => result
            end) rs) = Ok tt.
Proof.
  induction 1 as [|x rs Hx _ IH]; [reflexivity|].
  unfold log_batch_results in *. cbn [map for_each].
  destruct x as [v | e]; cbn in Hx.
  - destruct v; try contradiction.
    destruct l as [|[] l]; try discriminate; cbn; exact IH.
  - rewrite Hx. cbn. exact IH.
Qed.

Lemma flatten_results_ok rs : Forall isolated_outcome rs ->
  forall acc,
    flatten_results
      (map (fun result =>
              match result with
              | Raised e =>
                  if isinstance_Exception e then Returned (JList [])
                  else result
              | Returned _ => result
              end) rs) acc
    = Ok (acc ++ concat (map contribution rs)).
Proof.
  induction 1 as [|x rs Hx _ IH]; intros acc.
  - cbn. now rewrite app_nil_r.
  - cbn [map flatten_results concat].
    destruct x as [v | e]; cbn in Hx.
    + destruct v; try contradiction.
      destruct l as [|r l]; cbn.
      * apply IH.
      * rewrite IH. now rewrite <- app_assoc.
    + rewrite Hx. cbn. apply IH.
Qed.

Lemma process_batches_async_tasks batch_size data :
  _process_batches_async run_task
    (create_batches to_json prompt_head prompt_tail batch_size data)
  = map absorb
      (map (task batch_size data) (range 0 (length data) batch_size)).
Proof.
  unfold _process_batches_async, create_batches. rewrite !map_map.
  apply map_ext. intros i. reflexivity.
Qed.

(** The merged list, when every task raised an [Exception] or returned
    a list of records. *)
Lemma process_batches_merged batch_size data :
  (forall i, In i (range 0 (length data) batch_size) ->
     isolated_outcome (task batch_size data i)) ->
  process_batches to_json prompt_head prompt_tail run_task batch_size data
  = Ok (concat
          (map (fun i => contribution (task batch_size data i))
             (range 0 (length data) batch_size))).
Proof.
  intros H. unfold process_batches.
  rewrite process_batches_async_tasks.
  set (rs := map (task batch_size data) (range 0 (length data) batch_size)).
  assert (Hrs : Forall isolated_outcome rs).
  { unfold rs. apply Forall_forall. intros x Hx.
    apply in_map_iff in Hx as (i & <- & Hi). auto. }
  unfold absorb.
  rewrite (log_batch_results_ok Hrs). cbn [bind].
  rewrite (flatten_results_ok Hrs). unfold rs. now rewrite map_map.
Qed.

End BatchLemmas.

(** C4. With a positive batch size [B], the [N] rows are cut, in order,
    into [ceil(N/B)] consecutive slices of [B] rows (the last one may be
    shorter), one batch per slice, and the slices put together give the
    input back.  With the batch size 10 of [_process_batches_with_ai],
    when every batch call returns the entries of its own slice in order,
    the merged list is the entries of all [N] rows in the original
    order. *)
Theorem batches_cover_input_in_order
    (to_json : list summary -> str) (prompt_head prompt_tail : str)
    (run_task : str -> nat -> nat -> nat -> gathered) :
  (forall batch_size data, 0 < batch_size ->
     length (create_batches to_json prompt_head prompt_tail batch_size data)
     = ceil_div (length data) batch_size
     /\ create_batches to_json prompt_head prompt_tail batch_size data
        = map (fun k =>
                 let batch :=
                   firstn batch_size (skipn (k * batch_size) data) in
                 (_create_cloud_analysis_prompt prompt_head prompt_tail
                    (to_json batch),
                  k * batch_size, batch_size, length data))
            (seq 0 (ceil_div (length data) batch_size))
     /\ concat (batch_slices batch_size data) = data)
  /\ (forall data (classify : summary -> json),
        (forall s, is_record (classify s) = true) ->
        (forall i, In i (range 0 (length data) 10) ->
           run_task
             (_create_cloud_analysis_prompt prompt_head prompt_tail
                (to_json (iloc data i (i + 10))))
             i 10 (length data)
           = Returned (JList (map classify (iloc data i (i + 10))))) ->
        _process_batches_with_ai to_json prompt_head prompt_tail run_task data
        = Ok (map classify data)
        /\ length (map classify data) = length data).
Proof.
  split.
  - intros batch_size data HB.
    assert (E : create_batches to_json prompt_head prompt_tail batch_size data
      = map (fun k =>
               let batch :=
                 firstn batch_size (skipn (k * batch_size) data) in
               (_create_cloud_analysis_prompt prompt_head prompt_tail
                  (to_json batch),
                k * batch_size, batch_size, length data))
          (seq 0 (ceil_div (length data) batch_size))).
    { unfold create_batches. rewrite range_closed by exact HB.
      rewrite map_map. apply map_ext. intros k. cbv zeta.
      now rewrite iloc_firstn_skipn. }
    split; [|split; [exact E | now apply batch_slices_concat]].
    now rewrite E, length_map, length_seq.
  - intros data classify Hrec Hcall. split; [|apply length_map].
    unfold _process_batches_with_ai.
    rewrite process_batches_merged.
    + rewrite (map_ext_in _ (fun i => map classify (iloc data i (i + 10))))
        by (intros i Hi; now rewrite (Hcall i Hi)).
      change (map (fun i => map classify (iloc data i (i + 10)))
                (range 0 (length data) 10))
        with (map (fun i => map classify ((fun i => iloc data i (i + 10)) i))
                (range 0 (length data) 10)).
      rewrite <- (map_map (fun i => iloc data i (i + 10)) (map classify)).
      rewrite <- concat_map.
      change (map (fun i => iloc data i (i + 10)) (range 0 (length data) 10))
        with (batch_slices 10 data).
      rewrite batch_slices_concat by lia. reflexivity.
    + intros i Hi. rewrite (Hcall i Hi). cbn.
      apply forallb_forall. intros x Hx.
      apply in_map_iff in Hx as (s & <- & _). apply Hrec.
Qed.

Lemma batches_cover_input_in_order_witness :
  length (create_batches (fun _ => []) [] [] 10 example_data) = 2
  /\ _process_batches_with_ai (fun _ => []) [] [] example_run_task
       example_data
     = Ok (map example_classify example_data).
Proof.
  pose proof (batches_cover_input_in_order (fun _ => []) [] []
                example_run_task) as [Hpart Hfull].
  split.
  - destruct (Hpart 10 example_data) as [Hlen _]; [lia|].
    rewrite Hlen. reflexivity.
  - apply Hfull.
    + intros s. reflexivity.
    + intros i Hi. reflexivity.
Defined.

(** C5. Every task's outcome is handled on its own: the processed list
    has one entry per batch, in batch order, which is the empty list for a
    task that raised an [Exception] and the returned value otherwise.
    When the other tasks return lists of records, the merged list is
    those lists put together in batch order, the failed batches adding
    nothing. *)
Theorem batch_failure_is_isolated
    (to_json : list summary -> str) (prompt_head prompt_tail : str)
    (run_task : str -> nat -> nat -> nat -> gathered) :
  (forall batches,
     length (_process_batches_async run_task batches) = length batches
     /\ forall k prompt i batch_size total,
          nth_error batches k = Some (prompt, i, batch_size, total) ->
          (forall e, run_task prompt i batch_size total = Raised e ->
             isinstance_Exception e = true ->
             nth_error (_process_batches_async run_task batches) k
             = Some (Returned (JList [])))
          /\ (forall v, run_task prompt i batch_size total = Returned v ->
                nth_error (_process_batches_async run_task batches) k
                = Some (Returned v)))
  /\ (forall batch_size data,
        (forall i, In i (range 0 (length data) batch_size) ->
           isolated_outcome
             (run_task
                (_create_cloud_analysis_prompt prompt_head prompt_tail
                   (to_json (iloc data i (i + batch_size))))
                i batch_size (length data))) ->
        process_batches to_json prompt_head prompt_tail run_task
          batch_size data
        = Ok (concat
                (map (fun i =>
                        contribution
                          (run_task
                             (_create_cloud_analysis_prompt prompt_head
                                prompt_tail
                                (to_json (iloc data i (i + batch_size))))
                             i batch_size (length data)))
                   (range 0 (length data) batch_size)))).
Proof.
  split.
  - intros batches. unfold _process_batches_async.
    split; [now rewrite !length_map|].
    intros k prompt i batch_size total Hk.
    rewrite !nth_error_map, Hk. cbn.
    split.
    + intros e -> He. now rewrite He.
    + intros v ->. reflexivity.
  - intros batch_size data H. now apply process_batches_merged.
Qed.

Lemma batch_failure_is_isolated_witness :
  process_batches (fun _ => []) [] [] example_failing_task 1
    (firstn 3 example_data)
  = Ok [example_classify (example_summary 0);
        example_classify (example_summary 2)].
Proof.
  refine (proj2 (batch_failure_is_isolated (fun _ => []) [] []
                   example_failing_task) 1 (firstn 3 example_data) _).
  intros i [<- | [<- | [<- | []]]]; reflexivity.
Defined.

(** ** Polling *)

Lemma terminal_not_completed status :
  terminal_failure status = true ->
  str_eqb status (py_str "completed") = false.
Proof.
  intros H. destruct (str_eqb status (py_str "completed")) eqn:E;
    [|reflexivity].
  apply str_eqb_eq in E. subst. discriminate H.
Qed.

Section Polling.

Variable recursion_limit : nat.
Variable client : AgentsClient.
Variables thread_id run_id : str.
Variables max_retries retry_interval : nat.

Let loop := poll_loop recursion_limit client thread_id run_id
              max_retries retry_interval.
Let tick := poll_tick thread_id run_id retry_interval.

Lemma poll_loop_terminal remaining retry_count h status :
  runs_get client thread_id run_id h = Ok status ->
  terminal_failure status = true ->
  loop (S remaining) retry_count h
  = (Ok (JList []), Call (RunsGet thread_id run_id) :: h).
Proof.
  intros Hget Hterm. unfold loop. cbn [poll_loop].
  unfold bindM, try_exceptM, request. rewrite Hget.
  now rewrite (terminal_not_completed _ Hterm), Hterm.
Qed.

Lemma poll_loop_pending remaining retry_count h status :
  runs_get client thread_id run_id h = Ok status ->
  pending status = true ->
  loop (S remaining) retry_count h
  = loop remaining (S retry_count) (tick h).
Proof.
  intros Hget Hpend. unfold loop. cbn [poll_loop].
  unfold bindM at 1, try_exceptM, bindM, request. rewrite Hget.
  apply andb_prop in Hpend as [Hc Ht].
  apply negb_true_iff in Hc, Ht. now rewrite Hc, Ht.
Qed.

(** After [k] polls that all saw a pending status. *)
Lemma poll_loop_pending_prefix : forall k remaining retry_count h,
  (forall j, j < k ->
     exists status,
       runs_get client thread_id run_id (Nat.iter j tick h) = Ok status
       /\ pending status = true) ->
  loop (k + remaining) retry_count h
  = loop remaining (k + retry_count) (Nat.iter k tick h).
Proof.
  induction k as [|k IH]; intros remaining retry_count h H;
    [reflexivity|].
  destruct (H 0) as (status & Hget & Hpend); [lia|].
  cbn [Nat.add]. rewrite (poll_loop_pending _ _ _ Hget Hpend).
  rewrite IH.
  - rewrite <- Nat.add_succ_comm. f_equal.
    symmetry. apply Nat.iter_succ_r.
  - intros j Hj. destruct (H (S j)) as (s & Hs & Hp); [lia|].
    exists s. split; [|exact Hp]. now rewrite <- Nat.iter_succ_r.
Qed.

End Polling.

(** C7. Polling that sees a terminal status ([failed], [cancelled] or
    [expired]) after any number of pending polls returns the empty list
    at once: the history ends with that one status request, with no sleep
    and no request after it.  Polling that sees a pending status at every
    one of its [max_retries] polls (30 by default) returns the empty list
    after exactly that many polls, and does not raise. *)
Theorem poll_stops_on_failure_and_times_out
    (recursion_limit : nat) (client : AgentsClient)
    (thread_id run_id : str) (max_retries retry_interval : nat)
    (h : history) :
  let tick := poll_tick thread_id run_id retry_interval in
  let poll := _poll_for_completion recursion_limit client thread_id run_id
                max_retries retry_interval in
  (forall remaining retry_count h' status,
     runs_get client thread_id run_id h' = Ok status ->
     terminal_failure status = true ->
     poll_loop recursion_limit client thread_id run_id max_retries
       retry_interval (S remaining) retry_count h'
     = (Ok (JList []), Call (RunsGet thread_id run_id) :: h'))
  /\ (forall k status,
     k < max_retries ->
     (forall j, j < k ->
        exists s, runs_get client thread_id run_id (Nat.iter j tick h) = Ok s
                  /\ pending s = true) ->
     runs_get client thread_id run_id (Nat.iter k tick h) = Ok status ->
     terminal_failure status = true ->
     poll h
     = (Ok (JList []),
        Call (RunsGet thread_id run_id) :: Nat.iter k tick h))
  /\ ((forall j, j < max_retries ->
         exists s, runs_get client thread_id run_id (Nat.iter j tick h) = Ok s
                   /\ pending s = true) ->
      poll h = (Ok (JList []), Nat.iter max_retries tick h)).
Proof.
  intros tick poll. unfold poll, _poll_for_completion.
  split; [|split].
  - intros remaining retry_count h' status Hget Hterm.
    eapply poll_loop_terminal; eauto.
  - intros k status Hk Hpend Hget Hterm.
    replace max_retries with (k + S (max_retries - k - 1)) at 2 by lia.
    rewrite poll_loop_pending_prefix by exact Hpend.
    eapply poll_loop_terminal; eauto.
  - intros Hpend.
    replace max_retries with (max_retries + 0) at 2 by lia.
    rewrite poll_loop_pending_prefix by exact Hpend.
    reflexivity.
Qed.

Lemma poll_stops_on_failure_and_times_out_witness :
  _poll_for_completion 1000 (scripted_client (py_str "expired"))
    (py_str "thread_1") (py_str "run_1") 30 2 []
  = (Ok (JList []), [Call (RunsGet (py_str "thread_1") (py_str "run_1"))])
  /\ _poll_for_completion 1000 (scripted_client (py_str "in_progress"))
       (py_str "thread_1") (py_str "run_1") 30 2 []
     = (Ok (JList []),
        Nat.iter 30 (poll_tick (py_str "thread_1") (py_str "run_1") 2) []).
Proof.
  split.
  - refine (proj1 (proj2 (poll_stops_on_failure_and_times_out 1000
              (scripted_client (py_str "expired"))
              (py_str "thread_1") (py_str "run_1") 30 2 []))
              0 (py_str "expired") _ _ _ _).
    + lia.
    + intros j Hj. lia.
    + reflexivity.
    + reflexivity.
  - refine (proj2 (proj2 (poll_stops_on_failure_and_times_out 1000
              (scripted_client (py_str "in_progress"))
              (py_str "thread_1") (py_str "run_1") 30 2 [])) _).
    intros j Hj. exists (py_str "in_progress"). split; reflexivity.
Defined.

(** ** Retrying *)

Lemma thread_creations_app a b :
  thread_creations (a ++ b) = thread_creations a + thread_creations b.
Proof. unfold thread_creations. now rewrite filter_app, length_app. Qed.

Lemma grows_ret {A} (a : A) : grows (ret a).
Proof. intros h. exists []. split; reflexivity. Qed.

Lemma grows_sleep n : grows (sleep n).
Proof. intros h. exists [Sleep n]. split; reflexivity. Qed.

Lemma grows_request {A} c (answer : history -> res A) :
  is_thread_create (Call c) = false -> grows (request c answer).
Proof.
  intros H h. exists [Call c]. split; [reflexivity|].
  unfold thread_creations. cbn [filter]. now rewrite H.
Qed.

Lemma grows_bind {A B} (m : M A) (f : A -> M B) :
  grows m -> (forall a, grows (f a)) -> grows (bindM m f).
Proof.
  intros Hm Hf h. unfold bindM.
  destruct (Hm h) as (ev1 & E1 & C1).
  destruct (m h) as [[a | e] h1]; cbn [snd] in *.
  - destruct (Hf a h1) as (ev2 & E2 & C2).
    exists (ev2 ++ ev1). rewrite E2, E1, app_assoc.
    split; [reflexivity|]. rewrite thread_creations_app. lia.
  - exists ev1. now split.
Qed.

Lemma grows_try {A} (body : M A) (handler : exn -> M A) :
  grows body -> (forall e, grows (handler e)) ->
  grows (try_exceptM body handler).
Proof.
  intros Hb Hh h. unfold try_exceptM.
  destruct (Hb h) as (ev1 & E1 & C1).
  destruct (body h) as [[a | e] h1]; cbn [snd] in *.
  - exists ev1. now split.
  - destruct (isinstance_Exception e); [|exists ev1; now split].
    destruct (Hh e h1) as (ev2 & E2 & C2).
    exists (ev2 ++ ev1). rewrite E2, E1, app_assoc.
    split; [reflexivity|]. rewrite thread_creations_app. lia.
Qed.

Lemma safe_ret {A} (a : A) : safe (ret a).
Proof. intros h e h' H. discriminate. Qed.

Lemma safe_sleep n : safe (sleep n).
Proof. intros h e h' H. discriminate. Qed.

Lemma safe_request {A} c (answer : history -> res A) :
  (forall h e, answer h = Raise e -> isinstance_Exception e = true) ->
  safe (request c answer).
Proof.
  intros Ha h e h' H. unfold request in H. injection H as H _. eauto.
Qed.

Lemma safe_bind {A B} (m : M A) (f : A -> M B) :
  safe m -> (forall a, safe (f a)) -> safe (bindM m f).
Proof.
  intros Hm Hf h e h' H. unfold bindM in H.
  destruct (m h) as [[a | e1] h1] eqn:E.
  - eapply Hf; eauto.
  - injection H as <- <-. eapply Hm; eauto.
Qed.

(** A handler that cannot raise makes the whole [try] unable to raise. *)
Lemma try_never_raises {A} (body : M A) (handler : exn -> M A) :
  safe body ->
  (forall e h, exists a h', handler e h = (Ok a, h')) ->
  forall h, exists a h', try_exceptM body handler h = (Ok a, h').
Proof.
  intros Hb Hh h. unfold try_exceptM.
  destruct (body h) as [[a | e] h1] eqn:E; [eauto|].
  rewrite (Hb _ _ _ E). apply Hh.
Qed.

Lemma never_raises_safe {A} (c : M A) :
  (forall h, exists a h', c h = (Ok a, h')) -> safe c.
Proof.
  intros H h e h' E. destruct (H h) as (a & h1 & E1). congruence.
Qed.

Lemma bind_ok_inv {A B} (m : M A) (f : A -> M B) h b h' :
  bindM m f h = (Ok b, h') ->
  exists a h1, m h = (Ok a, h1) /\ f a h1 = (Ok b, h').
Proof.
  unfold bindM. destruct (m h) as [[a | e] h1]; [eauto | discriminate].
Qed.

Ltac grow :=
  repeat first
    [ apply grows_ret
    | apply grows_sleep
    | (apply grows_request; reflexivity)
    | apply grows_bind
    | apply grows_try
    | match goal with
      | |- forall _, grows _ => intro
      | |- grows (let _ := _ in _) => cbv zeta
      | |- grows (match ?x with _ => _ end) => destruct x
      | |- grows (if ?x then _ else _) => destruct x
      end ].

Ltac safety :=
  repeat first
    [ apply safe_ret
    | apply safe_sleep
    | (apply safe_request; solve [eauto])
    | apply safe_bind
    | match goal with
      | |- forall _, safe _ => intro
      | |- safe (let _ := _ in _) => cbv zeta
      | |- safe (match ?x with _ => _ end) => destruct x
      | |- safe (if ?x then _ else _) => destruct x
      end ].

Section Retrying.

Variable recursion_limit : nat.
Variable client : AgentsClient.
Variable AGENT_MODEL_DEPLOYMENT_NAME : str.
Variables system_prompt user_prompt : str.
Variable max_retries : nat.

Let attempt_ :=
  attempt recursion_limit client AGENT_MODEL_DEPLOYMENT_NAME
    system_prompt user_prompt.
Let loop :=
  retry_loop recursion_limit client AGENT_MODEL_DEPLOYMENT_NAME
    system_prompt user_prompt max_retries.

Lemma grows_poll_loop t r m i : forall remaining retry_count,
  grows (poll_loop recursion_limit client t r m i remaining retry_count).
Proof.
  induction remaining as [|remaining IH]; intros retry_count;
    cbn [poll_loop]; [apply grows_ret|].
  apply grows_bind; [grow | intros [v|]; [apply grows_ret | apply IH]].
Qed.

Lemma grows_get_agent_id :
  grows (_get_agent_id client AGENT_MODEL_DEPLOYMENT_NAME).
Proof. unfold _get_agent_id. grow. Qed.

(** An attempt starts by creating a thread, and creates no other. *)
Lemma attempt_starts_with_thread h :
  exists later,
    snd (attempt_ h) = later ++ Call ThreadsCreate :: h
    /\ thread_creations later = 0.
Proof.
  unfold attempt_, attempt.
  unfold bindM at 1. unfold request at 1.
  destruct (threads_create client h) as [thread_id | e].
  - match goal with
    | |- context [snd (?c (Call ThreadsCreate :: h))] =>
        assert (G : grows c)
    end.
    { cbv zeta.
      apply grows_bind; [apply grows_request; reflexivity | intros _].
      apply grows_bind; [apply grows_get_agent_id | intros agent_id].
      apply grows_bind;
        [destruct agent_id as [[|c id]|]; apply grows_request; reflexivity
        | intros run_id].
      apply grows_bind; [apply grows_poll_loop | intros result].
      destruct (truthy result); apply grows_ret. }
    apply G.
  - exists []. split; reflexivity.
Qed.

Lemma attempt_return_truthy h v h1 :
  attempt_ h = (Ok (Return v), h1) -> truthy v = true.
Proof.
  unfold attempt_, attempt. intros H.
  repeat (apply bind_ok_inv in H; destruct H as (? & ? & _ & H)).
  match type of H with
  | (if truthy ?r then _ else _) _ = _ =>
      destruct (truthy r) eqn:E; unfold ret in H; [|discriminate]
  end.
  congruence.
Qed.

Lemma retry_loop_return remaining retry_count h v h1 :
  attempt_ h = (Ok (Return v), h1) ->
  loop (S remaining) retry_count h = (Ok v, h1).
Proof.
  intros H. unfold loop. cbn [retry_loop].
  unfold bindM, try_exceptM. fold attempt_. now rewrite H.
Qed.

Lemma retry_loop_empty remaining retry_count h h1 :
  attempt_ h = (Ok Next, h1) ->
  loop (S remaining) retry_count h = loop remaining (S retry_count) h1.
Proof.
  intros H. unfold loop. cbn [retry_loop].
  unfold bindM at 1, try_exceptM. fold attempt_. now rewrite H.
Qed.

Lemma retry_loop_raise remaining retry_count h e h1 :
  attempt_ h = (Raise e, h1) ->
  isinstance_Exception e = true ->
  loop (S remaining) retry_count h
  = loop remaining (S retry_count)
      (if S retry_count <? max_retries then Sleep 2 :: h1 else h1).
Proof.
  intros H He. unfold loop. cbn [retry_loop].
  unfold bindM at 1, try_exceptM. fold attempt_. rewrite H, He.
  destruct (S retry_count <? max_retries); reflexivity.
Qed.

Hypothesis client_ok : raises_only_Exception client.

Lemma poll_loop_never_raises t r m i : forall remaining retry_count h,
  exists v h',
    poll_loop recursion_limit client t r m i remaining retry_count h
    = (Ok v, h').
Proof.
  destruct client_ok as (_ & _ & _ & _ & _ & _ & Hget & Hlist).
  induction remaining as [|remaining IH]; intros retry_count h;
    cbn [poll_loop]; [unfold ret; eauto|].
  unfold bindM at 1.
  match goal with
  | |- context [try_exceptM ?b ?hd h] =>
      destruct (@try_never_raises _ b hd) with (h := h)
        as (step & h1 & E)
  end.
  - safety.
  - intros e h0. destruct (S retry_count <? m); unfold bindM, sleep, ret;
      eauto.
  - rewrite E. destruct step as [v|]; [unfold ret; eauto | apply IH].
Qed.

Lemma safe_attempt : safe attempt_.
Proof.
  destruct client_ok as (Hthread & Hmsg & Hagents & Hcreate & Hra & Hrm & _).
  unfold attempt_, attempt.
  apply safe_bind; [apply safe_request; eauto | intros thread_id].
  cbv zeta.
  apply safe_bind; [apply safe_request; eauto | intros _].
  apply safe_bind.
  { apply never_raises_safe. intros h. unfold _get_agent_id.
    apply try_never_raises; [safety | unfold ret; eauto]. }
  intros agent_id.
  apply safe_bind;
    [destruct agent_id as [[|c id]|]; apply safe_request; eauto
    | intros run_id].
  apply safe_bind.
  { apply never_raises_safe. intros h. apply poll_loop_never_raises. }
  intros result. destruct (truthy result); apply safe_ret.
Qed.

(** The loop never raises; it ends with a true value some attempt
    polled, or with the empty list after [remaining] more attempts. *)
Lemma retry_loop_total : forall remaining retry_count h,
  exists v ev,
    loop remaining retry_count h = (Ok v, ev ++ h)
    /\ (truthy v = true /\ thread_creations ev <= remaining
        \/ v = JList [] /\ thread_creations ev = remaining).
Proof.
  induction remaining as [|remaining IH]; intros retry_count h.
  - exists (JList []), []. split; [reflexivity | right; now split].
  - destruct (attempt_starts_with_thread h) as (later & Eh & Cl).
    destruct (attempt_ h) as [[[v|] | e] h1] eqn:E; cbn [snd] in Eh;
      subst h1.
    + exists v, (later ++ [Call ThreadsCreate]).
      rewrite (@retry_loop_return remaining retry_count _ _ _ E), <- app_assoc.
      split; [reflexivity|]. left.
      split; [eapply attempt_return_truthy; eauto|].
      rewrite thread_creations_app, Cl. cbn. lia.
    + rewrite (@retry_loop_empty remaining retry_count _ _ E).
      destruct (IH (S retry_count) (later ++ Call ThreadsCreate :: h))
        as (v & ev & -> & Hv).
      exists v, (ev ++ later ++ [Call ThreadsCreate]).
      rewrite <- !app_assoc. split; [reflexivity|].
      rewrite !thread_creations_app, Cl. cbn.
      destruct Hv as [[Hv Hc] | [Hv Hc]]; [left | right];
        (split; [exact Hv | lia]).
    + assert (He : isinstance_Exception e = true)
        by (eapply safe_attempt; eauto).
      rewrite (@retry_loop_raise remaining retry_count _ _ _ E He).
      destruct (S retry_count <? max_retries).
      * destruct (IH (S retry_count)
                    (Sleep 2 :: later ++ Call ThreadsCreate :: h))
          as (v & ev & -> & Hv).
        exists v, (ev ++ Sleep 2 :: later ++ [Call ThreadsCreate]).
        split.
        { f_equal. rewrite <- app_assoc. cbn [app].
          now rewrite <- app_assoc. }
        rewrite thread_creations_app.
        change (Sleep 2 :: later ++ [Call ThreadsCreate])
          with ([Sleep 2] ++ later ++ [Call ThreadsCreate]).
        rewrite !thread_creations_app, Cl. cbn.
        destruct Hv as [[Hv Hc] | [Hv Hc]]; [left | right];
          (split; [exact Hv | lia]).
      * destruct (IH (S retry_count) (later ++ Call ThreadsCreate :: h))
          as (v & ev & -> & Hv).
        exists v, (ev ++ later ++ [Call ThreadsCreate]).
        rewrite <- !app_assoc. split; [reflexivity|].
        rewrite !thread_creations_app, Cl. cbn.
        destruct Hv as [[Hv Hc] | [Hv Hc]]; [left | right];
          (split; [exact Hv | lia]).
Qed.

End Retrying.

(** C6, as stated, fails.  When the polling of an attempt returns the
    empty list (here the run reports [failed]) the next attempt follows
    without any sleep: two attempts leave a history with two thread
    creations and no sleep at all.  When the attempts raise, the sleep
    follows only an attempt that is not the last: two attempts, one
    sleep.  And the default of [max_retries] is 3, not 5. *)
Lemma retry_without_backoff :
  let run :=
    _call_ai_with_thread_and_run 1000 (scripted_client (py_str "failed"))
      (py_str "gpt-4o") (py_str "system") (py_str "user") 2 [] in
  let run' :=
    _call_ai_with_thread_and_run 1000 unreachable_client
      (py_str "gpt-4o") (py_str "system") (py_str "user") 2 [] in
  fst run = Ok (JList [])
  /\ thread_creations (snd run) = 2
  /\ existsb is_sleep (snd run) = false
  /\ run' = (Ok (JList []),
             [Call ThreadsCreate; Sleep 2; Call ThreadsCreate])
  /\ default_max_retries = 3.
Proof. vm_compute. repeat split. Qed.

(** C6, amended.  An attempt that raises an [Exception] is counted, is
    followed by a sleep of 2 seconds only when another attempt remains,
    and the next attempt follows; an attempt whose polling returns an
    empty result is counted and the next attempt follows without a
    sleep; every attempt starts with the creation of a thread.  When the
    service raises nothing but [Exception]s the call never raises: it
    returns a true value polled by one of at most [max_retries] attempts,
    or the empty list after exactly [max_retries] attempts.  The default
    of [max_retries] is 3; the batch caller passes 5. *)
Theorem retry_policy
    (recursion_limit : nat) (client : AgentsClient)
    (model sys_prompt user_prompt : str) (max_retries : nat) :
  let attempt_ :=
    attempt recursion_limit client model sys_prompt user_prompt in
  let loop :=
    retry_loop recursion_limit client model sys_prompt user_prompt
      max_retries in
  (forall remaining retry_count h e h1,
     attempt_ h = (Raise e, h1) ->
     isinstance_Exception e = true ->
     loop (S remaining) retry_count h
     = loop remaining (S retry_count)
         (if S retry_count <? max_retries then Sleep 2 :: h1 else h1))
  /\ (forall remaining retry_count h h1,
        attempt_ h = (Ok Next, h1) ->
        loop (S remaining) retry_count h
        = loop remaining (S retry_count) h1)
  /\ (forall h, exists later,
        snd (attempt_ h) = later ++ Call ThreadsCreate :: h
        /\ thread_creations later = 0)
  /\ (raises_only_Exception client ->
      forall h, exists v ev,
        _call_ai_with_thread_and_run recursion_limit client model
          sys_prompt user_prompt max_retries h
        = (Ok v, ev ++ h)
        /\ (truthy v = true /\ thread_creations ev <= max_retries
            \/ v = JList [] /\ thread_creations ev = max_retries))
  /\ default_max_retries = 3
  /\ (forall prompt h,
        _call_ai_for_analysis recursion_limit client model prompt h
        = try_exceptM
            (_call_ai_with_thread_and_run recursion_limit client model
               system_prompt prompt 5)
            (fun _ => ret (JList [])) h).
Proof.
  intros attempt_ loop.
  split; [intros; eapply retry_loop_raise; eauto|].
  split; [intros; eapply retry_loop_empty; eauto|].
  split; [apply attempt_starts_with_thread|].
  split; [intros Hc h; now apply retry_loop_total|].
  split; reflexivity.
Qed.

Lemma scripted_client_raises_nothing status :
  raises_only_Exception (scripted_client status).
Proof. repeat split; intros; discriminate. Qed.

Lemma retry_policy_witness :
  exists v ev,
    _call_ai_with_thread_and_run 1000 (scripted_client (py_str "failed"))
      (py_str "gpt-4o") (py_str "system") (py_str "user") 5 []
    = (Ok v, ev ++ [])
    /\ (truthy v = true /\ thread_creations ev <= 5
        \/ v = JList [] /\ thread_creations ev = 5).
Proof.
  exact (proj1 (proj2 (proj2 (proj2
           (retry_policy 1000 (scripted_client (py_str "failed"))
              (py_str "gpt-4o") (py_str "system") (py_str "user") 5))))
           (scripted_client_raises_nothing (py_str "failed")) []).
Defined.

(** ** The report *)

Lemma create_metadata_total getuser now self metadata :
  _create_metadata getuser now self = Ok metadata ->
  dict_get (py_str "total_records_analyzed") metadata
  = Some (JInt match analysis_results self with
               | Some df =>
                   if frame_empty df then 0%Z else Z.of_nat (frame_len df)
               | None => 0%Z
               end).
Proof.
  unfold _create_metadata, bind. intros H.
  destruct (analysis_results self) as [df|].
  - destruct (frame_empty df); cbn [negb] in H.
    + destruct getuser; [|discriminate]. now injection H as <-.
    + destruct (count_where _ (py_str "Deviation") df); [|discriminate].
      destruct (count_where _ (py_str "OK") df); [|discriminate].
      destruct getuser; [|discriminate]. now injection H as <-.
  - destruct getuser; [|discriminate]. now injection H as <-.
Qed.

(** C9, as stated, fails: the metadata counts the rows of the analysis
    results.  Here the inventory has two systems, the analysis one
    result, the save succeeds and the total is 1. *)
Lemma metadata_total_counts_results :
  exists path inventory results metadata,
    save_analysis_results (Ok (py_str "auditor")) (py_str "2025-01-31 09:00:00")
      (fun _ => None) example_analyzer
    = Ok (Some (path,
                [ (py_str "Cloud_Resource_Inventory", InventoryRows inventory);
                  (py_str "Cloud_Resource_Deviation_Analysis",
                   ResultRows results);
                  (py_str "Metadata", KeyValueRows metadata) ]))
    /\ dict_get (py_str "total_records_analyzed") metadata = Some (JInt 1)
    /\ length (unique (map System_Name inventory)) = 2.
Proof. repeat eexists; vm_compute; reflexivity. Qed.

(** C9, amended.  A successful save writes exactly three sheets, named
    [Cloud_Resource_Inventory], [Cloud_Resource_Deviation_Analysis] and
    [Metadata], which hold the inventory, the analysis results and the
    metadata; the total of the metadata is the number of rows of the
    analysis results, which is the number of distinct systems of the
    inventory when the analysis holds one result per system. *)
Theorem saved_workbook_sheets_and_total
    (getuser : res str) (now : str) (write_error : str -> option exn)
    (self : analyzer) (path : str) (sheets : workbook) :
  save_analysis_results getuser now write_error self
  = Ok (Some (path, sheets)) ->
  map fst sheets = sheet_names
  /\ exists inventory results metadata,
       cloud_data self = Some inventory
       /\ analysis_results self = Some results
       /\ map snd sheets
          = [InventoryRows inventory; ResultRows results;
             KeyValueRows metadata]
       /\ dict_get (py_str "total_records_analyzed") metadata
          = Some (JInt (Z.of_nat (length results)))
       /\ (length results = length (unique (map System_Name inventory)) ->
           dict_get (py_str "total_records_analyzed") metadata
           = Some (JInt (Z.of_nat
                           (length (unique (map System_Name inventory)))))).
Proof.
  unfold save_analysis_results, try_except_Exception. intros H.
  match type of H with
  | match ?b with _ => _ end = _ => destruct b as [r | e] eqn:E
  end.
  2: { destruct (isinstance_Exception e); discriminate. }
  injection H as ->.
  destruct (analysis_results self) as [results|] eqn:Eres; [|discriminate].
  destruct (frame_empty results) eqn:Eempty; [discriminate|].
  destruct (input_file self) as [[|c f]|]; try discriminate.
  unfold bind in E.
  destruct (cloud_data self) as [inventory|]; [|discriminate].
  destruct (any_any inventory); cbn [negb] in E; [|discriminate].
  destruct (_create_metadata getuser now self) as [metadata|] eqn:Emeta;
    [|discriminate].
  unfold write_workbook in E.
  destruct (write_error _); [discriminate|].
  injection E as <- <-.
  split; [reflexivity|].
  exists inventory, results, metadata.
  apply create_metadata_total in Emeta.
  rewrite Eres, Eempty in Emeta. unfold frame_len in Emeta.
  repeat split; try exact Emeta.
  intros <-. exact Emeta.
Qed.

Lemma saved_workbook_sheets_and_total_witness :
  save_analysis_results (Ok (py_str "auditor"))
    (py_str "2025-01-31 09:00:00") (fun _ => None) example_analyzer
  = Ok (Some (fst example_saved, snd example_saved))
  /\ map fst (snd example_saved) = sheet_names.
Proof.
  assert (H : save_analysis_results (Ok (py_str "auditor"))
                (py_str "2025-01-31 09:00:00") (fun _ => None)
                example_analyzer
              = Ok (Some (fst example_saved, snd example_saved)))
    by (vm_compute; reflexivity).
  split; [exact H|].
  exact (proj1 (@saved_workbook_sheets_and_total _ _ _ _ _ _ H)).
Defined.

(* ================================================================= *)
(** * Further properties of the run client *)

Lemma total_app w a b : total w (a ++ b) = total w a + total w b.
Proof.
  unfold total. now rewrite map_app, list_sum_app.
Qed.

Lemma within_weaken {A} w n m (c : M A) :
  n <= m -> within w n c -> within w m c.
Proof.
  intros Hle Hc h. destruct (Hc h) as (ev & E & B).
  exists ev. split; [exact E | lia].
Qed.

Lemma within_ret {A} w (a : A) : within w 0 (ret a).
Proof. intros h. exists []. split; [reflexivity | apply Nat.le_refl]. Qed.

Lemma within_sleep w n : within w (w (Sleep n)) (sleep n).
Proof.
  intros h. exists [Sleep n]. split; [reflexivity|].
  unfold total. cbn. lia.
Qed.

Lemma within_request {A} w c (answer : history -> res A) :
  within w (w (Call c)) (request c answer).
Proof.
  intros h. exists [Call c]. split; [reflexivity|].
  unfold total. cbn. lia.
Qed.

Lemma within_bind {A B} w n m (c : M A) (f : A -> M B) :
  within w n c -> (forall a, within w m (f a)) ->
  within w (n + m) (bindM c f).
Proof.
  intros Hc Hf h. unfold bindM.
  destruct (Hc h) as (ev1 & E1 & B1).
  destruct (c h) as [[a | e] h1]; cbn [snd] in *.
  - destruct (Hf a h1) as (ev2 & E2 & B2).
    exists (ev2 ++ ev1). rewrite E2, E1, app_assoc.
    split; [reflexivity|]. rewrite total_app. lia.
  - exists ev1. split; [exact E1 | lia].
Qed.

Lemma within_try {A} w n m (body : M A) (handler : exn -> M A) :
  within w n body -> (forall e, within w m (handler e)) ->
  within w (n + m) (try_exceptM body handler).
Proof.
  intros Hb Hh h. unfold try_exceptM.
  destruct (Hb h) as (ev1 & E1 & B1).
  destruct (body h) as [[a | e] h1]; cbn [snd] in *.
  - exists ev1. split; [exact E1 | lia].
  - destruct (isinstance_Exception e); [|exists ev1; split; [exact E1 | lia]].
    destruct (Hh e h1) as (ev2 & E2 & B2).
    exists (ev2 ++ ev1). rewrite E2, E1, app_assoc.
    split; [reflexivity|]. rewrite total_app. lia.
Qed.

Ltac stop_with prefix :=
  exists prefix; split; [reflexivity | unfold total; cbn; lia].

Ltac go_on IH rc h' prefix :=
  let ev := fresh "ev" in
  let E := fresh "E" in
  let B := fresh "B" in
  destruct (IH rc h') as (ev & E & B);
  exists (ev ++ prefix); rewrite E;
  split; [now rewrite <- app_assoc
         | rewrite total_app; unfold total in *; cbn; lia].

(** Each round of the polling loop adds at most one status request, one
    listing of the messages and one sleep. *)
Lemma within_poll_loop w lim client t r m i :
  forall remaining retry_count,
    within w
      (remaining * (w (Call (RunsGet t r)) + w (Call (MessagesList t))
                    + w (Sleep i)))
      (poll_loop lim client t r m i remaining retry_count).
Proof.
  induction remaining as [|remaining IH]; intros retry_count h.
  - stop_with (@nil event).
  - cbn [poll_loop]. unfold bindM, try_exceptM, request, sleep, ret.
    destruct (runs_get client t r h) as [status | e].
    + destruct (str_eqb status (py_str "completed")).
      * destruct (messages_list client t (Call (RunsGet t r) :: h))
          as [msgs | e].
        -- destruct (rev (filter is_assistant msgs));
             stop_with [Call (MessagesList t); Call (RunsGet t r)].
        -- destruct (isinstance_Exception e);
             [|stop_with [Call (MessagesList t); Call (RunsGet t r)]].
           destruct (S retry_count <? m).
           ++ go_on IH (S retry_count)
                (Sleep i :: Call (MessagesList t) :: Call (RunsGet t r) :: h)
                [Sleep i; Call (MessagesList t); Call (RunsGet t r)].
           ++ go_on IH (S retry_count)
                (Call (MessagesList t) :: Call (RunsGet t r) :: h)
                [Call (MessagesList t); Call (RunsGet t r)].
      * destruct (terminal_failure status).
        -- stop_with [Call (RunsGet t r)].
        -- go_on IH (S retry_count) (Sleep i :: Call (RunsGet t r) :: h)
             [Sleep i; Call (RunsGet t r)].
    + destruct (isinstance_Exception e); [|stop_with [Call (RunsGet t r)]].
      destruct (S retry_count <? m).
      * go_on IH (S retry_count) (Sleep i :: Call (RunsGet t r) :: h)
          [Sleep i; Call (RunsGet t r)].
      * go_on IH (S retry_count) (Call (RunsGet t r) :: h)
          [Call (RunsGet t r)].
Qed.

(** X1. Polling never raises when the service raises nothing but
    [Exception]s; it sends at most [max_retries] status requests and
    sleeps at most [max_retries * retry_interval] seconds. *)
Theorem poll_is_bounded
    (recursion_limit : nat) (client : AgentsClient) (thread_id run_id : str)
    (max_retries retry_interval : nat) (h : history) :
  raises_only_Exception client ->
  exists v ev,
    _poll_for_completion recursion_limit client thread_id run_id
      max_retries retry_interval h
    = (Ok v, ev ++ h)
    /\ status_requests ev <= max_retries
    /\ seconds_slept ev <= max_retries * retry_interval.
Proof.
  intros Hok. unfold _poll_for_completion.
  destruct (@poll_loop_never_raises recursion_limit client Hok
              thread_id run_id max_retries retry_interval max_retries 0 h)
    as (v & h' & E).
  destruct (@within_poll_loop status_request_weight recursion_limit client
              thread_id run_id max_retries retry_interval max_retries 0 h)
    as (ev & E1 & B1).
  destruct (@within_poll_loop sleep_weight recursion_limit client
              thread_id run_id max_retries retry_interval max_retries 0 h)
    as (ev' & E2 & B2).
  rewrite E in E1, E2. cbn [snd] in E1, E2.
  assert (ev' = ev) by (apply (app_inv_tail h); congruence). subst ev' h'.
  exists v, ev. split; [exact E|].
  unfold status_requests, seconds_slept. cbn in B1, B2. split; lia.
Qed.

Lemma poll_is_bounded_witness :
  exists v ev,
    _poll_for_completion 1000 (scripted_client (py_str "queued"))
      (py_str "thread_1") (py_str "run_1") 30 2 []
    = (Ok v, ev ++ [])
    /\ status_requests ev <= 30
    /\ seconds_slept ev <= 30 * 2.
Proof.
  exact (poll_is_bounded 1000 (py_str "thread_1") (py_str "run_1") 30 2 []
           (scripted_client_raises_nothing (py_str "queued"))).
Defined.

Lemma within_request_quiet {A} w c (answer : history -> res A) :
  w (Call c) = 0 -> within w 0 (request c answer).
Proof.
  intros H. rewrite <- H. apply within_request.
Qed.

Lemma status_weight_polls : weighs_polls status_request_weight 1.
Proof. intros []; reflexivity. Qed.

Lemma sleep_weight_polls : weighs_polls sleep_weight 0.
Proof. intros []; reflexivity. Qed.

Section RetryBounds.

Variable w : event -> nat.
Variable g : nat.
Hypothesis w_calls : weighs_polls w g.
Variable recursion_limit : nat.
Variable client : AgentsClient.
Variable model : str.
Variables sys_prompt user_prompt : str.
Variable max_retries : nat.

Lemma within_get_agent_id : within w 0 (_get_agent_id client model).
Proof.
  unfold _get_agent_id.
  apply (@within_try _ w 0 0); [|intros e; apply within_ret].
  apply (@within_bind _ _ w 0 0).
  - apply within_request_quiet. exact (w_calls ListAgents).
  - intros [|first rest]; [|apply within_ret].
    apply (@within_bind _ _ w 0 0); [|intros a; apply within_ret].
    apply within_request_quiet. exact (w_calls (CreateAgent _ _ _)).
Qed.

(** An attempt adds what its polling adds. *)
Lemma within_attempt :
  within w (30 * (g + w (Sleep 2)))
    (attempt recursion_limit client model sys_prompt user_prompt).
Proof.
  apply (@within_weaken _ w
           (0 + (0 + (0 + (0 + (30 * (g + w (Sleep 2)) + 0)))))); [lia|].
  unfold attempt.
  apply within_bind;
    [apply within_request_quiet; exact (w_calls ThreadsCreate)
    | intros thread_id].
  cbv zeta.
  apply within_bind;
    [apply within_request_quiet; exact (w_calls (MessagesCreate _ _ _))
    | intros _].
  apply within_bind; [apply within_get_agent_id | intros agent_id].
  apply within_bind.
  { destruct agent_id as [[|c id]|]; apply within_request_quiet.
    - exact (w_calls (RunsCreateWithModel _ _)).
    - exact (w_calls (RunsCreateWithAgent _ _)).
    - exact (w_calls (RunsCreateWithModel _ _)). }
  intros run_id.
  apply within_bind.
  - unfold _poll_for_completion.
    pose proof (@within_poll_loop w recursion_limit client thread_id run_id
                  30 2 30 0) as H.
    rewrite (w_calls (RunsGet _ _)), (w_calls (MessagesList _)) in H.
    rewrite Nat.add_0_r in H. exact H.
  - intros result. destruct (truthy result); apply within_ret.
Qed.

(** The loop of attempts: each adds what an attempt adds, and a sleep of
    2 seconds comes between two attempts at most. *)
Lemma within_retry_loop : forall remaining retry_count,
  retry_count + remaining = max_retries ->
  within w
    (remaining * (30 * (g + w (Sleep 2))) + (remaining - 1) * w (Sleep 2))
    (retry_loop recursion_limit client model sys_prompt user_prompt
       max_retries remaining retry_count).
Proof.
  pose proof within_attempt as Hattempt.
  remember (30 * (g + w (Sleep 2))) as A eqn:HA. clear HA.
  remember (w (Sleep 2)) as s eqn:Hs.
  induction remaining as [|remaining IH]; intros retry_count Hinv h.
  - stop_with (@nil event).
  - cbn [retry_loop]. unfold bindM, try_exceptM.
    destruct (Hattempt h) as (ev1 & E1 & B1).
    destruct (attempt recursion_limit client model sys_prompt user_prompt h)
      as [[[v|] | e] h1]; cbn [snd] in E1; subst h1.
    + exists ev1. split; [reflexivity|]. nia.
    + destruct (IH (S retry_count)) with (h := ev1 ++ h)
        as (ev & E & B); [lia|].
      exists (ev ++ ev1). rewrite E, app_assoc.
      split; [reflexivity|]. rewrite total_app. nia.
    + destruct (isinstance_Exception e);
        [|exists ev1; split; [reflexivity | nia]].
      destruct (S retry_count <? max_retries) eqn:Hlt.
      * apply Nat.ltb_lt in Hlt.
        unfold bindM, sleep, ret.
        destruct (IH (S retry_count)) with (h := Sleep 2 :: ev1 ++ h)
          as (ev & E & B); [lia|].
        exists (ev ++ Sleep 2 :: ev1). rewrite E.
        split; [now rewrite <- app_assoc|].
        rewrite total_app.
        change (Sleep 2 :: ev1) with ([Sleep 2] ++ ev1).
        rewrite total_app. unfold total at 2. cbn [map list_sum].
        rewrite <- Hs.
        destruct remaining as [|remaining']; [lia|].
        replace (S remaining' - 1) with remaining' in B by lia.
        replace (S (S remaining') - 1) with (S remaining') by lia.
        rewrite !Nat.mul_succ_l in *.
        change (list_sum [s]) with (s + 0). lia.
      * unfold ret.
        destruct (IH (S retry_count)) with (h := ev1 ++ h)
          as (ev & E & B); [lia|].
        exists (ev ++ ev1). rewrite E, app_assoc.
        split; [reflexivity|]. rewrite total_app. nia.
Qed.

End RetryBounds.

Lemma retry_loop_bounds
    (recursion_limit : nat) (client : AgentsClient)
    (model sys_prompt user_prompt : str) (max_retries : nat) (h : history) :
  raises_only_Exception client ->
  exists v ev,
    _call_ai_with_thread_and_run recursion_limit client model sys_prompt
      user_prompt max_retries h
    = (Ok v, ev ++ h)
    /\ (truthy v = true \/ v = JList [])
    /\ status_requests ev <= max_retries * 30
    /\ seconds_slept ev <= max_retries * 60 + (max_retries - 1) * 2.
Proof.
  intros Hok. unfold _call_ai_with_thread_and_run.
  destruct (@retry_loop_total recursion_limit client model sys_prompt
              user_prompt max_retries Hok max_retries 0 h)
    as (v & ev & E & Hv).
  destruct (@within_retry_loop status_request_weight 1 status_weight_polls
              recursion_limit client model sys_prompt user_prompt
              max_retries max_retries 0 eq_refl h)
    as (ev1 & E1 & B1).
  destruct (@within_retry_loop sleep_weight 0 sleep_weight_polls
              recursion_limit client model sys_prompt user_prompt
              max_retries max_retries 0 eq_refl h)
    as (ev2 & E2 & B2).
  rewrite E in E1, E2. cbn [snd] in E1, E2.
  apply app_inv_tail in E1, E2. subst ev1 ev2.
  exists v, ev. split; [exact E|].
  split; [destruct Hv as [[Hv _] | [Hv _]]; auto|].
  unfold status_requests, seconds_slept.
  change (status_request_weight (Sleep 2)) with 0 in B1.
  change (sleep_weight (Sleep 2)) with 2 in B2.
  split; lia.
Qed.

(** X2. When the service raises nothing but [Exception]s, a call of
    [_call_ai_with_thread_and_run] never raises, sends at most
    [30 * max_retries] status requests and sleeps at most
    [60 * max_retries + 2 * (max_retries - 1)] seconds. *)
Theorem retry_is_bounded
    (recursion_limit : nat) (client : AgentsClient)
    (model sys_prompt user_prompt : str) (max_retries : nat) (h : history) :
  raises_only_Exception client ->
  exists v ev,
    _call_ai_with_thread_and_run recursion_limit client model sys_prompt
      user_prompt max_retries h
    = (Ok v, ev ++ h)
    /\ status_requests ev <= 30 * max_retries
    /\ seconds_slept ev <= 60 * max_retries + 2 * (max_retries - 1).
Proof.
  intros Hok.
  destruct (@retry_loop_bounds recursion_limit client model sys_prompt
              user_prompt max_retries h Hok)
    as (v & ev & E & _ & B1 & B2).
  exists v, ev. repeat split; [exact E | lia | lia].
Qed.

Lemma retry_is_bounded_witness :
  exists v ev,
    _call_ai_with_thread_and_run 1000 (scripted_client (py_str "queued"))
      (py_str "gpt-4o") (py_str "system") (py_str "user") 3 []
    = (Ok v, ev ++ [])
    /\ status_requests ev <= 30 * 3
    /\ seconds_slept ev <= 60 * 3 + 2 * (3 - 1).
Proof.
  exact (@retry_is_bounded 1000 (scripted_client (py_str "queued"))
           (py_str "gpt-4o") (py_str "system") (py_str "user") 3 []
           (scripted_client_raises_nothing (py_str "queued"))).
Defined.

(** X3. A batch call, [_call_ai_for_analysis] with its five attempts,
    never raises when the service raises nothing but [Exception]s; it
    returns a true value or the empty list after at most 150 status
    requests and 308 seconds of sleep. *)
Theorem batch_call_is_bounded
    (recursion_limit : nat) (client : AgentsClient) (model prompt : str)
    (h : history) :
  raises_only_Exception client ->
  exists v ev,
    _call_ai_for_analysis recursion_limit client model prompt h
    = (Ok v, ev ++ h)
    /\ (truthy v = true \/ v = JList [])
    /\ status_requests ev <= 150
    /\ seconds_slept ev <= 308.
Proof.
  intros Hok. unfold _call_ai_for_analysis, try_exceptM.
  destruct (@retry_loop_bounds recursion_limit client model system_prompt
              prompt 5 h Hok)
    as (v & ev & E & Hv & B1 & B2).
  rewrite E. exists v, ev. repeat split; [exact Hv | lia | lia].
Qed.

Lemma batch_call_is_bounded_witness :
  exists v ev,
    _call_ai_for_analysis 1000 unreachable_client (py_str "gpt-4o")
      (py_str "prompt") []
    = (Ok v, ev ++ [])
    /\ (truthy v = true \/ v = JList [])
    /\ status_requests ev <= 150
    /\ seconds_slept ev <= 308.
Proof.
  refine (@batch_call_is_bounded 1000 unreachable_client (py_str "gpt-4o")
            (py_str "prompt") [] _).
  repeat split; intros; try discriminate.
  match goal with
  | H : threads_create _ _ = Raise _ |- _ => injection H as <-
  end.
  reflexivity.
Defined.

Lemma filter_none_nil {A} (f : A -> bool) l :
  forallb (fun x => negb (f x)) l = true -> filter f l = [].
Proof.
  induction l as [|x l IH]; [reflexivity|].
  cbn. intros H. apply andb_prop in H as [Hx Hl].
  apply negb_true_iff in Hx. rewrite Hx. auto.
Qed.

(** X4. When a poll sees the status [completed], polling returns at once
    what [_extract_ai_response] reads from the last assistant message of
    the listing; the assistant messages before it and the messages of
    other roles are not used.  Without any assistant message the result
    is the empty list. *)
Theorem poll_reads_last_assistant_message
    (recursion_limit : nat) (client : AgentsClient) (thread_id run_id : str)
    (max_retries retry_interval remaining retry_count : nat) (h : history)
    (msgs : list message) :
  runs_get client thread_id run_id h = Ok (py_str "completed") ->
  messages_list client thread_id (Call (RunsGet thread_id run_id) :: h)
  = Ok msgs ->
  (forall before m after,
     msgs = before ++ m :: after ->
     is_assistant m = true ->
     forallb (fun x => negb (is_assistant x)) after = true ->
     poll_loop recursion_limit client thread_id run_id max_retries
       retry_interval (S remaining) retry_count h
     = (Ok (_extract_ai_response recursion_limit m),
        Call (MessagesList thread_id) :: Call (RunsGet thread_id run_id) :: h))
  /\ (forallb (fun x => negb (is_assistant x)) msgs = true ->
      poll_loop recursion_limit client thread_id run_id max_retries
        retry_interval (S remaining) retry_count h
      = (Ok (JList []),
         Call (MessagesList thread_id) :: Call (RunsGet thread_id run_id)
         :: h)).
Proof.
  intros Hget Hlist.
  assert (E : poll_loop recursion_limit client thread_id run_id max_retries
                retry_interval (S remaining) retry_count h
              = (Ok match rev (filter is_assistant msgs) with
                    | last :: _ => _extract_ai_response recursion_limit last
                    | [] => JList []
                    end,
                 Call (MessagesList thread_id)
                 :: Call (RunsGet thread_id run_id) :: h)).
  { cbn [poll_loop]. unfold bindM, try_exceptM, request.
    rewrite Hget. cbn. rewrite Hlist.
    destruct (rev (filter is_assistant msgs)); reflexivity. }
  split.
  - intros before m after -> Hm Hafter. rewrite E.
    rewrite filter_app. cbn [filter]. rewrite Hm.
    rewrite (filter_none_nil _ _ Hafter).
    now rewrite rev_app_distr.
  - intros Hnone. rewrite E. now rewrite (filter_none_nil _ _ Hnone).
Qed.

Lemma poll_reads_last_assistant_message_witness :
  let answer := text_message (py_str "assistant")
                  (py_text "[{'System_Name': 'A', 'Cloud_Config': 'OK'}]") in
  let msgs := [ text_message (py_str "assistant") (py_str "One moment.");
                answer;
                text_message (py_str "user") (py_str "Thanks.") ] in
  poll_loop 1000 (answering_client msgs) (py_str "thread_1") (py_str "run_1")
    30 2 30 0 []
  = (Ok (_extract_ai_response 1000 answer),
     [ Call (MessagesList (py_str "thread_1"));
       Call (RunsGet (py_str "thread_1") (py_str "run_1")) ]).
Proof.
  intros answer msgs.
  refine (proj1 (@poll_reads_last_assistant_message 1000
                   (answering_client msgs) (py_str "thread_1")
                   (py_str "run_1") 30 2 29 0 [] msgs eq_refl eq_refl)
            [text_message (py_str "assistant") (py_str "One moment.")]
            answer
            [text_message (py_str "user") (py_str "Thanks.")] _ _ _);
    reflexivity.
Defined.

Lemma poll_loop_all_requests_fail lim client t r m i :
  (forall h, exists e, runs_get client t r h = Raise e
                       /\ isinstance_Exception e = true) ->
  forall remaining retry_count h,
    retry_count + remaining = m ->
    exists ev,
      poll_loop lim client t r m i remaining retry_count h
      = (Ok (JList []), ev ++ h)
      /\ status_requests ev = remaining
      /\ seconds_slept ev = (remaining - 1) * i.
Proof.
  intros Hfail. induction remaining as [|remaining IH];
    intros retry_count h Hinv.
  - exists []. repeat split.
  - cbn [poll_loop]. unfold bindM at 1, try_exceptM, bindM, request.
    destruct (Hfail h) as (e & -> & ->).
    destruct (S retry_count <? m) eqn:Hlt.
    + apply Nat.ltb_lt in Hlt. unfold sleep, ret.
      destruct (IH (S retry_count) (Sleep i :: Call (RunsGet t r) :: h))
        as (ev & -> & B1 & B2); [lia|].
      exists (ev ++ [Sleep i; Call (RunsGet t r)]).
      split; [now rewrite <- app_assoc|].
      unfold status_requests, seconds_slept in *.
      rewrite !total_app, B1, B2. unfold total. cbn.
      destruct remaining; [lia|]. split; [lia|].
      cbn. lia.
    + apply Nat.ltb_ge in Hlt. assert (remaining = 0) by lia. subst.
      exists [Call (RunsGet t r)]. repeat split.
Qed.

(** X5. A status request that raises an [Exception] counts as a poll.
    When every status request fails, polling returns the empty list
    after exactly [max_retries] requests, having slept between the
    requests only: [(max_retries - 1) * retry_interval] seconds. *)
Theorem poll_counts_failed_requests
    (recursion_limit : nat) (client : AgentsClient) (thread_id run_id : str)
    (max_retries retry_interval : nat) (h : history) :
  (forall h', exists e,
      runs_get client thread_id run_id h' = Raise e
      /\ isinstance_Exception e = true) ->
  exists ev,
    _poll_for_completion recursion_limit client thread_id run_id
      max_retries retry_interval h
    = (Ok (JList []), ev ++ h)
    /\ status_requests ev = max_retries
    /\ seconds_slept ev = (max_retries - 1) * retry_interval.
Proof.
  intros Hfail. unfold _poll_for_completion.
  now apply poll_loop_all_requests_fail.
Qed.

Lemma poll_counts_failed_requests_witness :
  exists ev,
    _poll_for_completion 1000 failing_status_client (py_str "thread_1")
      (py_str "run_1") 30 2 []
    = (Ok (JList []), ev ++ [])
    /\ status_requests ev = 30
    /\ seconds_slept ev = (30 - 1) * 2.
Proof.
  refine (@poll_counts_failed_requests 1000 failing_status_client
            (py_str "thread_1") (py_str "run_1") 30 2 [] _).
  intros h'. eexists. split; reflexivity.
Defined.

Lemma poll_extends lim client t r m i h :
  exists later,
    snd (_poll_for_completion lim client t r m i h) = later ++ h.
Proof.
  destruct (@within_poll_loop (fun _ => 0) lim client t r m i m 0 h)
    as (ev & E & _).
  exists ev. exact E.
Qed.

(** X6. Resolving an agent cannot fail an attempt.  [_get_agent_id]
    answers [None] when listing the agents raises an [Exception], and
    when no agent is listed and creating one raises; the attempt then
    creates its run against the model deployment name, as it does for an
    empty agent id, and against the agent otherwise. *)
Theorem attempt_falls_back_to_model
    (recursion_limit : nat) (client : AgentsClient)
    (model sys_prompt user_prompt : str) :
  (forall h e,
     list_agents client h = Raise e -> isinstance_Exception e = true ->
     _get_agent_id client model h = (Ok None, Call ListAgents :: h))
  /\ (forall h e name description,
        list_agents client h = Ok [] ->
        name = py_str "Cloud Resource Deviation Analyzer" ->
        description
        = py_str "Analyzes cloud resource environment deviations in IT systems" ->
        create_agent client name description model (Call ListAgents :: h)
        = Raise e ->
        isinstance_Exception e = true ->
        _get_agent_id client model h
        = (Ok None,
           Call (CreateAgent name description model) :: Call ListAgents :: h))
  /\ (forall h thread_id content agent_id h2,
        threads_create client h = Ok thread_id ->
        content
        = (py_str "You are an expert in IT cloud resource environment analysis. "
           ++ sys_prompt) ++ [10%N; 10%N] ++ user_prompt ->
        messages_create client thread_id (py_str "user") content
          (Call ThreadsCreate :: h) = Ok tt ->
        _get_agent_id client model
          (Call (MessagesCreate thread_id (py_str "user") content)
           :: Call ThreadsCreate :: h)
        = (Ok agent_id, h2) ->
        exists later,
          snd (attempt recursion_limit client model sys_prompt user_prompt h)
          = later
            ++ Call match agent_id with
                    | Some (c :: id) =>
                        RunsCreateWithAgent thread_id (c :: id)
                    | _ => RunsCreateWithModel thread_id model
                    end :: h2).
Proof.
  split; [|split].
  - intros h e He Hexc. unfold _get_agent_id, try_exceptM, bindM, request.
    now rewrite He, Hexc.
  - intros h e name description Hl -> -> He Hexc.
    unfold _get_agent_id, try_exceptM, bindM, request.
    now rewrite Hl, He, Hexc.
  - intros h thread_id content agent_id h2 Ht -> Hm Ha.
    unfold attempt. unfold bindM at 1. unfold request at 1. rewrite Ht.
    cbv zeta. unfold bindM at 1. unfold request at 1. rewrite Hm.
    unfold bindM at 1. rewrite Ha.
    unfold bindM at 1.
    assert (Hrest : forall c (answer : history -> res str),
      exists later,
        snd (match request c answer h2 with
             | (Ok run_id, h') =>
                 bindM (_poll_for_completion recursion_limit client
                          thread_id run_id 30 2)
                   (fun result =>
                      if truthy result then ret (Return result)
                      else ret Next) h'
             | (Raise e, h') => (Raise e, h')
             end) = later ++ Call c :: h2).
    { intros c answer. unfold request.
      destruct (answer h2) as [run_id | e]; [|exists []; reflexivity].
      unfold bindM.
      destruct (@poll_extends recursion_limit client thread_id run_id 30 2
                  (Call c :: h2)) as (later & E).
      destruct (_poll_for_completion _ _ _ _ _ _ _) as [[result | e] h'];
        cbn [snd] in E; subst h'.
      - exists later. destruct (truthy result); reflexivity.
      - exists later. reflexivity. }
    destruct agent_id as [[|c id]|]; apply Hrest.
Qed.

Lemma attempt_falls_back_to_model_witness :
  let content :=
    (py_str "You are an expert in IT cloud resource environment analysis. "
     ++ py_str "system") ++ [10%N; 10%N] ++ py_str "user" in
  exists later,
    snd (attempt 1000 no_agents_client (py_str "gpt-4o") (py_str "system")
           (py_str "user") [])
    = later
      ++ [ Call (RunsCreateWithModel (py_str "thread_1") (py_str "gpt-4o"));
           Call ListAgents;
           Call (MessagesCreate (py_str "thread_1") (py_str "user") content);
           Call ThreadsCreate ].
Proof.
  intros content.
  refine (proj2 (proj2 (attempt_falls_back_to_model 1000 no_agents_client
                          (py_str "gpt-4o") (py_str "system")
                          (py_str "user")))
            [] (py_str "thread_1") content None _ eq_refl eq_refl eq_refl _).
  refine (proj1 (attempt_falls_back_to_model 1000 no_agents_client
                   (py_str "gpt-4o") (py_str "system") (py_str "user"))
            _ (OtherException "HttpResponseError") eq_refl eq_refl).
Defined.

(* ================================================================= *)
(** * Further properties of the response reading *)

Lemma text_of_items_last items t skipped :
  Forall (fun item => item = None) skipped ->
  text_of_items (items ++ Some t :: skipped)
  = Some match t with
         | TextStr s => PyStr s
         | TextWithValue v => v
         | TextOther s => PyStr s
         end.
Proof.
  intros Hskip. unfold text_of_items. rewrite fold_left_app. cbn [fold_left].
  set (acc := Some match t with
                   | TextStr s => PyStr s
                   | TextWithValue v => v
                   | TextOther s => PyStr s
                   end).
  replace (match t with
           | TextStr s => Some (PyStr s)
           | TextWithValue v => Some v
           | TextOther s => Some (PyStr s)
           end) with acc by (destruct t; reflexivity).
  clearbody acc. induction Hskip as [|item skipped -> _ IH];
    [reflexivity | exact IH].
Qed.

(** X7. Of a message whose content is a list of parts, only the last
    part with a text is read: when that text is a non-empty string, the
    response is what the extractor returns on it, whatever the parts
    before it, the [text_messages] and the [text] of the message are.
    When the content gives no text, the first of the [text_messages] is
    read instead. *)
Theorem response_reads_last_text_part
    (recursion_limit : nat) (msg : message) (s : str) (v : json) :
  s <> [] ->
  _extract_json_from_text recursion_limit s = Ok v ->
  (forall items skipped,
     content msg = Some (ContentList (items ++ Some (TextStr s) :: skipped)) ->
     Forall (fun item => item = None) skipped ->
     _extract_ai_response recursion_limit msg = v)
  /\ (forall rest,
        content msg = None ->
        text_messages msg = Some (PyStr s :: rest) ->
        _extract_ai_response recursion_limit msg = v).
Proof.
  intros Hs Hv.
  assert (Hne : str_eqb s [] = false).
  { destruct s; [congruence | reflexivity]. }
  split.
  - intros items skipped Hc Hskip. unfold _extract_ai_response.
    rewrite Hc, (text_of_items_last _ _ Hskip). cbn. rewrite !Hne. cbn.
    rewrite ?Hne. cbn. now rewrite Hv.
  - intros rest Hc Ht. unfold _extract_ai_response.
    rewrite Hc, Ht. cbn. rewrite !Hne. cbn. rewrite ?Hne. cbn.
    now rewrite Hv.
Qed.

Lemma response_reads_last_text_part_witness :
  let msg :=
    {| role := py_str "assistant";
       content :=
         Some (ContentList
                 [ Some (TextStr (py_text "[{'System_Name': 'A'}]"));
                   None;
                   Some (TextStr (py_text "[{'System_Name': 'B'}]"));
                   None ]);
       text_messages := Some [PyStr (py_text "[{'System_Name': 'C'}]")];
       text := None |} in
  _extract_ai_response 1000 msg
  = JList [JDict [(py_str "System_Name", JStr (py_str "B"))]].
Proof.
  intros msg.
  refine (proj1 (@response_reads_last_text_part 1000 msg
                   (py_text "[{'System_Name': 'B'}]")
                   (JList [JDict [(py_str "System_Name", JStr (py_str "B"))]])
                   _ _)
            [Some (TextStr (py_text "[{'System_Name': 'A'}]")); None]
            [None] eq_refl _).
  - discriminate.
  - vm_compute. reflexivity.
  - repeat constructor.
Defined.

(* ================================================================= *)
(** * Further properties of the extractor *)

Lemma no_char_skip_class c p : forall t,
  no_char c t = true -> no_char c (skip_class p t) = true.
Proof.
  induction t as [|x t IH]; intros H; [reflexivity|].
  cbn [skip_class]. destruct (p x); [|exact H].
  apply IH. cbn in H. now apply andb_prop in H as [_ H].
Qed.

Lemma strip_prefix_no_char c s t :
  no_char c t = true -> strip_prefix (c :: s) t = None.
Proof.
  destruct t as [|x t]; [reflexivity|].
  cbn. intros H. apply andb_prop in H as [H _].
  apply negb_true_iff in H. unfold char_eqb in *.
  now rewrite N.eqb_sym, H.
Qed.

Lemma marker_end_no_backtick t :
  no_char backtick t = true -> marker_end t = None.
Proof.
  intros H. unfold marker_end.
  change (py_str "```") with (backtick :: [backtick; backtick]).
  rewrite strip_prefix_no_char by exact H.
  rewrite strip_prefix_no_char; [reflexivity|].
  apply no_char_skip_class, H.
Qed.

Lemma strip_fences_no_backtick_id : forall t,
  no_char backtick t = true -> strip_fences t = t.
Proof.
  unfold strip_fences, sub.
  induction t as [|c t IH]; intros H; rewrite strip_step;
    rewrite marker_end_no_backtick by exact H; [reflexivity|].
  f_equal. apply IH. cbn in H. now apply andb_prop in H as [_ H].
Qed.

Lemma strip_fences_length_bounded (n : nat) : forall t,
  length t <= n -> length (sub_from fence_marker_re [] t 0) <= length t.
Proof.
  induction n as [|n IH]; intros t Hlen; rewrite strip_step.
  - destruct t; [cbn; lia | simpl in Hlen; lia].
  - destruct (marker_end t) as [e|] eqn:E.
    + destruct (@marker_end_positive t e E) as [He Hne].
      destruct t as [|c t]; [congruence|].
      assert (Hs : length (skipn e (c :: t)) <= n)
        by (rewrite length_skipn; cbn [length] in *; lia).
      specialize (IH _ Hs). rewrite length_skipn in IH. lia.
    + destruct t as [|c t]; [cbn; lia|].
      cbn [length] in *. specialize (IH t). lia.
Qed.

(** X8. Removing the code block markers leaves a text without backticks
    as it is, and never makes a text longer. *)
Theorem strip_fences_keeps_plain_text (text : str) :
  length (strip_fences text) <= length text
  /\ (no_char backtick text = true -> strip_fences text = text).
Proof.
  split.
  - apply (@strip_fences_length_bounded (length text)), le_n.
  - apply strip_fences_no_backtick_id.
Qed.

Lemma strip_fences_keeps_plain_text_witness :
  strip_fences (py_text "[{'System_Name': 'A'}]  and more")
  = py_text "[{'System_Name': 'A'}]  and more".
Proof.
  apply (proj2 (strip_fences_keeps_plain_text
                  (py_text "[{'System_Name': 'A'}]  and more"))).
  reflexivity.
Defined.

Lemma space_not_open_brace c : is_space c = true -> char_eqb open_brace c = false.
Proof.
  intros H. destruct (char_eqb open_brace c) eqn:E; [|reflexivity].
  apply N.eqb_eq in E. subst c. discriminate H.
Qed.

Lemma no_char_suffix c s : forall t t',
  strip_prefix s t = Some t' -> no_char c t = true -> no_char c t' = true.
Proof.
  induction s as [|x s IH]; intros t t' H Hn; cbn in H.
  - now injection H as <-.
  - destruct t as [|y t]; [discriminate|].
    destruct (char_eqb x y); [|discriminate].
    apply (IH _ _ H). cbn in Hn. now apply andb_prop in Hn as [_ Hn].
Qed.

Lemma search_object_none : forall t i,
  no_char open_brace t = true -> search_from object_re t i = None.
Proof.
  induction t as [|c t IH]; intros i H; [reflexivity|].
  cbn [search_from]. unfold match_at at 1, object_re at 1. cbn [rmatch].
  change (py_str "{") with [open_brace].
  rewrite strip_prefix_no_char by exact H.
  apply IH. cbn in H. now apply andb_prop in H as [_ H].
Qed.

Lemma match_at_array_none t i :
  no_char open_brace t = true -> match_at array_re t i = None.
Proof.
  intros H. unfold match_at, array_re. cbn [rmatch].
  destruct (strip_prefix (py_str "[") t) as [t'|] eqn:E; [|reflexivity].
  pose proof (no_char_suffix _ _ _ E H) as H'.
  rewrite greedy_no_backtrack.
  - change (py_str "{") with [open_brace].
    rewrite strip_prefix_no_char; [reflexivity|].
    apply no_char_skip_class, H'.
  - intros c u j Hc. change (py_str "{") with [open_brace].
    cbn [strip_prefix]. now rewrite (space_not_open_brace _ Hc).
Qed.

Lemma search_array_none : forall t i,
  no_char open_brace t = true -> search_from array_re t i = None.
Proof.
  induction t as [|c t IH]; intros i H; cbn [search_from];
    rewrite match_at_array_none by exact H; [reflexivity|].
  apply IH. cbn in H. now apply andb_prop in H as [_ H].
Qed.

Lemma array_items_list : forall fuel depth t acc v r,
  array_items fuel depth t acc = Ok (v, r) -> exists l, v = JList l.
Proof.
  induction fuel as [|fuel IH]; intros depth t acc v r H;
    [discriminate|].
  cbn [array_items] in H. unfold bind in H.
  destruct (scan_once fuel depth t) as [[v1 r1]|]; [|discriminate].
  destruct (skip_ws r1) as [|d r2]; [discriminate|].
  destruct (is_chr d "]"); [injection H as <- _; eauto|].
  destruct (is_chr d ","); [eauto | discriminate].
Qed.

Lemma scan_number_not_dict neg t d r :
  scan_number neg t <> Ok (JDict d, r).
Proof.
  unfold scan_number. intros H.
  repeat (first [discriminate H | break_hyp H]).
Qed.

(** An object starts with an opening brace. *)
Lemma scan_once_dict_head fuel depth t d r :
  scan_once fuel depth t = Ok (JDict d, r) ->
  exists t', t = open_brace :: t'.
Proof.
  destruct fuel as [|fuel]; [discriminate|].
  destruct t as [|c t']; [discriminate|].
  cbn [scan_once]. unfold bind. intros H.
  destruct (char_eqb c quote).
  { destruct (scanstring t' []) as [[s r']|]; discriminate. }
  destruct (is_chr c "{") eqn:E.
  { apply N.eqb_eq in E. subst c. eauto. }
  destruct (is_chr c "[").
  { destruct depth; [discriminate|].
    destruct (skip_ws t') as [|x r']; [discriminate|].
    destruct (is_chr x "]"); [discriminate|].
    apply array_items_list in H as (l & Hl). discriminate. }
  repeat match type of H with
         | (if ?b then _ else _) = _ => destruct b
         | match strip_prefix ?s ?u with _ => _ end = _ =>
             destruct (strip_prefix s u)
         end;
    try discriminate; now apply scan_number_not_dict in H.
Qed.

Lemma no_char_skip_ws c : forall t,
  no_char c t = true -> no_char c (skip_ws t) = true.
Proof.
  induction t as [|x t IH]; intros H; [reflexivity|].
  cbn [skip_ws]. destruct (is_ws x); [|exact H].
  apply IH. cbn in H. now apply andb_prop in H as [_ H].
Qed.

Lemma loads_dict_has_brace depth s d :
  Json.loads depth s = Ok (JDict d) -> no_char open_brace s = false.
Proof.
  unfold Json.loads, bind. intros H.
  destruct (scan_once _ _ _) as [[v r]|] eqn:E; [|discriminate].
  destruct (skip_ws r); [|discriminate]. injection H as ->.
  apply scan_once_dict_head in E as (t' & E).
  destruct (no_char open_brace s) eqn:Hn; [|reflexivity].
  apply (no_char_skip_ws open_brace) in Hn. rewrite E in Hn.
  discriminate Hn.
Qed.

(** X9. A response without backticks and without an opening brace is
    parsed as a whole: when it is a JSON list the extractor returns that
    list, and in every other case the empty list. *)
Theorem braceless_text_parsed_whole (recursion_limit : nat) (text : str) :
  no_char backtick text = true ->
  no_char open_brace text = true ->
  _extract_json_from_text recursion_limit text
  = Ok match json_loads recursion_limit text with
       | Ok (JList l) => JList l
       | _ => JList []
       end.
Proof.
  intros Hb Hc. unfold _extract_json_from_text. cbv zeta.
  rewrite strip_fences_no_backtick_id by exact Hb.
  unfold choose_candidate, candidate_after_fence, candidate_after_array,
    search.
  rewrite search_fenced_block_none by exact Hb.
  rewrite search_array_none by exact Hc.
  rewrite search_object_none by exact Hc.
  destruct (json_loads recursion_limit text) as [v | e] eqn:E;
    [|reflexivity].
  unfold parse_candidate, bind. rewrite E.
  destruct v; try reflexivity.
  apply loads_dict_has_brace in E. congruence.
Qed.

Lemma braceless_text_parsed_whole_witness :
  _extract_json_from_text 1000 (py_text " ['SysA', 'SysB'] ")
  = Ok (JList [JStr (py_str "SysA"); JStr (py_str "SysB")])
  /\ _extract_json_from_text 1000 (py_text "3 systems deviate") = Ok (JList []).
Proof.
  split.
  - exact (@braceless_text_parsed_whole 1000 (py_text " ['SysA', 'SysB'] ")
             eq_refl eq_refl).
  - exact (@braceless_text_parsed_whole 1000 (py_text "3 systems deviate")
             eq_refl eq_refl).
Defined.

Lemma any_char_true c : any_char c = true.
Proof. unfold any_char. apply orb_negb_r. Qed.

(** The lazy repetition stops at the first place where the continuation
    accepts. *)
Lemma lazy_stops_first {R} (g : option (nat * nat)) (k : cont R) r rest :
  forall skipped i,
    (forall before u j,
       skipped = before ++ u -> u <> [] -> k (u ++ rest) j g = None) ->
    k rest (i + length skipped) g = Some r ->
    lazy any_char (skipped ++ rest) i g k = Some r.
Proof.
  induction skipped as [|c skipped IH]; intros i Hnone Hk.
  - cbn [app length] in *. rewrite Nat.add_0_r in Hk.
    destruct rest; cbn [lazy]; now rewrite Hk.
  - pose proof (Hnone [] (c :: skipped) i eq_refl) as H0.
    cbn [app] in *. cbn [lazy]. rewrite H0 by discriminate.
    rewrite any_char_true. apply IH.
    + intros before u j -> Hu. apply (Hnone (c :: before) u j); auto.
    + cbn [length] in Hk. now rewrite <- Nat.add_succ_comm in Hk.
Qed.

Lemma no_char_app c a b :
  no_char c (a ++ b) = no_char c a && no_char c b.
Proof. unfold no_char. apply forallb_app. Qed.

Lemma skipn_length_app {A} (a b : list A) : skipn (length a) (a ++ b) = b.
Proof. induction a as [|x a IH]; [reflexivity | exact IH]. Qed.

Lemma firstn_length_app {A} (a b : list A) : firstn (length a) (a ++ b) = a.
Proof.
  induction a as [|x a IH]; [destruct b; reflexivity|].
  cbn. now rewrite IH.
Qed.

(** The object pattern, tried where an opening brace stands, ends at the
    first closing brace. *)
Lemma match_at_object mid post i :
  no_char close_brace mid = true ->
  match_at object_re (open_brace :: mid ++ close_brace :: post) i
  = Some {| m_start := i; m_end := i + 1 + length mid + 1;
            m_span1 := None |}.
Proof.
  intros Hmid. unfold match_at, object_re. cbn [rmatch].
  change (strip_prefix (py_str "{")
            (open_brace :: mid ++ close_brace :: post))
    with (Some (mid ++ close_brace :: post)).
  change (length (py_str "{")) with 1.
  apply lazy_stops_first.
  - intros before u j -> Hu.
    rewrite no_char_app in Hmid. apply andb_prop in Hmid as [_ Hmid].
    destruct u as [|x u]; [congruence|].
    change (py_str "}") with [close_brace]. cbn [app strip_prefix].
    cbn in Hmid. apply andb_prop in Hmid as [Hx _].
    apply negb_true_iff in Hx. unfold char_eqb in *.
    now rewrite N.eqb_sym, Hx.
  - reflexivity.
Qed.

Lemma search_object_first : forall pre mid post i,
  no_char open_brace pre = true ->
  no_char close_brace mid = true ->
  search_from object_re (pre ++ open_brace :: mid ++ close_brace :: post) i
  = Some {| m_start := i + length pre;
            m_end := i + length pre + 1 + length mid + 1;
            m_span1 := None |}.
Proof.
  induction pre as [|c pre IH]; intros mid post i Hpre Hmid.
  - cbn [app length search_from]. rewrite match_at_object by exact Hmid.
    now rewrite Nat.add_0_r.
  - cbn [app search_from].
    assert (Hc : match_at object_re
                   (c :: pre ++ open_brace :: mid ++ close_brace :: post) i
                 = None).
    { unfold match_at, object_re. cbn [rmatch].
      change (py_str "{") with [open_brace]. cbn [strip_prefix].
      cbn in Hpre. apply andb_prop in Hpre as [Hc _].
      apply negb_true_iff in Hc. unfold char_eqb in *.
      now rewrite N.eqb_sym, Hc. }
    rewrite Hc. cbn in Hpre. apply andb_prop in Hpre as [_ Hpre].
    rewrite IH by assumption. cbn [length].
    now rewrite <- !Nat.add_succ_comm.
Qed.

Lemma search_array_none_without_bracket : forall t i,
  no_char open_bracket t = true -> search_from array_re t i = None.
Proof.
  induction t as [|c t IH]; intros i H; cbn [search_from];
    unfold match_at at 1, array_re at 1; cbn [rmatch];
    change (py_str "[") with [open_bracket];
    rewrite strip_prefix_no_char by exact H; [reflexivity|].
  apply IH. cbn in H. now apply andb_prop in H as [_ H].
Qed.

(** X10. The object scan takes the text from the first opening brace to
    the first closing brace after it.  On a response without backticks
    and square brackets that is the candidate, so an object holding
    another object is cut before its end. *)
Theorem bare_object_cut_at_first_brace
    (recursion_limit : nat) (pre mid post : str) :
  let text := pre ++ open_brace :: mid ++ close_brace :: post in
  let candidate := open_brace :: mid ++ [close_brace] in
  no_char backtick text = true ->
  no_char open_bracket text = true ->
  no_char open_brace pre = true ->
  no_char close_brace mid = true ->
  choose_candidate recursion_limit (strip_fences text) = Some candidate
  /\ _extract_json_from_text recursion_limit text
     = try_except_Exception (parse_candidate recursion_limit candidate)
         (fun _ => Ok (JList [])).
Proof.
  intros text candidate Hb Hk Hpre Hmid.
  assert (Hc : choose_candidate recursion_limit (strip_fences text)
               = Some candidate).
  { rewrite strip_fences_no_backtick_id by exact Hb.
    unfold choose_candidate, candidate_after_fence, candidate_after_array,
      search.
    rewrite search_fenced_block_none by exact Hb.
    rewrite search_array_none_without_bracket by exact Hk.
    unfold text at 1. rewrite search_object_first by assumption.
    unfold group0, slice. cbn [m_start m_end Nat.add].
    f_equal. unfold text. rewrite skipn_length_app.
    replace (length pre + 1 + length mid + 1 - length pre)
      with (length (open_brace :: mid ++ [close_brace]))
      by (cbn [length]; rewrite length_app; cbn; lia).
    fold candidate.
    replace (open_brace :: mid ++ close_brace :: post)
      with (candidate ++ post)
      by (unfold candidate; cbn [app]; now rewrite <- app_assoc).
    apply firstn_length_app. }
  split; [exact Hc|].
  unfold _extract_json_from_text. cbv zeta. now rewrite Hc.
Qed.

Lemma bare_object_cut_at_first_brace_witness :
  _extract_json_from_text 1000
    (py_text "Result: {'System_Name': 'A', 'Tags': {'tier': 1}}")
  = Ok (JList []).
Proof.
  refine (eq_trans
    (proj2 (@bare_object_cut_at_first_brace 1000
              (py_text "Result: ")
              (py_text "'System_Name': 'A', 'Tags': {'tier': 1")
              (py_text "}") _ _ _ _)) _); reflexivity.
Defined.

(** ** Further properties of the batch scheduler *)

Lemma log_batch_results_loggable rs :
  forallb loggable rs = true -> log_batch_results rs = Ok tt.
Proof.
  unfold log_batch_results.
  induction rs as [|x rs IH]; intros H; [reflexivity|].
  cbn [forallb] in H. apply andb_prop in H as [Hx H].
  cbn [for_each]. rewrite (IH H).
  destruct x as [v | e]; [|discriminate].
  unfold loggable in Hx. cbn [gathered_truthy].
  destruct (truthy v) eqn:Ht; [|reflexivity].
  destruct v as [| | | | |[|[] l]|]; try discriminate. reflexivity.
Qed.

Lemma flatten_results_loggable rs :
  forallb loggable rs = true ->
  forall acc,
    flatten_results rs acc = Ok (acc ++ concat (map contribution rs)).
Proof.
  induction rs as [|x rs IH]; intros H acc.
  - cbn. now rewrite app_nil_r.
  - cbn [forallb] in H. apply andb_prop in H as [Hx H].
    cbn [flatten_results map concat].
    destruct x as [v | e]; [|discriminate].
    unfold loggable in Hx. cbn [gathered_truthy].
    destruct (truthy v) eqn:Ht.
    + destruct v as [| | | | |[|[] l]|]; try discriminate.
      cbn [py_iter bind contribution]. rewrite (IH H).
      now rewrite <- app_assoc.
    + rewrite (IH H). f_equal. f_equal.
      destruct v as [| | | | |[|]|]; try reflexivity. discriminate.
Qed.

Lemma log_batch_results_raises rs :
  forallb loggable rs = false ->
  exists e, log_batch_results rs = Raise e /\ isinstance_Exception e = true.
Proof.
  unfold log_batch_results.
  induction rs as [|x rs IH]; intros H; [discriminate|].
  cbn [forallb] in H. cbn [for_each].
  destruct (loggable x) eqn:Hx.
  - destruct (IH H) as (e & He & Hi). exists e. split; [|exact Hi].
    rewrite He.
    destruct x as [v | e']; [|discriminate].
    unfold loggable in Hx. cbn [gathered_truthy].
    destruct (truthy v) eqn:Ht; [|reflexivity].
    destruct v as [| | | | |[|[] l]|]; try discriminate. reflexivity.
  - clear IH H. destruct x as [v | e'].
    + unfold loggable in Hx. cbn [gathered_truthy].
      destruct (truthy v) eqn:Ht; [|discriminate].
      destruct v as [| | | | s |[|r l]|[|kv d]]; try discriminate;
        try (eexists; split; [reflexivity|reflexivity]).
      * destruct s; [discriminate|].
        eexists; split; [reflexivity|reflexivity].
      * destruct r; try discriminate;
          (eexists; split; [reflexivity|reflexivity]).
    + eexists; split; [reflexivity|reflexivity].
Qed.

(** X11. [_process_batches_with_ai] returns exactly when every batch
    result is false or is a list that starts with an object: it then
    returns the lists put together in batch order.  Any other batch
    result (a list that starts with a name or a number, a string, an
    object taken from a [results] key) makes a log line raise an
    [Exception], and the records of all the batches are lost. *)
Theorem merged_iff_every_batch_loggable
    (to_json : list summary -> str) (prompt_head prompt_tail : str)
    (run_task : str -> nat -> nat -> nat -> gathered)
    (data : list summary) :
  let outcomes :=
    _process_batches_async run_task
      (create_batches to_json prompt_head prompt_tail 10 data) in
  (forallb loggable outcomes = true ->
     _process_batches_with_ai to_json prompt_head prompt_tail run_task data
     = Ok (concat (map contribution outcomes)))
  /\ (forallb loggable outcomes = false ->
      exists e,
        _process_batches_with_ai to_json prompt_head prompt_tail run_task
          data = Raise e
        /\ isinstance_Exception e = true).
Proof.
  intros outcomes. unfold _process_batches_with_ai, process_batches.
  fold outcomes. split; intros H.
  - rewrite (log_batch_results_loggable _ H). cbn [bind].
    now rewrite (flatten_results_loggable _ H).
  - destruct (log_batch_results_raises _ H) as (e & He & Hi).
    exists e. now rewrite He.
Qed.

Lemma merged_iff_every_batch_loggable_witness :
  exists e,
    _process_batches_with_ai (fun _ => []) [] [] example_names_task
      example_data = Raise e
    /\ isinstance_Exception e = true.
Proof.
  apply (proj2 (@merged_iff_every_batch_loggable (fun _ => []) [] []
                  example_names_task example_data)).
  reflexivity.
Defined.

(** ** Further properties of the analysis *)

Section AnalysisLemmas.

Variable to_json : list summary -> str.
Variables prompt_head prompt_tail : str.
Variable run_task : str -> nat -> nat -> nat -> gathered.

Lemma process_batches_loggable data :
  forallb loggable
    (_process_batches_async run_task
       (create_batches to_json prompt_head prompt_tail 10 data)) = true ->
  _process_batches_with_ai to_json prompt_head prompt_tail run_task data
  = Ok (concat
          (map contribution
             (_process_batches_async run_task
                (create_batches to_json prompt_head prompt_tail 10 data)))).
Proof.
  intros H. unfold _process_batches_with_ai, process_batches.
  rewrite (log_batch_results_loggable _ H). cbn [bind].
  now rewrite (flatten_results_loggable _ H).
Qed.

Lemma process_batches_not_loggable data :
  forallb loggable
    (_process_batches_async run_task
       (create_batches to_json prompt_head prompt_tail 10 data)) = false ->
  exists e,
    _process_batches_with_ai to_json prompt_head prompt_tail run_task data
    = Raise e
    /\ isinstance_Exception e = true.
Proof.
  intros H. unfold _process_batches_with_ai, process_batches.
  destruct (log_batch_results_raises _ H) as (e & He & Hi).
  exists e. now rewrite He.
Qed.

End AnalysisLemmas.

(** X12. [analyze_cloud_deviations] never raises when [pd.DataFrame]
    raises nothing but [Exception]s, and it is all or nothing: it returns
    [True] exactly when the inventory has rows, every batch result is
    false or a list that starts with an object, the merged list is not
    empty and the frame can be built from it, and the results are then
    that frame; in every other case it returns [False] and leaves the
    analyzer as it was. *)
Theorem analysis_all_or_nothing
    (to_json : list summary -> str) (prompt_head prompt_tail : str)
    (run_task : str -> nat -> nat -> nat -> gathered)
    (DataFrame : list json -> res frame) (self : analyzer) :
  (forall l e, DataFrame l = Raise e -> isinstance_Exception e = true) ->
  exists ok self',
    analyze_cloud_deviations to_json prompt_head prompt_tail run_task
      DataFrame self = Ok (ok, self')
    /\ (ok = false -> self' = self)
    /\ (ok = true ->
        exists rows df,
          let merged :=
            concat (map contribution
                      (analysis_outcomes to_json prompt_head prompt_tail
                         run_task rows)) in
          cloud_data self = Some rows /\ rows <> []
          /\ forallb loggable
               (analysis_outcomes to_json prompt_head prompt_tail run_task
                  rows) = true
          /\ merged <> []
          /\ DataFrame merged = Ok df
          /\ self' = set_analysis_results self df)
    /\ (forall rows df,
          let merged :=
            concat (map contribution
                      (analysis_outcomes to_json prompt_head prompt_tail
                         run_task rows)) in
          cloud_data self = Some rows ->
          forallb loggable
            (analysis_outcomes to_json prompt_head prompt_tail run_task
               rows) = true ->
          merged <> [] ->
          DataFrame merged = Ok df ->
          ok = true /\ self' = set_analysis_results self df).
Proof.
  intros HD. unfold analyze_cloud_deviations.
  destruct (cloud_data self) as [[|r rows]|] eqn:Hc.
  - exists false, self. cbn.
    split; [reflexivity|]. split; [reflexivity|]. split; [discriminate|].
    intros rows' df' H _ Hm. injection H as <-.
    now contradiction Hm.
  - cbv zeta.
    destruct (forallb loggable
                (analysis_outcomes to_json prompt_head prompt_tail run_task
                   (r :: rows))) eqn:Hl.
    + pose proof Hl as Hl'. unfold analysis_outcomes in Hl'.
      rewrite (process_batches_loggable _ _ _ _ _ Hl'). cbn [bind].
      fold (analysis_outcomes to_json prompt_head prompt_tail run_task
              (r :: rows)).
      destruct (concat (map contribution
                  (analysis_outcomes to_json prompt_head prompt_tail
                     run_task (r :: rows)))) as [|x merged] eqn:Hm.
      * exists false, self. cbn.
        split; [reflexivity|]. split; [reflexivity|].
        split; [discriminate|].
        intros rows' df' H _ Hm'. injection H as <-.
        rewrite Hm in Hm'. now contradiction Hm'.
      * destruct (DataFrame (x :: merged)) as [df | e] eqn:Hdf.
        -- exists true, (set_analysis_results self df). cbn.
           split; [reflexivity|]. split; [discriminate|]. split.
           ++ intros _. exists (r :: rows), df. rewrite Hm.
              repeat split; try assumption; discriminate.
           ++ intros rows' df' H _ _ Hdf'. injection H as <-.
              rewrite Hm, Hdf in Hdf'.
              injection Hdf' as <-. now split.
        -- exists false, self. cbn. rewrite (HD _ _ Hdf).
           split; [reflexivity|]. split; [reflexivity|].
           split; [discriminate|].
           intros rows' df' H _ _ Hdf'. injection H as <-.
           rewrite Hm, Hdf in Hdf'. discriminate.
    + pose proof Hl as Hl'. unfold analysis_outcomes in Hl'.
      destruct (process_batches_not_loggable _ _ _ _ _ Hl')
        as (e & He & Hi).
      rewrite He. cbn. rewrite Hi.
      exists false, self.
      split; [reflexivity|]. split; [reflexivity|]. split; [discriminate|].
      intros rows' df' H Hl''. injection H as <-.
      rewrite Hl in Hl''. discriminate.
  - exists false, self. cbn.
    split; [reflexivity|]. split; [reflexivity|]. split; discriminate.
Qed.

Lemma analysis_all_or_nothing_witness :
  exists ok self',
    analyze_cloud_deviations (fun _ => []) [] [] example_run_task
      records_frame example_analyzer = Ok (ok, self')
    /\ ok = true
    /\ option_map (@length _) (analysis_results self') = Some 10.
Proof.
  destruct (@analysis_all_or_nothing (fun _ => []) [] [] example_run_task
              records_frame example_analyzer)
    as (ok & self' & H & _ & _ & Hyes).
  { intros l e H. discriminate H. }
  exists ok, self'. split; [exact H|].
  edestruct (fun df => Hyes _ df eq_refl eq_refl) as [-> ->];
    [vm_compute; discriminate | reflexivity | split; reflexivity].
Defined.

(** ** Further properties of the report *)

Lemma filter_disjoint_length {A} (p q : A -> bool) (l : list A) :
  (forall x, p x = true -> q x = false) ->
  length (filter p l) + length (filter q l) <= length l.
Proof.
  intros H. induction l as [|x l IH]; [reflexivity|]. cbn.
  destruct (p x) eqn:Hp.
  - rewrite (H x Hp). cbn. lia.
  - destruct (q x); cbn; lia.
Qed.

Lemma filter_cover_length {A} (p q : A -> bool) (l : list A) :
  (forall x, p x = true -> q x = false) ->
  (forall x, In x l -> p x = true \/ q x = true) ->
  length (filter p l) + length (filter q l) = length l.
Proof.
  intros H. induction l as [|x l IH]; intros Hc; [reflexivity|]. cbn.
  specialize (IH (fun y Hy => Hc y (or_intror Hy))).
  destruct (p x) eqn:Hp.
  - rewrite (H x Hp). cbn. lia.
  - destruct (Hc x (or_introl eq_refl)) as [E | E];
      [congruence | rewrite E; cbn; lia].
Qed.

Lemma config_is_disjoint row :
  config_is (py_str "Deviation") row = true ->
  config_is (py_str "OK") row = false.
Proof.
  unfold config_is.
  destruct (dict_get _ row) as [[]|]; try discriminate.
  intros H. apply str_eqb_eq in H. now subst.
Qed.

Lemma count_where_config value df n :
  count_where (py_str "Cloud_Config") value df = Ok n ->
  n = length (filter (config_is value) df).
Proof.
  unfold count_where. destruct (has_column _ df); [|discriminate].
  now injection 1 as <-.
Qed.

(** X13. The four counts of the metadata sheet add up: the total is the
    number of result rows, the exception and ok counts are the rows whose
    [Cloud_Config] is exactly [Deviation] and exactly [OK], and the
    unknown count is the rest, which is never negative and is zero when
    every row carries one of the two labels. *)
Theorem metadata_counts_add_up
    (getuser : res str) (now : str) (self : analyzer)
    (metadata : list (str * json)) :
  _create_metadata getuser now self = Ok metadata ->
  exists t e o u : Z,
    dict_get (py_str "total_records_analyzed") metadata = Some (JInt t)
    /\ dict_get (py_str "exception_records") metadata = Some (JInt e)
    /\ dict_get (py_str "ok_records") metadata = Some (JInt o)
    /\ dict_get (py_str "unknown_records") metadata = Some (JInt u)
    /\ (t = e + o + u /\ 0 <= e /\ 0 <= o /\ 0 <= u)%Z
    /\ (forall df,
          analysis_results self = Some df -> frame_empty df = false ->
          t = Z.of_nat (length df)
          /\ e = Z.of_nat (length (filter (config_is (py_str "Deviation")) df))
          /\ o = Z.of_nat (length (filter (config_is (py_str "OK")) df))
          /\ ((forall row, In row df ->
                 config_is (py_str "Deviation") row = true
                 \/ config_is (py_str "OK") row = true) ->
              u = 0%Z)).
Proof.
  unfold _create_metadata, bind. intros H.
  destruct (analysis_results self) as [df|].
  - destruct (frame_empty df) eqn:Hempty; cbn [negb] in H.
    + destruct getuser; [|discriminate]. injection H as <-.
      exists 0%Z, 0%Z, 0%Z, 0%Z. cbn.
      repeat split; try reflexivity; try lia; congruence.
    + destruct (count_where _ (py_str "Deviation") df) as [e|] eqn:He;
        [|discriminate].
      destruct (count_where _ (py_str "OK") df) as [o|] eqn:Ho;
        [|discriminate].
      destruct getuser; [|discriminate]. injection H as <-.
      apply count_where_config in He, Ho. unfold frame_len.
      pose proof (filter_disjoint_length _ _ df config_is_disjoint) as Hle.
      do 4 eexists. cbn.
      split; [reflexivity|]. split; [reflexivity|].
      split; [reflexivity|]. split; [reflexivity|].
      split; [subst; lia|].
      intros df' E _. injection E as <-. subst e o.
      repeat split. intros Hall.
      pose proof (filter_cover_length _ _ df config_is_disjoint Hall). lia.
  - destruct getuser; [|discriminate]. injection H as <-.
    exists 0%Z, 0%Z, 0%Z, 0%Z. cbn.
    repeat split; try reflexivity; try lia; congruence.
Qed.

Lemma metadata_counts_add_up_witness :
  exists metadata t e o u,
    _create_metadata (Ok (py_str "auditor")) (py_str "2025-01-31 09:00:00")
      example_analyzer = Ok metadata
    /\ dict_get (py_str "unknown_records") metadata = Some (JInt u)
    /\ (t = e + o + u /\ 0 <= u)%Z.
Proof.
  eexists.
  destruct (@metadata_counts_add_up (Ok (py_str "auditor"))
              (py_str "2025-01-31 09:00:00") example_analyzer _ eq_refl)
    as (t & e & o & u & _ & _ & _ & Hu & (Hsum & _ & _ & Hpos) & _).
  exists t, e, o, u. split; [reflexivity|]. split; [exact Hu|].
  split; assumption.
Defined.

Lemma count_where_missing col value df :
  has_column col df = false -> count_where col value df = Raise KeyError.
Proof.
  unfold count_where. now intros ->.
Qed.

(** X14. [save_analysis_results] never raises when the user lookup and
    the writing raise nothing but [Exception]s.  Results none of whose
    rows has a [Cloud_Config] cannot be saved: the function returns
    [None] for them, whatever the rest of the analyzer is.  When the
    writing raises an [Exception] it returns [None] as well. *)
Theorem save_returns_none_on_failure
    (getuser : res str) (now : str) (write_error : str -> option exn)
    (self : analyzer) :
  ((forall e, getuser = Raise e -> isinstance_Exception e = true) ->
   (forall path e, write_error path = Some e ->
      isinstance_Exception e = true) ->
   exists r, save_analysis_results getuser now write_error self = Ok r)
  /\ (forall results,
        analysis_results self = Some results ->
        has_column (py_str "Cloud_Config") results = false ->
        save_analysis_results getuser now write_error self = Ok None)
  /\ ((forall path, exists e,
         write_error path = Some e /\ isinstance_Exception e = true) ->
      (forall e, getuser = Raise e -> isinstance_Exception e = true) ->
      save_analysis_results getuser now write_error self = Ok None).
Proof.
  unfold save_analysis_results.
  destruct (analysis_results self) as [results|] eqn:Hres.
  2: { cbn. repeat split; eauto; discriminate. }
  destruct (frame_empty results) eqn:Hempty.
  { cbn. repeat split; eauto. }
  destruct (input_file self) as [[|c f]|].
  1, 3: cbn; repeat split; eauto.
  destruct (cloud_data self) as [inventory|].
  2: { cbn. repeat split; eauto. }
  cbn [bind]. destruct (any_any inventory); cbn [negb].
  2: { cbn. repeat split; eauto. }
  split; [|split].
  - intros Hu Hw.
    destruct (_create_metadata getuser now self) as [md | e] eqn:Hmd.
    + cbn [bind]. unfold write_workbook.
      destruct (write_error _) as [e|] eqn:He.
      * cbn. rewrite (Hw _ _ He). eauto.
      * cbn. eauto.
    + cbn. assert (Hi : isinstance_Exception e = true).
      { unfold _create_metadata in Hmd. rewrite Hres, Hempty in Hmd.
        cbn [negb] in Hmd. unfold count_where in Hmd.
        destruct (has_column _ results); cbn in Hmd.
        - destruct getuser as [u | e'] eqn:Hg; [discriminate|].
          cbn in Hmd. injection Hmd as <-. now apply Hu.
        - now injection Hmd as <-. }
      rewrite Hi. eauto.
  - intros results' E Hcol. injection E as <-.
    unfold _create_metadata. rewrite Hres, Hempty. cbn [negb].
    rewrite count_where_missing by exact Hcol. reflexivity.
  - intros Hw Hu.
    destruct (_create_metadata getuser now self) as [md | e] eqn:Hmd.
    + cbn [bind]. unfold write_workbook.
      destruct (Hw (path_join (output_dir self)
                      (fst (splitext (basename (c :: f)))
                       ++ py_str "_Deviation_Analysis.xlsx")))
        as (e & -> & Hi).
      cbn. now rewrite Hi.
    + cbn. assert (Hi : isinstance_Exception e = true).
      { unfold _create_metadata in Hmd. rewrite Hres, Hempty in Hmd.
        cbn [negb] in Hmd. unfold count_where in Hmd.
        destruct (has_column _ results); cbn in Hmd.
        - destruct getuser as [u | e'] eqn:Hg; [discriminate|].
          cbn in Hmd. injection Hmd as <-. now apply Hu.
        - now injection Hmd as <-. }
      now rewrite Hi.
Qed.

Lemma save_returns_none_on_failure_witness :
  save_analysis_results (Ok (py_str "auditor"))
    (py_str "2025-01-31 09:00:00") (fun _ => None)
    (with_results example_analyzer (Some example_unlabelled_results))
  = Ok None.
Proof.
  apply (proj1 (proj2
    (@save_returns_none_on_failure (Ok (py_str "auditor"))
       (py_str "2025-01-31 09:00:00") (fun _ => None)
       (with_results example_analyzer (Some example_unlabelled_results))))
    example_unlabelled_results); reflexivity.
Defined.

(** ** Further properties of the file names *)

Lemma no_char_rev c s : no_char c (rev s) = no_char c s.
Proof.
  unfold no_char. induction s as [|x s IH]; [reflexivity|].
  cbn. rewrite forallb_app, IH. cbn. rewrite andb_true_r. apply andb_comm.
Qed.

Lemma no_char_firstn c n : forall s,
  no_char c s = true -> no_char c (firstn n s) = true.
Proof.
  induction n as [|n IH]; intros [|x s] H; try reflexivity.
  cbn in *. apply andb_prop in H as [-> H]. cbn. now apply IH.
Qed.

Lemma take_until_no_char c s : no_char c (take_until c s) = true.
Proof.
  induction s as [|x s IH]; [reflexivity|]. cbn.
  destruct (char_eqb x c) eqn:E; [reflexivity|]. cbn. now rewrite E.
Qed.

Lemma take_until_app c a b :
  no_char c a = true -> take_until c (a ++ c :: b) = a.
Proof.
  induction a as [|x a IH]; cbn; intros H.
  - unfold char_eqb. now rewrite N.eqb_refl.
  - apply andb_prop in H as [Hx H]. apply negb_true_iff in Hx.
    rewrite Hx. f_equal. now apply IH.
Qed.

Lemma take_until_id c a : no_char c a = true -> take_until c a = a.
Proof.
  induction a as [|x a IH]; cbn; intros H; [reflexivity|].
  apply andb_prop in H as [Hx H]. apply negb_true_iff in Hx.
  rewrite Hx. f_equal. now apply IH.
Qed.

Lemma drop_until_app c a b :
  no_char c a = true -> drop_until c (a ++ c :: b) = Some b.
Proof.
  induction a as [|x a IH]; cbn; intros H.
  - unfold char_eqb. now rewrite N.eqb_refl.
  - apply andb_prop in H as [Hx H]. apply negb_true_iff in Hx.
    rewrite Hx. now apply IH.
Qed.

Lemma basename_no_slash p : no_char slash (basename p) = true.
Proof.
  unfold basename. rewrite no_char_rev. apply take_until_no_char.
Qed.

Lemma basename_after_slash a b :
  no_char slash b = true -> basename (a ++ slash :: b) = b.
Proof.
  intros H. unfold basename. rewrite rev_app_distr. cbn [rev].
  rewrite <- app_assoc. cbn [app].
  rewrite take_until_app by (now rewrite no_char_rev).
  apply rev_involutive.
Qed.

Lemma basename_id b : no_char slash b = true -> basename b = b.
Proof.
  intros H. unfold basename.
  rewrite take_until_id by (now rewrite no_char_rev).
  apply rev_involutive.
Qed.

Lemma basename_path_join a b :
  no_char slash b = true -> b <> [] -> basename (path_join a b) = b.
Proof.
  intros H Hb. destruct b as [|c b]; [contradiction|].
  pose proof H as H'. cbn in H'. apply andb_prop in H' as [Hc _].
  apply negb_true_iff in Hc. unfold path_join. rewrite Hc.
  destruct (rev a) as [|l ra] eqn:Ra; [now apply basename_id|].
  destruct (char_eqb l slash) eqn:El; [|now apply basename_after_slash].
  apply N.eqb_eq in El. subst l.
  assert (Ea : a = rev ra ++ [slash])
    by (rewrite <- (rev_involutive a), Ra; reflexivity).
  rewrite Ea, <- app_assoc. cbn [app]. now apply basename_after_slash.
Qed.

Lemma splitext_fst_no_char c p :
  no_char c p = true -> no_char c (fst (splitext p)) = true.
Proof.
  intros H. unfold splitext.
  destruct (drop_until dot _); [|exact H].
  destruct (existsb _ _); [|exact H]. cbn [fst]. now apply no_char_firstn.
Qed.

Lemma existsb_rev_eq {A} (p : A -> bool) (l : list A) :
  existsb p (rev l) = existsb p l.
Proof.
  induction l as [|x l IH]; [reflexivity|].
  cbn. rewrite existsb_app, IH. cbn. rewrite orb_false_r. apply orb_comm.
Qed.

Lemma splitext_stem stem ext :
  no_char slash (stem ++ dot :: ext) = true ->
  no_char dot ext = true ->
  existsb (fun c => negb (char_eqb c dot)) stem = true ->
  fst (splitext (stem ++ dot :: ext)) = stem.
Proof.
  intros Hs Hd Hn. unfold splitext.
  change (rev (take_until slash (rev (stem ++ dot :: ext))))
    with (basename (stem ++ dot :: ext)).
  rewrite (basename_id _ Hs), rev_app_distr. cbn [rev].
  rewrite <- app_assoc. cbn [app].
  rewrite drop_until_app by (now rewrite no_char_rev).
  rewrite take_until_app by (now rewrite no_char_rev).
  rewrite existsb_rev_eq, Hn. cbn [fst].
  rewrite length_app, length_rev. cbn [length].
  replace (length stem + S (length ext) - length ext - 1)
    with (length stem) by lia.
  apply firstn_length_app.
Qed.

Lemma deviation_name_no_input stem :
  ends_with (py_str "Cloud_Resource_Data.xlsx")
    (stem ++ py_str "_Deviation_Analysis.xlsx") = false.
Proof.
  unfold ends_with. rewrite rev_app_distr. vm_compute. reflexivity.
Qed.

(** X15. The workbook is saved in the output directory under the name
    of the input file, without its extension, followed by
    [_Deviation_Analysis.xlsx].  That name never matches the pattern
    [*Cloud_Resource_Data.xlsx] by which the input file is looked up, so
    a report written into the input directory is not taken for an input
    file by a later run. *)
Theorem saved_file_is_no_input
    (getuser : res str) (now : str) (write_error : str -> option exn)
    (self : analyzer) (path : str) (sheets : workbook) :
  save_analysis_results getuser now write_error self
  = Ok (Some (path, sheets)) ->
  exists input,
    input_file self = Some input
    /\ path = path_join (output_dir self)
                (fst (splitext (basename input))
                 ++ py_str "_Deviation_Analysis.xlsx")
    /\ basename path
       = fst (splitext (basename input)) ++ py_str "_Deviation_Analysis.xlsx"
    /\ matches_input_pattern (basename path) = false
    /\ (forall dir stem,
          input = dir ++ slash :: stem ++ py_str ".xlsx" ->
          no_char slash stem = true ->
          existsb (fun c => negb (char_eqb c dot)) stem = true ->
          basename path = stem ++ py_str "_Deviation_Analysis.xlsx").
Proof.
  unfold save_analysis_results, try_except_Exception. intros H.
  match type of H with
  | match ?b with _ => _ end = _ => destruct b as [r | e] eqn:E
  end.
  2: { destruct (isinstance_Exception e); discriminate. }
  injection H as ->.
  destruct (analysis_results self) as [results|]; [|discriminate].
  destruct (frame_empty results); [discriminate|].
  destruct (input_file self) as [[|c f]|]; try discriminate.
  unfold bind in E.
  destruct (cloud_data self) as [inventory|]; [|discriminate].
  destruct (any_any inventory); cbn [negb] in E; [|discriminate].
  destruct (_create_metadata getuser now self); [|discriminate].
  unfold write_workbook in E.
  destruct (write_error _); [discriminate|].
  injection E as <- _.
  assert (Hbase : basename
            (path_join (output_dir self)
               (fst (splitext (basename (c :: f)))
                ++ py_str "_Deviation_Analysis.xlsx"))
          = fst (splitext (basename (c :: f)))
            ++ py_str "_Deviation_Analysis.xlsx").
  { apply basename_path_join.
    - rewrite no_char_app, splitext_fst_no_char
        by apply basename_no_slash.
      reflexivity.
    - intros Hnil. apply app_eq_nil in Hnil as [_ Hnil]. discriminate. }
  exists (c :: f). split; [reflexivity|]. split; [reflexivity|].
  split; [exact Hbase|]. split.
  - rewrite Hbase. unfold matches_input_pattern.
    rewrite deviation_name_no_input. apply andb_false_r.
  - intros dir stem Ein Hs Hn. rewrite Hbase, Ein.
    assert (Hs' : no_char slash (stem ++ py_str ".xlsx") = true)
      by (rewrite no_char_app, Hs; reflexivity).
    rewrite (basename_after_slash _ _ Hs').
    change (py_str ".xlsx") with (dot :: py_str "xlsx") in *.
    now rewrite splitext_stem.
Qed.

Lemma saved_file_is_no_input_witness :
  basename (fst example_saved)
  = py_str "ACME_Cloud_Resource_Data_Deviation_Analysis.xlsx"
  /\ matches_input_pattern (basename (fst example_saved)) = false.
Proof.
  destruct (@saved_file_is_no_input (Ok (py_str "auditor"))
              (py_str "2025-01-31 09:00:00") (fun _ => None)
              example_analyzer (fst example_saved) (snd example_saved))
    as (input & Hin & _ & _ & Hno & Hname); [vm_compute; reflexivity|].
  split; [|exact Hno].
  injection Hin as <-.
  apply (Hname (py_str "src/data/output")
           (py_str "ACME_Cloud_Resource_Data")); reflexivity.
Defined.

(** ** Further properties of the input file *)

Section LatestFile.

Variable getmtime : str -> res Z.
Variable mt : str -> Z.

Lemma max_by_mtime_first_newest : forall files pre best post,
  (forall g, In g files -> getmtime g = Ok (mt g)) ->
  (forall g, In g pre -> (mt g < mt best)%Z) ->
  (forall g, In g post -> (mt g <= mt best)%Z) ->
  exists before f after,
    pre ++ best :: post ++ files = before ++ f :: after
    /\ (forall g, In g before -> (mt g < mt f)%Z)
    /\ (forall g, In g after -> (mt g <= mt f)%Z)
    /\ max_by_mtime getmtime best (mt best) files = Ok f.
Proof.
  induction files as [|x files IH]; intros pre best post Hk Hpre Hpost.
  - exists pre, best, post. rewrite app_nil_r. now repeat split.
  - cbn [max_by_mtime]. rewrite (Hk x (or_introl eq_refl)). cbn [bind].
    assert (Hk' : forall g, In g files -> getmtime g = Ok (mt g))
      by (intros g Hg; apply Hk; now right).
    destruct (mt best <? mt x)%Z eqn:Hlt.
    + apply Z.ltb_lt in Hlt.
      destruct (IH (pre ++ best :: post) x [] Hk') as (b & f & a & E & H).
      * intros g Hg. apply in_app_or in Hg as [Hg | [<- | Hg]];
          [specialize (Hpre g Hg) | | specialize (Hpost g Hg)]; lia.
      * intros g [].
      * exists b, f, a. split; [|exact H].
        rewrite <- E. cbn [app]. rewrite <- !app_assoc. reflexivity.
    + apply Z.ltb_ge in Hlt.
      destruct (IH pre best (post ++ [x]) Hk' Hpre) as (b & f & a & E & H).
      * intros g Hg. apply in_app_or in Hg as [Hg | [<- | []]];
          [now apply Hpost | exact Hlt].
      * exists b, f, a. split; [|exact H].
        rewrite <- E, <- app_assoc. reflexivity.
Qed.

Lemma max_by_mtime_raises : forall files best k g e,
  In g files -> getmtime g = Raise e ->
  exists g' e',
    In g' files /\ getmtime g' = Raise e'
    /\ max_by_mtime getmtime best k files = Raise e'.
Proof.
  induction files as [|x files IH]; intros best k g e Hin Hg; [easy|].
  cbn [max_by_mtime].
  destruct (getmtime x) as [kx | ex] eqn:Hx.
  - destruct Hin as [-> | Hin]; [congruence|]. cbn [bind].
    destruct (k <? kx)%Z;
      [destruct (IH x kx g e Hin Hg) as (g' & e' & Hin' & Hg' & H)
      |destruct (IH best k g e Hin Hg) as (g' & e' & Hin' & Hg' & H)];
      exists g', e'; (split; [now right|]); now split.
  - exists x, ex. split; [now left|]. now split.
Qed.

End LatestFile.

(** X16. [find_latest_input_file] takes, of the files the pattern
    selects, the first one in the listing whose modification time is the
    greatest: the files before it are strictly older, those after it are
    not newer.  It fails when no file is selected, and also when the
    modification time of any selected file cannot be read, even that of
    a file which would not have been taken. *)
Theorem latest_input_file_is_first_newest
    (glob_glob : str -> res (list str)) (getmtime : str -> res Z)
    (input_dir : str) (files : list str) :
  glob_glob (path_join input_dir (py_str "*Cloud_Resource_Data.xlsx"))
  = Ok files ->
  (forall g e, getmtime g = Raise e -> isinstance_Exception e = true) ->
  (files = [] ->
   find_latest_input_file glob_glob getmtime input_dir = Ok None)
  /\ (forall g e, In g files -> getmtime g = Raise e ->
        find_latest_input_file glob_glob getmtime input_dir = Ok None)
  /\ (forall mt, files <> [] ->
        (forall g, In g files -> getmtime g = Ok (mt g)) ->
        exists before f after,
          files = before ++ f :: after
          /\ (forall g, In g before -> (mt g < mt f)%Z)
          /\ (forall g, In g after -> (mt g <= mt f)%Z)
          /\ find_latest_input_file glob_glob getmtime input_dir
             = Ok (Some (f, before_first (py_str "_Cloud_Resource_Data")
                              (basename f)))).
Proof.
  intros Hglob Hexc. unfold find_latest_input_file. cbv zeta.
  rewrite Hglob. cbn [bind]. split; [now intros ->|]. split.
  - intros g e Hin Hg. destruct files as [|x files]; [easy|].
    destruct (getmtime x) as [kx | ex] eqn:Hx.
    + destruct Hin as [-> | Hin]; [congruence|]. cbn [bind].
      destruct (max_by_mtime_raises getmtime files x kx g Hin Hg)
        as (g' & e' & _ & Hg' & ->).
      cbn. now rewrite (Hexc _ _ Hg').
    + cbn. now rewrite (Hexc _ _ Hx).
  - intros mt Hne Hk. destruct files as [|x files]; [contradiction|].
    rewrite (Hk x (or_introl eq_refl)). cbn [bind].
    destruct (@max_by_mtime_first_newest getmtime mt files [] x [])
      as (b & f & a & E & Hb & Ha & ->).
    + intros g Hg. apply Hk. now right.
    + intros g [].
    + intros g [].
    + exists b, f, a. cbn in E. now repeat split.
Qed.

Lemma latest_input_file_is_first_newest_witness :
  let files := [py_str "out/A_Cloud_Resource_Data.xlsx";
                py_str "out/B_Cloud_Resource_Data.xlsx";
                py_str "out/C_Cloud_Resource_Data.xlsx"] in
  let mt (f : str) := if str_eqb f (py_str "out/A_Cloud_Resource_Data.xlsx")
                      then 5%Z else 9%Z in
  exists before f after,
    files = before ++ f :: after
    /\ (forall g, In g before -> (mt g < mt f)%Z)
    /\ find_latest_input_file (fun _ => Ok files) (fun f => Ok (mt f))
         (py_str "out")
       = Ok (Some (f, before_first (py_str "_Cloud_Resource_Data")
                        (basename f))).
Proof.
  intros files mt.
  destruct (@latest_input_file_is_first_newest (fun _ => Ok files)
              (fun f => Ok (mt f)) (py_str "out") files eq_refl)
    as (_ & _ & H); [discriminate|].
  destruct (H mt) as (b & f & a & E & Hb & _ & Hf);
    [discriminate | reflexivity |].
  exists b, f, a. split; [exact E|]. split; [exact Hb | exact Hf].
Defined.

Lemma strip_prefix_refl s : forall t, strip_prefix s (s ++ t) = Some t.
Proof.
  induction s as [|c s IH]; intros t; [reflexivity|].
  cbn. unfold char_eqb. rewrite N.eqb_refl. apply IH.
Qed.

Lemma before_first_occurrence sep : sep <> [] -> forall s,
  (exists rest, s = before_first sep s ++ sep ++ rest)
  \/ (before_first sep s = s /\ forall a b, s <> a ++ sep ++ b).
Proof.
  intros Hsep. induction s as [|c s IH].
  - cbn. destruct (strip_prefix sep []) as [rest|] eqn:E.
    + left. exists rest. now apply strip_prefix_app in E.
    + right. split; [reflexivity|]. intros a b H.
      symmetry in H. apply app_eq_nil in H as [_ H].
      apply app_eq_nil in H as [H _]. contradiction.
  - cbn [before_first].
    destruct (strip_prefix sep (c :: s)) as [rest|] eqn:E.
    + left. exists rest. now apply strip_prefix_app in E.
    + destruct IH as [[rest IH] | [IH Hno]].
      * left. exists rest. cbn. now f_equal.
      * right. rewrite IH. split; [reflexivity|].
        intros [|x a] b H.
        -- cbn in H. rewrite H, strip_prefix_refl in E. discriminate.
        -- cbn in H. injection H as _ H. exact (Hno _ _ H).
Qed.

Lemma before_first_minimal sep : forall a b,
  length (before_first sep (a ++ sep ++ b)) <= length a.
Proof.
  induction a as [|c a IH]; intros b.
  - cbn [app]. destruct (sep ++ b) as [|x t] eqn:E;
      [cbn; now destruct (strip_prefix sep [])|].
    cbn [before_first]. rewrite <- E, strip_prefix_refl. reflexivity.
  - cbn [app before_first].
    destruct (strip_prefix sep _); cbn [length]; [lia|].
    specialize (IH b). lia.
Qed.

Lemma strip_prefix_head_differs c s d t :
  char_eqb d c = false -> strip_prefix (c :: s) (d :: t) = None.
Proof.
  intros H. cbn. unfold char_eqb in *. now rewrite N.eqb_sym, H.
Qed.

Lemma before_first_skips c sep : forall x t,
  no_char c x = true ->
  before_first (c :: sep) (x ++ t) = x ++ before_first (c :: sep) t.
Proof.
  induction x as [|d x IH]; intros t H; [reflexivity|].
  cbn in H. apply andb_prop in H as [Hd H]. apply negb_true_iff in Hd.
  cbn [app before_first].
  rewrite strip_prefix_head_differs by exact Hd.
  f_equal. now apply IH.
Qed.

Lemma find_latest_client_name glob_glob getmtime input_dir f client_name :
  find_latest_input_file glob_glob getmtime input_dir
  = Ok (Some (f, client_name)) ->
  client_name = before_first (py_str "_Cloud_Resource_Data") (basename f).
Proof.
  unfold find_latest_input_file, try_except_Exception. cbv zeta.
  destruct (glob_glob _) as [[|x files] | e]; cbn [bind].
  - discriminate.
  - destruct (getmtime x) as [k | e]; cbn [bind].
    + destruct (max_by_mtime getmtime x k files) as [g | e]; cbn [bind].
      * intros H. now injection H as <- <-.
      * destruct (isinstance_Exception e); discriminate.
    + destruct (isinstance_Exception e); discriminate.
  - destruct (isinstance_Exception e); discriminate.
Qed.

(** X17. The client name [find_latest_input_file] sets is the part of
    the file name before the first [_Cloud_Resource_Data].  A file named
    [<client>_Cloud_Resource_Data.xlsx] gives [<client>] when the client
    has no underscore; but the pattern also selects names in which
    [Cloud_Resource_Data.xlsx] follows no underscore, and such a name is
    taken whole, extension included, as the client name. *)
Theorem client_name_is_before_separator
    (glob_glob : str -> res (list str)) (getmtime : str -> res Z)
    (input_dir f client_name : str) :
  find_latest_input_file glob_glob getmtime input_dir
  = Ok (Some (f, client_name)) ->
  let sep := py_str "_Cloud_Resource_Data" in
  ((exists rest, basename f = client_name ++ sep ++ rest)
   \/ (client_name = basename f /\ forall a b, basename f <> a ++ sep ++ b))
  /\ (forall a b, basename f = a ++ sep ++ b ->
        length client_name <= length a)
  /\ (forall client,
        no_char underscore client = true ->
        basename f = client ++ py_str "_Cloud_Resource_Data.xlsx" ->
        client_name = client)
  /\ (forall x,
        no_char underscore x = true ->
        basename f = x ++ py_str "Cloud_Resource_Data.xlsx" ->
        matches_input_pattern (basename f)
        = match x with c :: _ => negb (char_eqb c dot) | [] => true end
        /\ client_name = basename f).
Proof.
  intros H sep. apply find_latest_client_name in H. subst client_name.
  split; [|split; [|split]].
  - destruct (@before_first_occurrence sep ltac:(discriminate) (basename f))
      as [Hyes | Hno]; [now left | now right].
  - intros a b E. rewrite E. apply before_first_minimal.
  - intros client Hc E. rewrite E.
    change (py_str "_Cloud_Resource_Data")
      with (underscore :: py_str "Cloud_Resource_Data").
    rewrite before_first_skips by exact Hc.
    vm_compute (before_first _ (py_str "_Cloud_Resource_Data.xlsx")).
    apply app_nil_r.
  - intros x Hx E. rewrite E. split.
    + unfold matches_input_pattern, ends_with.
      rewrite rev_app_distr.
      replace (strip_prefix (rev (py_str "Cloud_Resource_Data.xlsx"))
                 (rev (py_str "Cloud_Resource_Data.xlsx") ++ rev x))
        with (Some (rev x)) by (symmetry; apply strip_prefix_refl).
      rewrite andb_true_r. now destruct x.
    + change (py_str "_Cloud_Resource_Data")
        with (underscore :: py_str "Cloud_Resource_Data").
      rewrite before_first_skips by exact Hx.
      f_equal.
Qed.

Lemma client_name_is_before_separator_witness :
  exists f client_name,
    find_latest_input_file
      (fun _ => Ok [py_str "out/ACMECloud_Resource_Data.xlsx"])
      (fun _ => Ok 0%Z) (py_str "out")
    = Ok (Some (f, client_name))
    /\ matches_input_pattern (basename f) = true
    /\ client_name = py_str "ACMECloud_Resource_Data.xlsx".
Proof.
  do 2 eexists. split; [reflexivity|].
  destruct (@client_name_is_before_separator
              (fun _ => Ok [py_str "out/ACMECloud_Resource_Data.xlsx"])
              (fun _ => Ok 0%Z) (py_str "out") _ _ eq_refl)
    as (_ & _ & _ & H).
  destruct (H (py_str "ACME") eq_refl eq_refl) as [Hm Hc].
  split; [exact Hm | exact Hc].
Defined.

(** ** Further properties of the whole run *)

Lemma try_except_Exception_ok_inv {A} (body : res A) (a : A) :
  try_except_Exception body (fun _ => Ok a) = Ok a ->
  body = Ok a \/ exists e, body = Raise e /\ isinstance_Exception e = true.
Proof.
  destruct body as [x | e]; cbn.
  - intros H. left. exact H.
  - destruct (isinstance_Exception e) eqn:E; [|discriminate].
    intros _. right. now exists e.
Qed.

Lemma try_except_Exception_inv {A} (body : res A) (d a : A) :
  try_except_Exception body (fun _ => Ok d) = Ok a -> a <> d ->
  body = Ok a.
Proof.
  destruct body as [x | e]; cbn; [easy|].
  destruct (isinstance_Exception e); [|discriminate].
  intros H Hne. injection H as <-. contradiction.
Qed.

Section RunLemmas.

Variable to_json : list summary -> str.
Variables prompt_head prompt_tail : str.
Variable run_task : str -> nat -> nat -> nat -> gathered.
Variable DataFrame : list json -> res frame.
Variable getuser : res str.
Variable now : str.
Variable write_error : str -> option exn.
Variable glob_glob : str -> res (list str).
Variable getmtime : str -> res Z.
Variable path_exists : str -> bool.
Variable read_excel : str -> res loaded.
Variable input_dir : str.

Lemma load_data_loaded self self1 :
  load_data glob_glob getmtime path_exists read_excel input_dir self
  = Ok (Some self1) ->
  exists file rows,
    self1 = set_loaded self file rows
    /\ path_exists file = true
    /\ read_excel file = Ok (Inventory rows).
Proof.
  unfold load_data. intros H.
  apply try_except_Exception_inv in H; [|discriminate].
  match type of H with
  | bind ?m _ = _ => destruct m as [[file|] | e]; cbn [bind] in H
  end; try discriminate.
  destruct (path_exists file) eqn:Hex; cbn [negb] in H; [|discriminate].
  apply try_except_Exception_inv in H; [|discriminate].
  destruct (read_excel file) as [[| |rows] | e] eqn:Hr; cbn [bind] in H;
    try discriminate.
  injection H as <-. now exists file, rows.
Qed.

Lemma analyze_true self self' :
  analyze_cloud_deviations to_json prompt_head prompt_tail run_task
    DataFrame self = Ok (true, self') ->
  exists rows df,
    cloud_data self = Some rows /\ rows <> []
    /\ concat (map contribution
                 (analysis_outcomes to_json prompt_head prompt_tail
                    run_task rows)) <> []
    /\ DataFrame
         (concat (map contribution
                    (analysis_outcomes to_json prompt_head prompt_tail
                       run_task rows))) = Ok df
    /\ self' = set_analysis_results self df.
Proof.
  unfold analyze_cloud_deviations. intros H.
  apply try_except_Exception_inv in H; [|discriminate].
  destruct (cloud_data self) as [[|r rows]|]; try discriminate.
  cbv zeta in H.
  destruct (forallb loggable
              (analysis_outcomes to_json prompt_head prompt_tail run_task
                 (r :: rows))) eqn:Hl; unfold analysis_outcomes in Hl.
  - rewrite (process_batches_loggable _ _ _ _ _ Hl) in H. cbn [bind] in H.
    fold (analysis_outcomes to_json prompt_head prompt_tail run_task
            (r :: rows)) in H.
    destruct (concat _) as [|x merged] eqn:Hm; [discriminate|].
    destruct (DataFrame (x :: merged)) as [df|] eqn:Hdf; [|discriminate].
    cbn in H. injection H as <-.
    exists (r :: rows), df. rewrite Hm.
    repeat split; try assumption; discriminate.
  - destruct (process_batches_not_loggable _ _ _ _ _ Hl) as (e & He & _).
    rewrite He in H. discriminate.
Qed.

Lemma save_written self path sheets :
  save_analysis_results getuser now write_error self
  = Ok (Some (path, sheets)) ->
  exists inventory results metadata,
    cloud_data self = Some inventory
    /\ analysis_results self = Some results
    /\ frame_empty results = false
    /\ _create_metadata getuser now self = Ok metadata
    /\ sheets = [ (py_str "Cloud_Resource_Inventory",
                   InventoryRows inventory);
                  (py_str "Cloud_Resource_Deviation_Analysis",
                   ResultRows results);
                  (py_str "Metadata", KeyValueRows metadata) ].
Proof.
  unfold save_analysis_results. intros H.
  apply try_except_Exception_inv in H; [|discriminate].
  destruct (analysis_results self) as [results|]; [|discriminate].
  destruct (frame_empty results) eqn:Hempty; [discriminate|].
  destruct (input_file self) as [[|c f]|]; try discriminate.
  unfold bind in H.
  destruct (cloud_data self) as [inventory|]; [|discriminate].
  destruct (any_any inventory); cbn [negb] in H; [|discriminate].
  destruct (_create_metadata getuser now self) as [metadata|];
    [|discriminate].
  unfold write_workbook in H.
  destruct (write_error _); [discriminate|].
  injection H as <- <-.
  now exists inventory, results, metadata.
Qed.

Lemma create_metadata_has_column self results metadata :
  analysis_results self = Some results ->
  frame_empty results = false ->
  _create_metadata getuser now self = Ok metadata ->
  has_column (py_str "Cloud_Config") results = true.
Proof.
  intros Hres Hempty. unfold _create_metadata.
  rewrite Hres, Hempty. cbn [negb]. unfold count_where.
  destruct (has_column _ results); [reflexivity | discriminate].
Qed.

End RunLemmas.

(** X18. When [run] returns [True], the whole chain went through: the
    workbook was read and its inventory has rows, the merged batch
    results were not empty and made a frame with a [Cloud_Config]
    column, and the workbook written holds, in this order, the inventory
    as it was read, that frame, and a metadata sheet whose total is the
    number of rows of the frame. *)
Theorem run_true_means_report_written
    (to_json : list summary -> str) (prompt_head prompt_tail : str)
    (run_task : str -> nat -> nat -> nat -> gathered)
    (DataFrame : list json -> res frame)
    (getuser : res str) (now : str) (write_error : str -> option exn)
    (glob_glob : str -> res (list str)) (getmtime : str -> res Z)
    (path_exists : str -> bool) (read_excel : str -> res loaded)
    (input_dir : str) (self : analyzer)
    (output_file : option (str * workbook)) :
  run to_json prompt_head prompt_tail run_task DataFrame getuser now
    write_error glob_glob getmtime path_exists read_excel input_dir self
  = Ok (true, output_file) ->
  exists file rows df path sheets metadata,
    read_excel file = Ok (Inventory rows)
    /\ rows <> []
    /\ concat (map contribution
                 (analysis_outcomes to_json prompt_head prompt_tail
                    run_task rows)) <> []
    /\ DataFrame
         (concat (map contribution
                    (analysis_outcomes to_json prompt_head prompt_tail
                       run_task rows))) = Ok df
    /\ has_column (py_str "Cloud_Config") df = true
    /\ output_file = Some (path, sheets)
    /\ path <> []
    /\ sheets = [ (py_str "Cloud_Resource_Inventory", InventoryRows rows);
                  (py_str "Cloud_Resource_Deviation_Analysis",
                   ResultRows df);
                  (py_str "Metadata", KeyValueRows metadata) ]
    /\ dict_get (py_str "total_records_analyzed") metadata
       = Some (JInt (Z.of_nat (length df))).
Proof.
  unfold run. intros H.
  apply try_except_Exception_inv in H; [|discriminate].
  destruct (load_data _ _ _ _ _ self) as [[self1|] | e] eqn:Hload;
    cbn [bind] in H; try discriminate.
  destruct (analyze_cloud_deviations _ _ _ _ _ self1)
    as [[[] self2] | e] eqn:Han; cbn [bind negb] in H; try discriminate.
  destruct (save_analysis_results _ _ _ self2)
    as [[[[|c path] sheets]|] | e] eqn:Hsave; cbn [bind] in H;
    try discriminate.
  injection H as <-.
  apply load_data_loaded in Hload as (file & rows & -> & _ & Hread).
  apply analyze_true in Han as (rows' & df & Hrows & Hne & Hm & Hdf & ->).
  cbn in Hrows. injection Hrows as <-.
  pose proof Hsave as Hsave'.
  apply save_written in Hsave'
    as (inventory & results & metadata & Hinv & Hres & Hempty & Hmd & ->).
  cbn in Hinv, Hres. injection Hinv as <-. injection Hres as <-.
  do 6 eexists.
  split; [exact Hread|]. split; [exact Hne|]. split; [exact Hm|].
  split; [exact Hdf|].
  split; [eapply create_metadata_has_column; [| exact Hempty | exact Hmd];
          reflexivity|].
  split; [reflexivity|]. split; [discriminate|]. split; [reflexivity|].
  apply create_metadata_total in Hmd. cbn [analysis_results
    set_analysis_results] in Hmd. now rewrite Hempty in Hmd.
Qed.

Lemma run_true_means_report_written_witness :
  exists output_file,
    example_run = Ok (true, output_file)
    /\ exists df path sheets metadata,
         output_file = Some (path, sheets)
         /\ nth_error sheets 1
            = Some (py_str "Cloud_Resource_Deviation_Analysis", ResultRows df)
         /\ nth_error sheets 2
            = Some (py_str "Metadata", KeyValueRows metadata)
         /\ dict_get (py_str "total_records_analyzed") metadata
            = Some (JInt (Z.of_nat (length df))).
Proof.
  destruct example_run as [[[] output_file] | e] eqn:H;
    try (vm_compute in H; discriminate H).
  exists output_file. split; [reflexivity|].
  unfold example_run in H.
  destruct (run_true_means_report_written _ _ _ _ _ _ _ _ _ _ _ _ _ _ H)
    as (file & rows & df & path & sheets & metadata
        & _ & _ & _ & _ & _ & Hout & _ & -> & Htotal).
  do 4 eexists. split; [exact Hout|]. now repeat split.
Defined.

(** ** Further properties of the workflow *)

Lemma try_except_Exception_raise {A} (body : res A) (d : A) e :
  try_except_Exception body (fun _ => Ok d) = Raise e ->
  isinstance_Exception e = false /\ body = Raise e.
Proof.
  destruct body as [x | e']; cbn; [discriminate|].
  destruct (isinstance_Exception e') eqn:E; [discriminate|].
  intros H. injection H as <-. now split.
Qed.

(** X19. The result of [run_cloud_workflow] does not depend on the
    deviation analysis: once the extraction has succeeded and its file
    is saved, the workflow returns [True] whether the analysis returned
    [True] or [False], unless the analysis raised something that is not
    an [Exception].  In particular, with a required environment variable
    unset or empty the analyzer cannot be constructed, the analysis
    returns [False] without running, and the workflow returns [True]. *)
Theorem workflow_result_ignores_analysis
    (to_json : list summary -> str) (prompt_head prompt_tail : str)
    (run_task : str -> nat -> nat -> nat -> gathered)
    (DataFrame : list json -> res frame)
    (getuser : res str) (now : str) (write_error : str -> option exn)
    (glob_glob : str -> res (list str)) (getmtime : str -> res Z)
    (path_exists : str -> bool) (read_excel : str -> res loaded)
    (makedirs : str -> option exn) (environ_get : str -> option str)
    (extractor_run : res bool)
    (save_verified_population_file : res (option str))
    (output_dir : str) (c : char) (p : str) :
  let analysis :=
    run_cloud_analysis to_json prompt_head prompt_tail run_task DataFrame
      getuser now write_error glob_glob getmtime path_exists read_excel
      makedirs environ_get output_dir in
  let workflow :=
    run_cloud_workflow to_json prompt_head prompt_tail run_task DataFrame
      getuser now write_error glob_glob getmtime path_exists read_excel
      makedirs environ_get extractor_run save_verified_population_file
      output_dir in
  extractor_run = Ok true ->
  save_verified_population_file = Ok (Some (c :: p)) ->
  ((exists b, analysis = Ok b) -> workflow = Ok true)
  /\ (forall e, analysis = Raise e ->
        isinstance_Exception e = false /\ workflow = Raise e)
  /\ ((exists k,
         In k [py_str "PROJECT_ENDPOINT";
               py_str "AGENT_MODEL_DEPLOYMENT_NAME"]
         /\ (environ_get k = None \/ environ_get k = Some [])) ->
      (forall e, makedirs output_dir = Some e ->
         isinstance_Exception e = true) ->
      analysis = Ok false /\ workflow = Ok true).
Proof.
  intros analysis workflow Hrun Hsave.
  assert (Hw : workflow
               = try_except_Exception
                   (_ <- analysis ;; Ok true) (fun _ => Ok false)).
  { unfold workflow, run_cloud_workflow. now rewrite Hrun, Hsave. }
  assert (Hok : (exists b, analysis = Ok b) -> workflow = Ok true).
  { intros [b Hb]. rewrite Hw, Hb. reflexivity. }
  split; [exact Hok|]. split.
  - intros e He. pose proof He as He'. unfold analysis in He'.
    apply try_except_Exception_raise in He' as [Hi _].
    split; [exact Hi|]. rewrite Hw, He. cbn. now rewrite Hi.
  - intros (k & Hk & Hunset) Hmk.
    assert (Ha : analysis = Ok false).
    { unfold analysis, run_cloud_analysis, __init__.
      destruct (makedirs output_dir) as [e|] eqn:Hm.
      - cbn. now rewrite (Hmk e eq_refl).
      - cbn [bind filter].
        destruct Hk as [<- | [<- | []]];
          destruct Hunset as [-> | ->];
          try reflexivity;
          now destruct (environ_get (py_str "PROJECT_ENDPOINT"))
            as [[|]|]. }
    split; [exact Ha|]. apply Hok. now exists false.
Qed.

Lemma workflow_result_ignores_analysis_witness :
  run_cloud_analysis (fun _ => []) [] [] example_run_task records_frame
    (Ok (py_str "auditor")) (py_str "2025-01-31 09:00:00") (fun _ => None)
    example_glob (fun _ => Ok 0%Z) (fun _ => true) example_read_excel
    (fun _ => None) (fun _ => None) (py_str "src/data/output") = Ok false
  /\ run_cloud_workflow (fun _ => []) [] [] example_run_task records_frame
       (Ok (py_str "auditor")) (py_str "2025-01-31 09:00:00")
       (fun _ => None) example_glob (fun _ => Ok 0%Z) (fun _ => true)
       example_read_excel (fun _ => None) (fun _ => None) (Ok true)
       (Ok (Some (py_str "src/data/output/ACME_Cloud_Resource_Data.xlsx")))
       (py_str "src/data/output") = Ok true.
Proof.
  refine (proj2 (proj2
    (@workflow_result_ignores_analysis (fun _ => []) [] [] example_run_task
       records_frame (Ok (py_str "auditor")) (py_str "2025-01-31 09:00:00")
       (fun _ => None) example_glob (fun _ => Ok 0%Z) (fun _ => true)
       example_read_excel (fun _ => None) (fun _ => None) (Ok true)
       (Ok (Some (py_str "src/data/output/ACME_Cloud_Resource_Data.xlsx")))
       (py_str "src/data/output") _ _ eq_refl eq_refl)) _ _).
  - exists (py_str "PROJECT_ENDPOINT"). split; [now left | now left].
  - discriminate.
Defined.

(** ** Further properties of the entry point *)

Section MainLemmas.

Variable parse_args : res args.
Variable setup_logging : option exn.
Variable makedirs : str -> option exn.
Variable run_workflow : workflow -> list main_event -> res bool.
Variable schedule_mode : args -> Proc bool.

Lemma run_in_turn_selected (b1 b2 b3 b4 b5 : bool) h :
  (success <== run_selected run_workflow b1 Environment true ;;
   success <== run_selected run_workflow b2 Database success ;;
   success <== run_selected run_workflow b3 Server success ;;
   success <== run_selected run_workflow b4 Url success ;;
   success <== run_selected run_workflow b5 Cloud success ;;
   pret success) h
  = run_in_turn run_workflow
      (filter
         (fun w =>
            match w with
            | Environment => b1
            | Database => b2
            | Server => b3
            | Url => b4
            | Cloud => b5
            end)
         [Environment; Database; Server; Url; Cloud]) true h.
Proof.
  destruct b1, b2, b3, b4, b5; cbn [filter run_in_turn];
    unfold run_selected, pbind, pret, perform;
    repeat match goal with
           | |- context [run_workflow ?w ?h'] =>
               destruct (run_workflow w h') as [[]|]
           end; reflexivity.
Qed.

Lemma run_in_turn_all_return (b : workflow -> bool) : forall ws success h,
  (forall w h', In w ws -> run_workflow w h' = Ok (b w)) ->
  run_in_turn run_workflow ws success h
  = (Ok (success && forallb b ws), rev (map RunWorkflow ws) ++ h).
Proof.
  induction ws as [|w ws IH]; intros success h H.
  - cbn. now rewrite andb_true_r.
  - cbn [run_in_turn]. cbv beta iota delta [pbind run_selected perform].
    rewrite (H w h (or_introl eq_refl)). cbn [negb].
    assert (IH' := fun s => IH s (RunWorkflow w :: h)
                              (fun v h' Hv => H v h' (or_intror Hv))).
    destruct (b w) eqn:Hb; cbn [negb pret]; rewrite IH';
      cbn [map rev forallb]; rewrite Hb, <- app_assoc; cbn [app];
      [now rewrite andb_true_l | now rewrite andb_false_r].
Qed.

Lemma run_in_turn_raises (b : workflow -> bool) e w after :
  forall before success h,
    (forall v h', In v before -> run_workflow v h' = Ok (b v)) ->
    (forall h', run_workflow w h' = Raise e) ->
    run_in_turn run_workflow (before ++ w :: after) success h
    = (Raise e, RunWorkflow w :: rev (map RunWorkflow before) ++ h).
Proof.
  induction before as [|v before IH]; intros success h H Hw.
  - cbn [app run_in_turn]. cbv beta iota delta [pbind run_selected perform].
    now rewrite Hw.
  - cbn [app run_in_turn]. cbv beta iota delta [pbind run_selected perform].
    rewrite (H v h (or_introl eq_refl)).
    assert (IH' := fun s => IH s (RunWorkflow v :: h)
                              (fun u h' Hu => H u h' (or_intror Hu)) Hw).
    destruct (b v); cbn [negb pret]; rewrite IH';
      cbn [map rev]; now rewrite <- app_assoc.
Qed.

Lemma main_run_mode (a : args) :
  parse_args = Ok a ->
  args_mode a = py_str "run" ->
  setup_logging = None ->
  makedirs (args_data_dir a) = None ->
  makedirs (args_output_dir a) = None ->
  main parse_args setup_logging makedirs run_workflow schedule_mode []
  = run_in_turn run_workflow (selected_workflows (args_process a)) true
      [Makedirs (args_output_dir a); Makedirs (args_data_dir a);
       SetupLogging; ParseArgs].
Proof.
  intros Hp Hm Hl Hd Ho. unfold main, pbind at 1 2, perform at 1 2.
  rewrite Hp, Hl. cbv zeta. rewrite Hm.
  change (str_eqb (py_str "run") (py_str "run")) with true. cbv iota.
  unfold pbind at 1, WorkflowManager, pbind at 1, perform at 1 2.
  rewrite Hd, Ho. rewrite run_in_turn_selected.
  unfold selected_workflows. f_equal;
    try (apply filter_ext; now intros []).
Qed.

End MainLemmas.

(** X20. [main] parses the command line and sets up the log; in the run
    mode it then constructs the manager, which creates the data and the
    output directory, and runs the workflows [--process] selects one
    after the other, in the order environment, database, server, URL,
    cloud.  A workflow that returns [False] makes the result [False] but
    does not stop the later ones; the result is the conjunction of the
    results.  A workflow that raises ends [main] with its exception, the
    later ones being left out, and so does a failure of the log or of a
    directory, before any workflow has run. *)
Theorem main_runs_selected_workflows
    (parse_args : res args) (setup_logging : option exn)
    (makedirs : str -> option exn)
    (run_workflow : workflow -> list main_event -> res bool)
    (schedule_mode : args -> Proc bool) (a : args) :
  parse_args = Ok a ->
  args_mode a = py_str "run" ->
  let main_ :=
    main parse_args setup_logging makedirs run_workflow schedule_mode [] in
  let selected := selected_workflows (args_process a) in
  let made :=
    [Makedirs (args_output_dir a); Makedirs (args_data_dir a);
     SetupLogging; ParseArgs] in
  (forall e, setup_logging = Some e ->
     main_ = (Raise e, [SetupLogging; ParseArgs]))
  /\ (forall e, setup_logging = None ->
        makedirs (args_data_dir a) = Some e ->
        main_ = (Raise e, [Makedirs (args_data_dir a); SetupLogging;
                           ParseArgs]))
  /\ (forall e, setup_logging = None ->
        makedirs (args_data_dir a) = None ->
        makedirs (args_output_dir a) = Some e ->
        main_ = (Raise e, made))
  /\ (setup_logging = None ->
      makedirs (args_data_dir a) = None ->
      makedirs (args_output_dir a) = None ->
      (forall b,
         (forall w h, In w selected -> run_workflow w h = Ok (b w)) ->
         main_ = (Ok (forallb b selected),
                  rev (map RunWorkflow selected) ++ made))
      /\ (forall before w after b e,
            selected = before ++ w :: after ->
            (forall v h, In v before -> run_workflow v h = Ok (b v)) ->
            (forall h, run_workflow w h = Raise e) ->
            main_ = (Raise e,
                     RunWorkflow w :: rev (map RunWorkflow before)
                     ++ made))).
Proof.
  intros Hp Hm main_ selected made.
  split; [|split; [|split]].
  - intros e Hl. unfold main_, main, pbind at 1 2, perform at 1 2.
    now rewrite Hp, Hl.
  - intros e Hl Hd. unfold main_, main, pbind at 1 2, perform at 1 2.
    rewrite Hp, Hl. cbv zeta. rewrite Hm.
    change (str_eqb (py_str "run") (py_str "run")) with true. cbv iota.
    unfold pbind at 1, WorkflowManager, pbind at 1, perform at 1.
    now rewrite Hd.
  - intros e Hl Hd Ho. unfold main_, main, pbind at 1 2, perform at 1 2.
    rewrite Hp, Hl. cbv zeta. rewrite Hm.
    change (str_eqb (py_str "run") (py_str "run")) with true. cbv iota.
    unfold pbind at 1, WorkflowManager, pbind at 1, perform at 1 2.
    now rewrite Hd, Ho.
  - intros Hl Hd Ho.
    assert (E : main_
                = run_in_turn run_workflow selected true made)
      by (now apply main_run_mode).
    split.
    + intros b Hb. rewrite E.
      now rewrite (run_in_turn_all_return run_workflow b selected true made
                     Hb).
    + intros before w after b e Hsel Hb Hw. rewrite E, Hsel.
      now apply run_in_turn_raises with (b := b).
Qed.

Lemma main_runs_selected_workflows_witness :
  let a := {| args_mode := py_str "run"; args_process := py_str "all";
              args_data_dir := py_str "src/data/input";
              args_output_dir := py_str "src/data/output" |} in
  main (Ok a) None (fun _ => None)
    (fun w _ => Ok match w with Database => false | _ => true end)
    (fun _ => pret true) []
  = (Ok false,
     [RunWorkflow Cloud; RunWorkflow Url; RunWorkflow Server;
      RunWorkflow Database; RunWorkflow Environment;
      Makedirs (py_str "src/data/output");
      Makedirs (py_str "src/data/input"); SetupLogging; ParseArgs]).
Proof.
  intros a.
  exact (proj1 (proj2 (proj2 (proj2
    (@main_runs_selected_workflows (Ok a) None (fun _ => None)
       (fun w _ => Ok match w with Database => false | _ => true end)
       (fun _ => pret true) a eq_refl eq_refl)))
    eq_refl eq_refl eq_refl)
    (fun w => match w with Database => false | _ => true end)
    (fun w h _ => eq_refl)).
Defined.

(** ** Further properties of the server data extractor *)

Section FilterLemmas.

Variable row : Type.
Variable System_Name_cell : row -> cell.

Lemma filter_loop_forgets s rest data (self self0 : selection row) :
  filter_loop System_Name_cell (Text s :: rest) data self
  = filter_loop System_Name_cell (Text s :: rest) data self0.
Proof.
  cbn [filter_loop]. now destruct (lower_is_all (strip s)).
Qed.

Lemma filter_loop_last : forall pre s rest data (self self0 : selection row),
  forallb (fun x => is_NaN x || names_cell x) pre = true ->
  filter_loop System_Name_cell (pre ++ Text s :: rest) data self
  = filter_loop System_Name_cell (Text s :: rest) data self0.
Proof.
  induction pre as [|x pre IH]; intros s rest data self self0 H.
  - apply filter_loop_forgets.
  - cbn [forallb] in H. apply andb_prop in H as [Hx H].
    destruct x as [|t|]; try discriminate; cbn [app].
    + change (filter_loop System_Name_cell (NaN :: pre ++ Text s :: rest)
                data self)
        with (filter_loop System_Name_cell (pre ++ Text s :: rest) data
                self).
      now apply IH.
    + cbn in Hx. apply negb_true_iff in Hx.
      transitivity
        (filter_loop System_Name_cell (pre ++ Text s :: rest) data
           {| filtered_server_data :=
                Some (filter
                        (fun r => isin (System_Name_cell r)
                                    (map strip (split_on comma t)))
                        data);
              system_names_list := map strip (split_on comma t) |});
        [cbn [filter_loop]; now rewrite Hx | now apply IH].
Qed.

Lemma filter_loop_missing : forall post data (self : selection row),
  forallb is_NaN post = true ->
  filter_loop System_Name_cell post data self = Ok self.
Proof.
  induction post as [|x post IH]; intros data self H; [reflexivity|].
  cbn [forallb] in H. apply andb_prop in H as [Hx H].
  destruct x; try discriminate. cbn [filter_loop]. now apply IH.
Qed.

End FilterLemmas.

(** X22. [_filter_server_data] keeps the selection of one parameter row
    only.  The rows before the first [all] row must hold names or
    nothing; that [all] row selects every server, whatever follows it.
    Without an [all] row the last row that holds names decides alone:
    the servers kept are those whose system is among its names, and the
    names of the rows before it select nothing. *)
Theorem only_last_parameter_row_counts
    (row : Type) (System_Name_cell : row -> cell)
    (pre post : list cell) (s : str) (server_data : list row)
    (self : selection row) :
  forallb (fun x => is_NaN x || names_cell x) pre = true ->
  (lower_is_all (strip s) = true ->
   _filter_server_data System_Name_cell (pre ++ Text s :: post)
     server_data self
   = Ok (match server_data with [] => false | _ :: _ => true end,
         {| filtered_server_data := Some server_data;
            system_names_list := [py_str "All"] |}))
  /\ (lower_is_all (strip s) = false ->
      forallb is_NaN post = true ->
      let system_names := map strip (split_on comma s) in
      let kept :=
        filter (fun r => isin (System_Name_cell r) system_names)
          server_data in
      _filter_server_data System_Name_cell (pre ++ Text s :: post)
        server_data self
      = Ok (match kept with [] => false | _ :: _ => true end,
            {| filtered_server_data := Some kept;
               system_names_list := system_names |})).
Proof.
  intros Hpre. unfold _filter_server_data.
  rewrite (filter_loop_last System_Name_cell pre s post server_data self
             self Hpre).
  cbn [filter_loop]. split.
  - intros ->. cbn. now destruct server_data.
  - intros -> Hpost. cbv zeta.
    rewrite filter_loop_missing by exact Hpost. cbn.
    now destruct (filter _ server_data).
Qed.

Lemma only_last_parameter_row_counts_witness :
  _filter_server_data (fun r : cell => r)
    [Text (py_str "Billing"); NaN; Text (py_str "Payroll, Ledger"); NaN]
    [Text (py_str "Billing"); Text (py_str "Ledger"); NaN]
    {| filtered_server_data := None; system_names_list := [] |}
  = Ok (true,
        {| filtered_server_data := Some [Text (py_str "Ledger")];
           system_names_list := [py_str "Payroll"; py_str "Ledger"] |}).
Proof.
  exact (proj2 (@only_last_parameter_row_counts cell (fun r => r)
                  [Text (py_str "Billing"); NaN] [NaN]
                  (py_str "Payroll, Ledger")
                  [Text (py_str "Billing"); Text (py_str "Ledger"); NaN]
                  {| filtered_server_data := None;
                     system_names_list := [] |} eq_refl)
           eq_refl eq_refl).
Defined.

(** X23. The client name [_extract_client_name] leaves holds only
    characters that are alphanumeric, underscores and hyphens, and no
    space.  As no path separator is alphanumeric, the file
    [_prepare_output_path] names lies in the output directory itself,
    under the client name followed by [_Server_Data.xlsx].  Without a
    [Client Name] column, or with an empty one, the name is left as it
    was. *)
Theorem server_client_name_is_a_file_name
    (isalnum : char -> bool) (str_of : cell -> str)
    (first : cell) (rest : list cell) (old output_data_dir : str) :
  isalnum slash = false ->
  let client_name :=
    _extract_client_name isalnum str_of (Some (first :: rest)) old in
  (forall c, In c client_name ->
     c <> space /\ (isalnum c = true \/ c = underscore \/ c = hyphen))
  /\ basename (_prepare_output_path output_data_dir client_name)
     = client_name ++ py_str "_Server_Data.xlsx"
  /\ _extract_client_name isalnum str_of None old = old
  /\ _extract_client_name isalnum str_of (Some []) old = old.
Proof.
  intros Hslash client_name.
  assert (Hchars : forall c, In c client_name ->
            c <> space /\ (isalnum c = true \/ c = underscore \/ c = hyphen)).
  { intros c Hc. unfold client_name, _extract_client_name in Hc.
    apply in_map_iff in Hc as (c0 & Hc & Hin).
    apply filter_In in Hin as [_ Hp].
    destruct (char_eqb c0 space) eqn:Hsp.
    - subst c. split; [discriminate | right; now left].
    - subst c0. split.
      + intros ->. discriminate.
      + apply orb_prop in Hp as [Hp | Hp]; [now left|].
        cbn in Hp. rewrite Hsp in Hp. cbn in Hp.
        apply orb_prop in Hp as [Hp | Hp].
        * apply N.eqb_eq in Hp. right. now left.
        * rewrite orb_false_r in Hp. apply N.eqb_eq in Hp.
          right. now right. }
  split; [exact Hchars|]. split; [|split; reflexivity].
  unfold _prepare_output_path. apply basename_path_join.
  - rewrite no_char_app. apply andb_true_intro. split; [|reflexivity].
    unfold no_char. apply forallb_forall. intros c Hc.
    apply negb_true_iff. destruct (char_eqb c slash) eqn:E; [|reflexivity].
    apply N.eqb_eq in E. subst c.
    destruct (Hchars _ Hc) as [_ [H | [H | H]]];
      [congruence | discriminate | discriminate].
  - intros H. apply app_eq_nil in H as [_ H]. discriminate.
Qed.

Lemma server_client_name_is_a_file_name_witness :
  let client_name :=
    _extract_client_name ascii_isalnum
      (fun _ => py_str " ../ACME Corp/2025 ") (Some [NaN]) (py_str "Default")
  in
  client_name = py_str "ACME_Corp2025"
  /\ basename (_prepare_output_path (py_str "src/data/output") client_name)
     = client_name ++ py_str "_Server_Data.xlsx".
Proof.
  intros client_name. split; [reflexivity|].
  exact (proj1 (proj2
    (@server_client_name_is_a_file_name ascii_isalnum
       (fun _ => py_str " ../ACME Corp/2025 ") NaN [] (py_str "Default")
       (py_str "src/data/output") eq_refl))).
Defined.

(** ** Further properties of the summary *)

Lemma str_eqb_sym a b : str_eqb a b = str_eqb b a.
Proof.
  destruct (str_eqb a b) eqn:E, (str_eqb b a) eqn:E'; try reflexivity.
  - apply str_eqb_eq in E. subst. now rewrite str_eqb_refl in E'.
  - apply str_eqb_eq in E'. subst. now rewrite str_eqb_refl in E.
Qed.

Lemma same_cell_sym a b : same_cell a b = same_cell b a.
Proof.
  destruct a, b; cbn; try reflexivity. apply str_eqb_sym.
Qed.

Lemma unique_snoc x : forall l,
  unique (l ++ [x])
  = unique l ++ (if existsb (same_cell x) l then [] else [x]).
Proof.
  induction l as [|a l IH]; [reflexivity|].
  cbn [app unique]. rewrite IH, filter_app. cbn [app]. f_equal. f_equal.
  cbn [existsb].
  destruct (existsb (same_cell x) l); [now rewrite orb_true_r|].
  rewrite orb_false_r. cbn [filter]. rewrite (same_cell_sym a x).
  now destruct (same_cell x a).
Qed.

Lemma existsb_same_cell x l : In x l -> existsb (same_cell x) l = true.
Proof.
  intros H. apply existsb_exists. exists x.
  split; [exact H | apply same_cell_refl].
Qed.

Lemma unique_length : forall l, length (unique l) <= length l.
Proof.
  induction l as [|a l IH]; [reflexivity|]. cbn.
  pose proof (filter_length_le (fun y => negb (same_cell a y)) (unique l)).
  lia.
Qed.

Lemma environments_of_pairs system : forall d,
  map Environment_Type
    (filter (fun r => cell_eqb (System_Name r) system) d)
  = map snd
      (filter (fun p => cell_eqb (fst p) system)
         (map system_and_environment d)).
Proof.
  induction d as [|r d IH]; [reflexivity|]. cbn.
  destruct (cell_eqb (System_Name r) system); cbn; now rewrite IH.
Qed.

(** X21. The summary is made of the system names and environment types
    alone: two inventories that agree on these two columns, row by row,
    give the same summary, whatever their subscriptions and resource
    groups are.  A further row for a system and environment already seen
    changes nothing, and there are at most as many summary rows as
    inventory rows. *)
Theorem summary_depends_on_system_and_environment
    (d1 d2 d : list inventory_row) (r : inventory_row) :
  (map system_and_environment d1 = map system_and_environment d2 ->
   _prepare_data_for_analysis d1 = _prepare_data_for_analysis d2)
  /\ ((exists r', In r' d
                  /\ system_and_environment r' = system_and_environment r) ->
      _prepare_data_for_analysis (d ++ [r]) = _prepare_data_for_analysis d)
  /\ length (_prepare_data_for_analysis d) <= length d.
Proof.
  split; [|split].
  - intros H. unfold _prepare_data_for_analysis. cbv zeta.
    assert (Hs : map System_Name d1 = map System_Name d2).
    { change System_Name with (fun r => fst (system_and_environment r)).
      rewrite <- !(map_map system_and_environment fst). now rewrite H. }
    rewrite Hs. apply map_ext. intros system.
    rewrite !environments_of_pairs, H. reflexivity.
  - intros (r' & Hin & Hkey). injection Hkey as Hsys Henv.
    unfold _prepare_data_for_analysis. cbv zeta.
    rewrite map_app. cbn [map]. rewrite unique_snoc.
    assert (Hseen : existsb (same_cell (System_Name r))
                      (map System_Name d) = true).
    { apply existsb_same_cell. rewrite <- Hsys. now apply in_map. }
    rewrite Hseen, app_nil_r. apply map_ext. intros system.
    assert (He : unique
                   (map Environment_Type
                      (filter (fun x => cell_eqb (System_Name x) system)
                         (d ++ [r])))
                 = unique
                     (map Environment_Type
                        (filter (fun x => cell_eqb (System_Name x) system)
                           d))).
    { rewrite filter_app, map_app. cbn [filter].
      destruct (cell_eqb (System_Name r) system) eqn:E;
        [|cbn; now rewrite app_nil_r].
      cbn [map]. rewrite unique_snoc.
      assert (Hin' : existsb (same_cell (Environment_Type r))
                       (map Environment_Type
                          (filter (fun x => cell_eqb (System_Name x) system)
                             d)) = true).
      { apply existsb_same_cell. rewrite <- Henv. apply in_map.
        apply filter_In. split; [exact Hin|]. now rewrite Hsys. }
      rewrite Hin'. apply app_nil_r. }
    now rewrite He.
  - unfold _prepare_data_for_analysis. cbv zeta. rewrite length_map.
    etransitivity; [apply unique_length|]. now rewrite length_map.
Qed.

Lemma summary_depends_on_system_and_environment_witness :
  let row (env group : str) :=
    {| System_Name := Some (py_str "SysA"); Environment_Type := Some env;
       Subscription_ID := Some (py_str "sub");
       Resource_Group_Name := Some group |} in
  let d := [row (py_str "DEV") (py_str "g1");
            row (py_str "PROD") (py_str "g2")] in
  _prepare_data_for_analysis (d ++ [row (py_str "DEV") (py_str "g3")])
  = _prepare_data_for_analysis d.
Proof.
  intros row d.
  apply (proj1 (proj2
    (@summary_depends_on_system_and_environment [] [] d
       (row (py_str "DEV") (py_str "g3"))))).
  exists (row (py_str "DEV") (py_str "g1")).
  split; [now left | reflexivity].
Defined.
